(** * PiOS drivers: the MS5611 barometer on SPI and the WS2811 LED strip

    A shallow embedding of [flight/PiOS/Common/pios_ms5611_spi.c] and
    [flight/PiOS/STM32F4xx/pios_ws2811.c].

    Machine integers are [Z] with the wrap-around of their C type written
    out.  The global device pointer and the function-local statics of the
    barometer driver live in an explicit machine state that is threaded
    through a small state-and-failure monad; the SPI bus is an environment
    that answers the n-th claim and the n-th block transfer.  The LED
    driver is a record that is passed and returned. *)

From Stdlib Require Import ZArith Lia List Bool.
From stdpp Require Import base list.
Import ListNotations.
Local Open Scope Z_scope.

(** ** C integer types *)

Module CInt.

Definition wrap_unsigned (w z : Z) : Z := z mod 2 ^ w.
Definition wrap_signed (w z : Z) : Z := (z + 2 ^ (w - 1)) mod 2 ^ w - 2 ^ (w - 1).

Definition to_uint8 : Z -> Z := wrap_unsigned 8.
Definition to_uint16 : Z -> Z := wrap_unsigned 16.
Definition to_uint32 : Z -> Z := wrap_unsigned 32.
Definition to_int32 : Z -> Z := wrap_signed 32.
Definition to_int64 : Z -> Z := wrap_signed 64.

(** [int] arithmetic (32 bits on the target). *)
Definition sub32 (a b : Z) : Z := to_int32 (a - b).
Definition shl32 (a n : Z) : Z := to_int32 (Z.shiftl a n).
Definition or32 (a b : Z) : Z := to_int32 (Z.lor a b).

(** [int64_t] arithmetic; [>>] on a signed operand keeps the sign. *)
Definition add64 (a b : Z) : Z := to_int64 (a + b).
Definition sub64 (a b : Z) : Z := to_int64 (a - b).
Definition mul64 (a b : Z) : Z := to_int64 (a * b).
Definition shl64 (a n : Z) : Z := to_int64 (Z.shiftl a n).
Definition sar64 (a n : Z) : Z := Z.shiftr a n.

Definition is_uint8 (z : Z) : Prop := 0 <= z < 256.
Definition is_uint16 (z : Z) : Prop := 0 <= z < 65536.

End CInt.
Import CInt.

(** ** MS5611 barometer *)

Module MS5611.

(** MS5611 Addresses *)
Definition MS5611_RESET : Z := 0x1E.
Definition MS5611_CALIB_ADDR : Z := 0xA2.
Definition MS5611_ADC_READ : Z := 0x00.
Definition MS5611_PRES_ADDR : Z := 0x40.
Definition MS5611_TEMP_ADDR : Z := 0x50.

Definition PIOS_MS5611_DEV_MAGIC : Z := 0xefba8e10.

Inductive conversion_type : Set := PRESSURE_CONV | TEMPERATURE_CONV.

(** The two fields of [struct pios_ms5611_cfg] that the driver reads. *)
Record pios_ms5611_cfg : Set := {
  oversampling : Z;
  temperature_interleaving : Z
}.

Record ms5611_dev : Set := {
  cfg : pios_ms5611_cfg;
  spi_id : Z;
  slave_num : Z;
  pressure_unscaled : Z;
  temperature_unscaled : Z;
  calibration : list Z;
  current_conversion_type : conversion_type;
  magic : Z
}.

(** What the driver does to the outside world, in order. *)
Inductive event : Set :=
| SpiTransferByte (b : Z)
| DelayWaitmS (ms : Z)
| ThreadSleep (ms : Z)
| QueueSend (temperature_unscaled pressure_unscaled timeout : Z)
| SensorsRegister
| ThreadCreate.

(** The machine: the global [dev] pointer (NULL is [None]), the statics
    [delta_temp] and [temperature] of [PIOS_MS5611_ReadADC], the [busy]
    semaphore, how many bus claims and block transfers were made so far,
    and the events emitted. *)
Record state : Set := {
  dev : option ms5611_dev;
  delta_temp : Z;
  temperature : Z;
  busy_taken : bool;
  spi_claims : nat;
  spi_blocks : nat;
  trace : list event
}.

Inductive outcome (A : Type) : Type :=
| Done (a : A) (s : state)
| Fatal
| Spinning.
Arguments Done {A} a s.
Arguments Fatal {A}.
Arguments Spinning {A}.

(** [Fatal]: a [PIOS_Assert] failed or NULL was dereferenced.
    [Spinning]: a busy-wait loop used up the fuel it was given. *)
Definition M (A : Type) : Type := state -> outcome A.

Definition ret {A : Type} (a : A) : M A := fun s => Done a s.

Definition bind {A B : Type} (m : M A) (f : A -> M B) : M B := fun s =>
  match m s with
  | Done a s' => f a s'
  | Fatal => Fatal
  | Spinning => Spinning
  end.

Declare Scope driver_scope.
Delimit Scope driver_scope with driver.
Notation "x ← y ; z" := (bind y (fun x => z))
  (at level 20, y at level 100, z at level 200, only parsing) : driver_scope.
Notation "' x ← y ; z" := (bind y (fun x => z))
  (at level 20, x pattern, y at level 100, z at level 200, only parsing) : driver_scope.
Notation "x ;; z" := (bind x (fun _ => z))
  (at level 100, z at level 200, only parsing, right associativity) : driver_scope.
Local Open Scope driver_scope.

(** State updates, one per component. *)
Definition upd_dev (d : option ms5611_dev) (s : state) : state :=
  {| dev := d; delta_temp := delta_temp s; temperature := temperature s;
     busy_taken := busy_taken s; spi_claims := spi_claims s;
     spi_blocks := spi_blocks s; trace := trace s |}.

Definition upd_statics (dt t : Z) (s : state) : state :=
  {| dev := dev s; delta_temp := dt; temperature := t;
     busy_taken := busy_taken s; spi_claims := spi_claims s;
     spi_blocks := spi_blocks s; trace := trace s |}.

Definition upd_busy (b : bool) (s : state) : state :=
  {| dev := dev s; delta_temp := delta_temp s; temperature := temperature s;
     busy_taken := b; spi_claims := spi_claims s;
     spi_blocks := spi_blocks s; trace := trace s |}.

Definition next_claim (s : state) : state :=
  {| dev := dev s; delta_temp := delta_temp s; temperature := temperature s;
     busy_taken := busy_taken s; spi_claims := S (spi_claims s);
     spi_blocks := spi_blocks s; trace := trace s |}.

Definition next_block (s : state) : state :=
  {| dev := dev s; delta_temp := delta_temp s; temperature := temperature s;
     busy_taken := busy_taken s; spi_claims := spi_claims s;
     spi_blocks := S (spi_blocks s); trace := trace s |}.

Definition log (e : event) (s : state) : state :=
  {| dev := dev s; delta_temp := delta_temp s; temperature := temperature s;
     busy_taken := busy_taken s; spi_claims := spi_claims s;
     spi_blocks := spi_blocks s; trace := trace s ++ [e] |}.

Definition the_dev : M ms5611_dev := fun s =>
  match dev s with
  | Some d => Done d s
  | None => Fatal
  end.

Definition set_dev (d : option ms5611_dev) : M unit := fun s => Done tt (upd_dev d s).

Definition emit (e : event) : M unit := fun s => Done tt (log e s).

Definition set_statics (dt t : Z) : M unit := fun s => Done tt (upd_statics dt t s).

Definition get_statics : M (Z * Z) := fun s => Done (delta_temp s, temperature s) s.

Definition with_temperature_unscaled (d : ms5611_dev) (t : Z) : ms5611_dev :=
  {| cfg := cfg d; spi_id := spi_id d; slave_num := slave_num d;
     pressure_unscaled := pressure_unscaled d; temperature_unscaled := t;
     calibration := calibration d;
     current_conversion_type := current_conversion_type d; magic := magic d |}.

Definition with_pressure_unscaled (d : ms5611_dev) (p : Z) : ms5611_dev :=
  {| cfg := cfg d; spi_id := spi_id d; slave_num := slave_num d;
     pressure_unscaled := p; temperature_unscaled := temperature_unscaled d;
     calibration := calibration d;
     current_conversion_type := current_conversion_type d; magic := magic d |}.

Definition with_current_conversion_type (d : ms5611_dev) (t : conversion_type)
  : ms5611_dev :=
  {| cfg := cfg d; spi_id := spi_id d; slave_num := slave_num d;
     pressure_unscaled := pressure_unscaled d;
     temperature_unscaled := temperature_unscaled d;
     calibration := calibration d;
     current_conversion_type := t; magic := magic d |}.

Definition with_calibration (d : ms5611_dev) (c : list Z) : ms5611_dev :=
  {| cfg := cfg d; spi_id := spi_id d; slave_num := slave_num d;
     pressure_unscaled := pressure_unscaled d;
     temperature_unscaled := temperature_unscaled d;
     calibration := c;
     current_conversion_type := current_conversion_type d; magic := magic d |}.

Definition with_bus (d : ms5611_dev) (id slave : Z) (c : pios_ms5611_cfg)
  : ms5611_dev :=
  {| cfg := c; spi_id := id; slave_num := slave;
     pressure_unscaled := pressure_unscaled d;
     temperature_unscaled := temperature_unscaled d;
     calibration := calibration d;
     current_conversion_type := current_conversion_type d; magic := magic d |}.

(** [calibration[i]] *)
Definition cal (d : ms5611_dev) (i : nat) : Z := nth i (calibration d) 0.

(** [data[i]] *)
Definition byte_at (data : list Z) (i : nat) : Z := nth i data 0.

Definition PIOS_Assert (b : bool) : M unit := fun s =>
  if b then Done tt s else Fatal.

Definition initial_state : state :=
  {| dev := None; delta_temp := 0; temperature := 0; busy_taken := false;
     spi_claims := 0; spi_blocks := 0; trace := [] |}.

(** The environment.  [spi_claim n] tells whether the n-th call of
    [PIOS_SPI_ClaimBus] gets the bus; [spi_block n] is what the n-th
    [PIOS_SPI_TransferBlock] receives, [None] when it reports an error.
    The four booleans are the outcomes of the allocations made by
    [PIOS_MS5611_SPI_Init]; [stack_garbage i] is the byte found at offset
    [i] of an automatic buffer that was never written.  The five
    [MS5611_OSR_] fields are the enumerators of [enum pios_ms5611_osr],
    which [pios_ms5611_priv.h] declares. *)
Record environment : Type := {
  spi_claim : nat -> bool;
  spi_block : nat -> option (list Z);
  malloc_ok : bool;
  queue_ok : bool;
  semaphore_ok : bool;
  thread_ok : bool;
  stack_garbage : nat -> Z;
  MS5611_OSR_256 : Z;
  MS5611_OSR_512 : Z;
  MS5611_OSR_1024 : Z;
  MS5611_OSR_2048 : Z;
  MS5611_OSR_4096 : Z
}.

Section Driver.

Variable env : environment.

Definition uninitialised (len : nat) : list Z :=
  map (fun i => to_uint8 (stack_garbage env i)) (seq 0 len).

(** *** External primitives *)

Definition PIOS_SPI_ClaimBus (id : Z) : M Z := fun s =>
  Done (if spi_claim env (spi_claims s) then 0 else -1) (next_claim s).

Definition PIOS_SPI_ReleaseBus (id : Z) : M Z := ret 0.

Definition PIOS_SPI_RC_PinSet (id slave pin_value : Z) : M unit := ret tt.

Definition PIOS_SPI_TransferByte (id b : Z) : M unit :=
  emit (SpiTransferByte b).

(** The model has no clock: a delay is recorded, not waited for. *)
Definition PIOS_DELAY_WaitmS (ms : Z) : M unit := emit (DelayWaitmS ms).

Definition PIOS_Thread_Sleep (ms : Z) : M unit := emit (ThreadSleep ms).

(** What a transfer of [len] bytes leaves in the receive buffer. *)
Definition received (rx : list Z) (len : nat) : list Z :=
  map (fun i => to_uint8 (nth i rx 0)) (seq 0 len).

Definition PIOS_SPI_TransferBlock (id : Z) (len : nat) : M (option (list Z)) := fun s =>
  Done (match spi_block env (spi_blocks s) with
        | Some rx => Some (received rx len)
        | None => None
        end)
       (next_block s).

(** A binary semaphore seen by a single thread: taking it when it is
    already taken times out, giving it when it is free fails. *)
Definition PIOS_Semaphore_Take : M bool := fun s =>
  Done (negb (busy_taken s)) (upd_busy true s).

Definition PIOS_Semaphore_Give : M bool := fun s =>
  Done (busy_taken s) (upd_busy false s).

(** *** The driver *)

(** [memset] leaves every field zero; [PRESSURE_CONV] is the enumerator 0. *)
Definition PIOS_MS5611_alloc : M (option ms5611_dev) :=
  if negb (malloc_ok env) then ret None else
  if negb (queue_ok env) then ret None else
  PIOS_Assert (semaphore_ok env);;
  ret (Some {| cfg := {| oversampling := 0; temperature_interleaving := 0 |};
               spi_id := 0; slave_num := 0;
               pressure_unscaled := 0; temperature_unscaled := 0;
               calibration := [0; 0; 0; 0; 0; 0];
               current_conversion_type := PRESSURE_CONV;
               magic := PIOS_MS5611_DEV_MAGIC |}).

Definition PIOS_MS5611_Validate (d : option ms5611_dev) : Z :=
  match d with
  | None => -1
  | Some d =>
      if negb (magic d =? PIOS_MS5611_DEV_MAGIC) then -2
      else if spi_id d =? 0 then -3
      else 0
  end.

Definition validate : M Z := fun s => Done (PIOS_MS5611_Validate (dev s)) s.

Definition PIOS_MS5611_ClaimDevice : M Z :=
  v ← validate;
  PIOS_Assert (v =? 0);;
  t ← PIOS_Semaphore_Take;
  ret (if t then 0 else 1).

Definition PIOS_MS5611_ReleaseDevice : M Z :=
  v ← validate;
  PIOS_Assert (v =? 0);;
  g ← PIOS_Semaphore_Give;
  ret (if g then 0 else 1).

Definition PIOS_MS5611_ClaimBus : M Z :=
  v ← validate;
  if negb (v =? 0) then ret (-1) else
  d ← the_dev;
  c ← PIOS_SPI_ClaimBus (spi_id d);
  if negb (c =? 0) then ret (-2) else
  PIOS_SPI_RC_PinSet (spi_id d) (slave_num d) 0;;
  ret 0.

Definition PIOS_MS5611_ReleaseBus : M Z :=
  v ← validate;
  if negb (v =? 0) then ret (-1) else
  d ← the_dev;
  PIOS_SPI_RC_PinSet (spi_id d) (slave_num d) 1;;
  PIOS_SPI_ReleaseBus (spi_id d).

(** Returns the status and the buffer as the call leaves it. *)
Definition PIOS_MS5611_Read (address : Z) (buffer : list Z) (len : nat)
  : M (Z * list Z) :=
  v ← validate;
  if negb (v =? 0) then ret (-1, buffer) else
  c ← PIOS_MS5611_ClaimBus;
  if negb (c =? 0) then ret (-2, buffer) else
  d ← the_dev;
  PIOS_SPI_TransferByte (spi_id d) address;;
  r ← PIOS_SPI_TransferBlock (spi_id d) len;
  let rc_buffer := match r with
                   | None => (-3, buffer)
                   | Some rx => (0, rx)
                   end in
  PIOS_MS5611_ReleaseBus;;
  ret rc_buffer.

Definition PIOS_MS5611_WriteCommand (command : Z) : M Z :=
  v ← validate;
  if negb (v =? 0) then ret (-1) else
  c ← PIOS_MS5611_ClaimBus;
  if negb (c =? 0) then ret (-2) else
  d ← the_dev;
  PIOS_SPI_TransferByte (spi_id d) command;;
  PIOS_MS5611_ReleaseBus;;
  ret 0.

(** The loop [while (PIOS_MS5611_WriteCommand(base + oversampling) != 0)
    continue;], with [fuel] bounding the number of attempts. *)
Fixpoint while_WriteCommand_fails (fuel : nat) (base : Z) : M unit :=
  match fuel with
  | O => fun _ => Spinning
  | S fuel' =>
      d ← the_dev;
      rc ← PIOS_MS5611_WriteCommand (to_uint8 (base + oversampling (cfg d)));
      if negb (rc =? 0) then while_WriteCommand_fails fuel' base else ret tt
  end.

Definition PIOS_MS5611_StartADC (fuel : nat) (type : conversion_type) : M Z :=
  v ← validate;
  if negb (v =? 0) then ret (-1) else
  match type with
  | TEMPERATURE_CONV => while_WriteCommand_fails fuel MS5611_TEMP_ADDR
  | PRESSURE_CONV => while_WriteCommand_fails fuel MS5611_PRES_ADDR
  end;;
  d ← the_dev;
  set_dev (Some (with_current_conversion_type d type));;
  ret 0.

Definition PIOS_MS5611_GetDelay : M Z :=
  v ← validate;
  if negb (v =? 0) then ret 100 else
  d ← the_dev;
  let osr := oversampling (cfg d) in
  if osr =? MS5611_OSR_256 env then ret 2
  else if osr =? MS5611_OSR_512 env then ret 2
  else if osr =? MS5611_OSR_1024 env then ret 3
  else if osr =? MS5611_OSR_2048 env then ret 5
  else if osr =? MS5611_OSR_4096 env then ret 10
  else ret 10.

Definition PIOS_MS5611_ReadADC : M Z :=
  v ← validate;
  if negb (v =? 0) then ret (-1) else
  d ← the_dev;
  let data := uninitialised 3 in
  match current_conversion_type d with
  | TEMPERATURE_CONV =>
      ' (rc, data) ← PIOS_MS5611_Read MS5611_ADC_READ data 3;
      if negb (rc =? 0) then ret (-1) else
      let raw_temperature :=
        to_uint32 (or32 (or32 (shl32 (byte_at data 0) 16) (shl32 (byte_at data 1) 8))
                        (byte_at data 2)) in
      d ← the_dev;
      let delta_temp := sub32 (to_int32 raw_temperature) (shl32 (cal d 4) 8) in
      let temperature := add64 2000 (sar64 (mul64 delta_temp (cal d 5)) 23) in
      set_statics delta_temp temperature;;
      set_dev (Some (with_temperature_unscaled d temperature));;
      (if temperature <? 2000 then
         d ← the_dev;
         set_dev (Some (with_temperature_unscaled d
                          (sub64 (temperature_unscaled d)
                                 (sar64 (mul64 delta_temp delta_temp) 31))))
       else ret tt);;
      ret 0
  | PRESSURE_CONV =>
      ' (rc, data) ← PIOS_MS5611_Read MS5611_ADC_READ data 3;
      if negb (rc =? 0) then ret (-1) else
      let raw_pressure :=
        to_uint32 (or32 (or32 (shl32 (byte_at data 0) 16) (shl32 (byte_at data 1) 8))
                        (shl32 (byte_at data 2) 0)) in
      d ← the_dev;
      ' (delta_temp, temperature) ← get_statics;
      let offset := add64 (shl64 (cal d 1) 16) (sar64 (mul64 (cal d 3) delta_temp) 7) in
      let sens := shl64 (cal d 0) 15 in
      let sens := add64 sens (sar64 (mul64 (cal d 2) delta_temp) 8) in
      let ' (offset, sens) :=
        if temperature <? 2000 then
          let offset :=
            sub64 offset (sar64 (mul64 (mul64 5 (sub64 temperature 2000))
                                       (sub64 temperature 2000)) 1) in
          let sens :=
            sub64 sens (sar64 (mul64 (mul64 5 (sub64 temperature 2000))
                                     (sub64 temperature 2000)) 2) in
          if temperature_unscaled d <? -1500 then
            (sub64 offset (mul64 (mul64 7 (add64 temperature 1500))
                                 (add64 temperature 1500)),
             sub64 sens (sar64 (mul64 (mul64 11 (add64 temperature 1500))
                                      (add64 temperature 1500)) 1))
          else (offset, sens)
        else (offset, sens) in
      set_dev (Some (with_pressure_unscaled d
                       (sar64 (sub64 (sar64 (mul64 raw_pressure sens) 21) offset) 15)));;
      ret 0
  end.

(** The calibration loop of [PIOS_MS5611_SPI_Init]: [n] iterations are
    left, the next index is [i]; the status of the read is dropped. *)
Fixpoint read_calibration (n i : nat) (data : list Z) : M unit :=
  match n with
  | O => ret tt
  | S n' =>
      ' (_, data) ← PIOS_MS5611_Read (to_uint8 (MS5611_CALIB_ADDR + Z.of_nat i * 2)) data 2;
      d ← the_dev;
      set_dev (Some (with_calibration d
                       (<[i := to_uint16 (or32 (shl32 (byte_at data 0) 8) (byte_at data 1))]>
                          (calibration d))));;
      read_calibration n' (S i) data
  end.

Definition PIOS_MS5611_SPI_Init (spi_id slave_num : Z) (cfg : pios_ms5611_cfg) : M Z :=
  a ← PIOS_MS5611_alloc;
  set_dev a;;
  match a with
  | None => ret (-1)
  | Some d =>
      set_dev (Some (with_bus d spi_id slave_num cfg));;
      rc ← PIOS_MS5611_WriteCommand MS5611_RESET;
      if negb (rc =? 0) then ret (-2) else
      PIOS_DELAY_WaitmS 20;;
      read_calibration 6 0 (uninitialised 2);;
      emit SensorsRegister;;
      emit ThreadCreate;;
      PIOS_Assert (thread_ok env);;
      ret 0
  end.

Definition PIOS_MS5611_SPI_Test (fuel : nat) : M Z :=
  v ← validate;
  if negb (v =? 0) then ret (-1) else
  PIOS_MS5611_ClaimDevice;;
  PIOS_MS5611_StartADC fuel TEMPERATURE_CONV;;
  ms ← PIOS_MS5611_GetDelay;
  PIOS_DELAY_WaitmS ms;;
  PIOS_MS5611_ReadADC;;
  PIOS_MS5611_ReleaseDevice;;
  PIOS_MS5611_ClaimDevice;;
  PIOS_MS5611_StartADC fuel PRESSURE_CONV;;
  ms ← PIOS_MS5611_GetDelay;
  PIOS_DELAY_WaitmS ms;;
  PIOS_MS5611_ReadADC;;
  PIOS_MS5611_ReleaseDevice;;
  d ← the_dev;
  if (temperature_unscaled d <? -4000) || (temperature_unscaled d >? 8500)
     || (pressure_unscaled d <? 1000) || (pressure_unscaled d >? 120000)
  then ret (-1)
  else ret 0.

(** One pass through the body of [while (1)] in [PIOS_MS5611_Task]; the
    result is the counter the next pass starts from.  The sample that is
    queued is computed in floating point from the two unscaled readings,
    which is what the event records. *)
Definition Task_iteration (fuel : nat) (temp_press_interleave_count : Z) : M Z :=
  let temp_press_interleave_count := to_uint32 (temp_press_interleave_count - 1) in
  temp_press_interleave_count ←
    (if temp_press_interleave_count =? 0 then
       PIOS_MS5611_ClaimDevice;;
       PIOS_MS5611_StartADC fuel TEMPERATURE_CONV;;
       ms ← PIOS_MS5611_GetDelay;
       PIOS_Thread_Sleep ms;;
       PIOS_MS5611_ReadADC;;
       PIOS_MS5611_ReleaseDevice;;
       d ← the_dev;
       let temp_press_interleave_count :=
         to_uint32 (temperature_interleaving (cfg d)) in
       if temp_press_interleave_count =? 0 then ret 1
       else ret temp_press_interleave_count
     else ret temp_press_interleave_count);
  PIOS_MS5611_ClaimDevice;;
  PIOS_MS5611_StartADC fuel PRESSURE_CONV;;
  ms ← PIOS_MS5611_GetDelay;
  PIOS_Thread_Sleep ms;;
  read_adc_result ← PIOS_MS5611_ReadADC;
  PIOS_MS5611_ReleaseDevice;;
  d ← the_dev;
  (if read_adc_result =? 0
   then emit (QueueSend (temperature_unscaled d) (pressure_unscaled d) 0)
   else ret tt);;
  ret temp_press_interleave_count.

(** The first [iterations] passes of the endless loop. *)
Fixpoint Task_loop (iterations fuel : nat) (temp_press_interleave_count : Z) : M Z :=
  match iterations with
  | O => ret temp_press_interleave_count
  | S n =>
      c ← Task_iteration fuel temp_press_interleave_count;
      Task_loop n fuel c
  end.

Definition PIOS_MS5611_Task (iterations fuel : nat) : M Z :=
  Task_loop iterations fuel 1.

(** The body of [while (1)] cut at its pressure read.  Up to the read: the
    temperature block when it is due, then the device is claimed, the
    pressure conversion started and waited for. *)
Definition Task_until_pressure_read (fuel : nat) (temp_press_interleave_count : Z) : M Z :=
  let temp_press_interleave_count := to_uint32 (temp_press_interleave_count - 1) in
  temp_press_interleave_count ←
    (if temp_press_interleave_count =? 0 then
       PIOS_MS5611_ClaimDevice;;
       PIOS_MS5611_StartADC fuel TEMPERATURE_CONV;;
       ms ← PIOS_MS5611_GetDelay;
       PIOS_Thread_Sleep ms;;
       PIOS_MS5611_ReadADC;;
       PIOS_MS5611_ReleaseDevice;;
       d ← the_dev;
       let temp_press_interleave_count :=
         to_uint32 (temperature_interleaving (cfg d)) in
       if temp_press_interleave_count =? 0 then ret 1
       else ret temp_press_interleave_count
     else ret temp_press_interleave_count);
  PIOS_MS5611_ClaimDevice;;
  PIOS_MS5611_StartADC fuel PRESSURE_CONV;;
  ms ← PIOS_MS5611_GetDelay;
  PIOS_Thread_Sleep ms;;
  ret temp_press_interleave_count.

(** From the result of the read on: the device is released and the sample
    queued if the read returned 0. *)
Definition Task_after_pressure_read (temp_press_interleave_count read_adc_result : Z)
  : M Z :=
  PIOS_MS5611_ReleaseDevice;;
  d ← the_dev;
  (if read_adc_result =? 0
   then emit (QueueSend (temperature_unscaled d) (pressure_unscaled d) 0)
   else ret tt);;
  ret temp_press_interleave_count.

End Driver.

(** *** Vocabulary of the statements *)

(** The handle passes [PIOS_MS5611_Validate]. *)
Definition valid (s : state) : Prop := PIOS_MS5611_Validate (dev s) = 0.

(** Six calibration words, each a [uint16_t]. *)
Definition calibrated (d : ms5611_dev) : Prop :=
  length (calibration d) = 6%nat /\ Forall is_uint16 (calibration d).

(** What the statics of [PIOS_MS5611_ReadADC] can hold: zero before the
    first temperature conversion, afterwards what a 24-bit code and 16-bit
    calibration words give. *)
Definition statics_bounded (s : state) : Prop :=
  - 2 ^ 24 < delta_temp s < 2 ^ 24 /\
  2000 - 2 ^ 17 <= temperature s < 2000 + 2 ^ 17.

(** The 24-bit code that three received bytes stand for. *)
Definition adc_code (env : environment) (s : state) : Z :=
  match spi_block env (spi_blocks s) with
  | Some rx =>
      to_uint8 (nth 0 rx 0) * 2 ^ 16 + to_uint8 (nth 1 rx 0) * 2 ^ 8 + to_uint8 (nth 2 rx 0)
  | None => 0
  end.

(** From any point on the bus is granted again at some later claim. *)
Definition eventually_granted (env : environment) : Prop :=
  forall n : nat, exists k : nat, spi_claim env (n + k) = true.

(** [k] claims fail from [s] on and the next one is granted. *)
Definition granted_after (env : environment) (s : state) (k : nat) : Prop :=
  (forall j : nat, (j < k)%nat -> spi_claim env (spi_claims s + j) = false) /\
  spi_claim env (spi_claims s + k) = true.

(** The command byte that starts a conversion. *)
Definition conversion_command (osr : Z) (type : conversion_type) : Z :=
  match type with
  | TEMPERATURE_CONV => to_uint8 (MS5611_TEMP_ADDR + osr)
  | PRESSURE_CONV => to_uint8 (MS5611_PRES_ADDR + osr)
  end.

Definition conversion_of (osr : Z) (e : event) : option conversion_type :=
  match e with
  | SpiTransferByte b =>
      if b =? conversion_command osr TEMPERATURE_CONV then Some TEMPERATURE_CONV
      else if b =? conversion_command osr PRESSURE_CONV then Some PRESSURE_CONV
      else None
  | _ => None
  end.

(** The conversions started, read off the bytes sent on the bus. *)
Definition conversions_started (osr : Z) (tr : list event) : list conversion_type :=
  omap (conversion_of osr) tr.

Definition is_QueueSend (e : event) : bool :=
  match e with
  | QueueSend _ _ _ => true
  | _ => false
  end.

(** The samples handed to [PIOS_Queue_Send]. *)
Definition queue_sends (tr : list event) : list event := List.filter is_QueueSend tr.

(** The events of [s'] that [s] did not have yet. *)
Definition emitted_since (s s' : state) : list event := drop (length (trace s)) (trace s').

(** The counter after a pass of the task loop entered with [count]. *)
Definition next_count (c : pios_ms5611_cfg) (count : Z) : Z :=
  if to_uint32 (count - 1) =? 0
  then (if to_uint32 (temperature_interleaving c) =? 0 then 1
        else to_uint32 (temperature_interleaving c))
  else to_uint32 (count - 1).

(** The conversions of [n] passes of the task loop entered with counter
    [count]: a temperature and a pressure conversion when the decremented
    counter is zero, a pressure conversion alone otherwise. *)
Fixpoint schedule (n : nat) (c : pios_ms5611_cfg) (count : Z) : list conversion_type :=
  match n with
  | O => []
  | S n' =>
      (if to_uint32 (count - 1) =? 0
       then [TEMPERATURE_CONV; PRESSURE_CONV]
       else [PRESSURE_CONV])
      ++ schedule n' c (next_count c count)
  end.

(** The configuration the handle points to. *)
Definition dev_cfg (s : state) : option pios_ms5611_cfg := option_map cfg (dev s).

Definition conversion_in_flight (s : state) : option conversion_type :=
  option_map current_conversion_type (dev s).

(** From [s] to [s']: the handle stays valid, its configuration is the
    same, and the events [evs] were emitted. *)
Definition steps_to (s s' : state) (evs : list event) : Prop :=
  valid s' /\ dev_cfg s' = dev_cfg s /\ trace s' = trace s ++ evs.

(** What [PIOS_MS5611_Read] of the ADC puts on the bus: nothing when the
    bus is not granted, else the read command. *)
Definition read_events (evs : list event) : Prop :=
  evs = [] \/ evs = [SpiTransferByte MS5611_ADC_READ].

(** The verdict of the range check that ends [PIOS_MS5611_SPI_Test]. *)
Definition in_datasheet_range (d : ms5611_dev) : Prop :=
  -4000 <= temperature_unscaled d <= 8500 /\
  1000 <= pressure_unscaled d <= 120000.

(** *** A sensor on the bench

    The calibration words and the two ADC codes of the worked example of
    the MS5611 data sheet (2007 centi-degrees, 100009 in units of 0.01
    mbar).  The bus is always granted; the first six block transfers return
    the calibration words, the seventh the temperature code, all later ones
    the pressure code. *)

Definition word_bytes (w : Z) : list Z := [w / 256; w mod 256].

Definition code_bytes (c : Z) : list Z := [c / 65536; (c / 256) mod 256; c mod 256].

Definition bench_calibration : list Z := [40127; 36924; 23317; 23282; 33464; 28312].

Definition bench : environment :=
  {| spi_claim := fun _ => true;
     spi_block := fun n =>
       match nth_error bench_calibration n with
       | Some w => Some (word_bytes w)
       | None => if (n =? 6)%nat then Some (code_bytes 8569150)
                 else Some (code_bytes 9085466)
       end;
     malloc_ok := true; queue_ok := true; semaphore_ok := true; thread_ok := true;
     stack_garbage := fun _ => 0;
     MS5611_OSR_256 := 0; MS5611_OSR_512 := 2; MS5611_OSR_1024 := 4;
     MS5611_OSR_2048 := 6; MS5611_OSR_4096 := 8 |}.

Definition bench_cfg : pios_ms5611_cfg :=
  {| oversampling := 8; temperature_interleaving := 3 |}.

Definition bench_dev : ms5611_dev :=
  {| cfg := bench_cfg; spi_id := 1; slave_num := 0;
     pressure_unscaled := 0; temperature_unscaled := 0;
     calibration := bench_calibration;
     current_conversion_type := PRESSURE_CONV;
     magic := PIOS_MS5611_DEV_MAGIC |}.

(** The machine [PIOS_MS5611_SPI_Init bench 1 0 bench_cfg] leaves behind. *)
Definition bench_ready : state :=
  {| dev := Some bench_dev; delta_temp := 0; temperature := 0; busy_taken := false;
     spi_claims := 7; spi_blocks := 6;
     trace := [SpiTransferByte 0x1E; DelayWaitmS 20;
               SpiTransferByte 0xA2; SpiTransferByte 0xA4;
               SpiTransferByte 0xA6; SpiTransferByte 0xA8; SpiTransferByte 0xAA;
               SpiTransferByte 0xAC; SensorsRegister; ThreadCreate] |}.

(** A bus that is granted for the reset command and never again. *)
Definition starved : environment :=
  {| spi_claim := fun n => (n =? 0)%nat;
     spi_block := fun _ => None;
     malloc_ok := true; queue_ok := true; semaphore_ok := true; thread_ok := true;
     stack_garbage := fun _ => 0xAA;
     MS5611_OSR_256 := 0; MS5611_OSR_512 := 2; MS5611_OSR_1024 := 4;
     MS5611_OSR_2048 := 6; MS5611_OSR_4096 := 8 |}.

(** A bus that is always granted, to a sensor that never answers. *)
Definition unplugged : environment :=
  {| spi_claim := fun _ => true;
     spi_block := fun _ => None;
     malloc_ok := true; queue_ok := true; semaphore_ok := true; thread_ok := true;
     stack_garbage := fun _ => 0xAA;
     MS5611_OSR_256 := 0; MS5611_OSR_512 := 2; MS5611_OSR_1024 := 4;
     MS5611_OSR_2048 := 6; MS5611_OSR_4096 := 8 |}.

(** The bench sensor after a measurement of 20.07 degrees and 1000.09 mbar. *)
Definition bench_measured : state :=
  {| dev := Some (with_pressure_unscaled (with_temperature_unscaled bench_dev 2007) 100009);
     delta_temp := 2366; temperature := 2007; busy_taken := false;
     spi_claims := 11; spi_blocks := 8; trace := [] |}.

(** *** Further vocabulary *)

(** What every operation of the driver keeps once [PIOS_MS5611_SPI_Init]
    has succeeded: a handle that validates, six 16-bit calibration words,
    statics in the range of a temperature pass. *)
Definition ready (s : state) : Prop :=
  valid s /\ (exists d, dev s = Some d /\ calibrated d) /\ statics_bounded s.

(** The value the task resets its counter to. *)
Definition effective_interleaving (c : pios_ms5611_cfg) : Z :=
  if to_uint32 (temperature_interleaving c) =? 0 then 1
  else to_uint32 (temperature_interleaving c).

Definition is_temperature (t : conversion_type) : bool :=
  match t with
  | TEMPERATURE_CONV => true
  | PRESSURE_CONV => false
  end.

Definition temperature_conversions (l : list conversion_type) : nat :=
  length (List.filter is_temperature l).

Definition pressure_conversions (l : list conversion_type) : nat :=
  length (List.filter (fun t => negb (is_temperature t)) l).

(** The 16-bit word two received bytes stand for, most significant first. *)
Definition calibration_word (rx : list Z) : Z :=
  to_uint8 (nth 0 rx 0) * 2 ^ 8 + to_uint8 (nth 1 rx 0).

(** The readings of a machine: what the device holds and the statics. *)
Definition readings (s : state) : option (Z * Z) * Z * Z :=
  (option_map (fun d => (temperature_unscaled d, pressure_unscaled d)) (dev s),
   delta_temp s, temperature s).

(** What a temperature pass leaves behind for the pressure passes. *)
Definition temperature_part (s : state) : option Z * Z * Z :=
  (option_map temperature_unscaled (dev s), delta_temp s, temperature s).

(** What no operation after [PIOS_MS5611_SPI_Init] changes in the device. *)
Definition identity (s : state) : option (pios_ms5611_cfg * Z * Z * list Z * Z) :=
  option_map (fun d => (cfg d, spi_id d, slave_num d, calibration d, magic d)) (dev s).

End MS5611.

(** ** The compensation formulas as the specification words them

    Unbounded integers; [x >> n] is the floor of [x / 2^n].  The two
    coefficients of the correction below -15 degrees (7 and 11/2) are the
    ones the driver uses. *)

Module Reference.

Definition asr (x n : Z) : Z := x / 2 ^ n.

Definition delta_temp (raw c4 : Z) : Z := raw - c4 * 2 ^ 8.

(** The temperature before the second-order correction. *)
Definition temperature (dt c5 : Z) : Z := 2000 + asr (dt * c5) 23.

Definition temperature_unscaled (dt t : Z) : Z :=
  if t <? 2000 then t - asr (dt * dt) 31 else t.

Definition offset (dt t corrected c1 c3 : Z) : Z :=
  let off := c1 * 2 ^ 16 + asr (c3 * dt) 7 in
  if t <? 2000 then
    let off := off - asr (5 * (t - 2000) ^ 2) 1 in
    if corrected <? -1500 then off - 7 * (t + 1500) ^ 2 else off
  else off.

Definition sens (dt t corrected c0 c2 : Z) : Z :=
  let sns := c0 * 2 ^ 15 + asr (c2 * dt) 8 in
  if t <? 2000 then
    let sns := sns - asr (5 * (t - 2000) ^ 2) 2 in
    if corrected <? -1500 then sns - asr (11 * (t + 1500) ^ 2) 1 else sns
  else sns.

Definition pressure_unscaled (raw dt t corrected c0 c1 c2 c3 : Z) : Z :=
  asr (asr (raw * sens dt t corrected c0 c2) 21 - offset dt t corrected c1 c3) 15.

End Reference.

(** ** WS2811 LED strip *)

Module WS2811.

Definition WS2811_MAGIC : Z := 0x31313832.

Definition WS2811_DMA_BUFSIZE : nat := 6 * 24 * 2.

Record ws2811_pixel_data_s : Set := { r : Z; g : Z; b : Z }.

Record pios_ws2811_cfg : Set := { gpio_pin : Z }.

(** Pointers into [pixel_data] are byte offsets from its start. *)
Record ws2811_dev_s : Set := {
  magic : Z;
  cfg : pios_ws2811_cfg;
  max_leds : Z;
  lame_dma_buf : Z;
  dma_buf_0 : list Z;
  dma_buf_1 : list Z;
  gpio_bit : Z;
  cur_buf : bool;
  eof : bool;
  in_progress : bool;
  pixel_data_pos : nat;
  pixel_data_end : nat;
  pixel_data : list ws2811_pixel_data_s
}.

(** What reaches the peripherals. *)
Inductive hw_op : Set :=
| GpioInit (pin : Z)
| DmaCue (bit_set_size : Z) (bit_clear_size : nat).

Record system : Set := {
  device : ws2811_dev_s;
  hardware : list hw_op
}.

(** [AssertFailed]: [PIOS_Assert] stopped the program.  [WildStore]: a
    store through [pixel_data[idx]] landed outside the array. *)
Inductive result (A : Type) : Type :=
| Ok (a : A)
| AssertFailed
| WildStore.
Arguments Ok {A} a.
Arguments AssertFailed {A}.
Arguments WildStore {A}.

(** The pixel array as the bytes [fill_dma_buf] walks over. *)
Definition pixel_bytes (px : list ws2811_pixel_data_s) : list Z :=
  flat_map (fun p => [r p; g p; b p]) px.

Definition with_pixel_data (d : ws2811_dev_s) (px : list ws2811_pixel_data_s)
  : ws2811_dev_s :=
  {| magic := magic d; cfg := cfg d; max_leds := max_leds d;
     lame_dma_buf := lame_dma_buf d;
     dma_buf_0 := dma_buf_0 d; dma_buf_1 := dma_buf_1 d;
     gpio_bit := gpio_bit d; cur_buf := cur_buf d; eof := eof d;
     in_progress := in_progress d;
     pixel_data_pos := pixel_data_pos d; pixel_data_end := pixel_data_end d;
     pixel_data := px |}.

(** The loop [for (int j = 0; j < 8; j++)] with [n] rounds left. *)
Fixpoint blit_bits (n j i : nat) (p gpio_val : Z) (dma_buf : list Z) : list Z :=
  match n with
  | O => dma_buf
  | S n' =>
      let dma_buf :=
        if Z.land p 0x80 =? 0
        then <[(i + j * 2)%nat := gpio_val]> dma_buf
        else <[(i + j * 2)%nat := 0]> dma_buf in
      blit_bits n' (S j) i (to_uint8 (Z.shiftl p 1)) gpio_val dma_buf
  end.

(** The loop [for (int i = 0; i < WS2811_DMA_BUFSIZE; i += 16)] with [n]
    rounds left; [bytes] is the memory [p_d_p] points into. *)
Fixpoint fill_slots (n i : nat) (dma_buf bytes : list Z)
         (p_d_p pixel_data_end : nat) (gpio_val : Z) : list Z * nat :=
  match n with
  | O => (dma_buf, p_d_p)
  | S n' =>
      if (pixel_data_end <=? p_d_p)%nat then (dma_buf, p_d_p)
      else
        let p := nth p_d_p bytes 0 in
        fill_slots n' (i + 16) (blit_bits 8 0 i p gpio_val dma_buf) bytes
                   (S p_d_p) pixel_data_end gpio_val
  end.

(** Returns the buffer, the advanced [*pixel_data_ptr] and the flag. *)
Definition fill_dma_buf (dma_buf bytes : list Z) (pixel_data_ptr pixel_data_end : nat)
           (gpio_val : Z) : list Z * nat * bool :=
  let '(dma_buf, p_d_p) :=
    fill_slots (WS2811_DMA_BUFSIZE / 16) 0 dma_buf bytes pixel_data_ptr
               pixel_data_end gpio_val in
  (dma_buf, p_d_p, (pixel_data_end <=? p_d_p)%nat).

Definition ws2811_cue_dma (m : system) : system :=
  {| device := device m;
     hardware := hardware m ++ [DmaCue (max_leds (device m)) WS2811_DMA_BUFSIZE] |}.

Definition PIOS_WS2811_trigger_update (m : system) : system :=
  let dev := device m in
  if in_progress dev then m
  else
    let bytes := pixel_bytes (pixel_data dev) in
    let '(buf_0, pos, _) :=
      fill_dma_buf (dma_buf_0 dev) bytes 0 (pixel_data_end dev) (gpio_bit dev) in
    let '(buf_1, pos, _) :=
      fill_dma_buf (dma_buf_1 dev) bytes pos (pixel_data_end dev) (gpio_bit dev) in
    ws2811_cue_dma
      {| device :=
           {| magic := magic dev; cfg := cfg dev; max_leds := max_leds dev;
              lame_dma_buf := lame_dma_buf dev;
              dma_buf_0 := buf_0; dma_buf_1 := buf_1;
              gpio_bit := gpio_bit dev; cur_buf := false; eof := false;
              in_progress := true;
              pixel_data_pos := pos; pixel_data_end := pixel_data_end dev;
              pixel_data := pixel_data dev |};
         hardware := hardware m |}.

(** [idx] is an [int] and [max_leds] a [uint16_t]: the comparison is
    signed, so a negative [idx] passes it. *)
Definition PIOS_WS2811_set (dev : ws2811_dev_s) (idx r g b : Z)
  : result ws2811_dev_s :=
  if negb (magic dev =? WS2811_MAGIC) then AssertFailed
  else if negb (idx <? max_leds dev) then AssertFailed
  else if idx <? 0 then WildStore
  else Ok (with_pixel_data dev
             (<[Z.to_nat idx := {| r := r; g := g; b := b |}]> (pixel_data dev))).

(** The loop [for (int i = 0; i < dev->max_leds; i++)] with [n] rounds left. *)
Fixpoint set_all_from (n : nat) (i : Z) (dev : ws2811_dev_s) (r g b : Z)
  : result ws2811_dev_s :=
  match n with
  | O => Ok dev
  | S n' =>
      match PIOS_WS2811_set dev i r g b with
      | Ok dev => set_all_from n' (i + 1) dev r g b
      | AssertFailed => AssertFailed
      | WildStore => WildStore
      end
  end.

Definition PIOS_WS2811_set_all (dev : ws2811_dev_s) (r g b : Z)
  : result ws2811_dev_s :=
  if negb (magic dev =? WS2811_MAGIC) then AssertFailed
  else set_all_from (Z.to_nat (max_leds dev)) 0 dev r g b.

(** Both buffers after the prefill loop of [PIOS_WS2811_init]. *)
Definition prefilled (gpio_bit : Z) : list Z :=
  flat_map (fun _ => [0; gpio_bit]) (seq 0 (WS2811_DMA_BUFSIZE / 2)).

(** [fresh] is the block [PIOS_malloc] hands out ([None]: no memory): its
    contents are arbitrary, and the fields the function does not assign
    keep them.  The result is the status and [*dev_out]. *)
Definition PIOS_WS2811_init (fresh : option ws2811_dev_s) (cfg : pios_ws2811_cfg)
           (max_leds : Z) : result (Z * option system) :=
  if negb (max_leds >? 0) then AssertFailed
  else if negb (max_leds <=? 1024) then AssertFailed
  else
    match fresh with
    | None => Ok (-1, None)
    | Some mem =>
        if negb (Z.land (gpio_pin cfg) 0xff00 =? 0) && negb (Z.land (gpio_pin cfg) 0xff =? 0)
        then AssertFailed
        else
          let gpio_bit :=
            if negb (Z.land (gpio_pin cfg) 0xff00 =? 0)
            then to_uint8 (Z.shiftr (gpio_pin cfg) 8)
            else to_uint8 (gpio_pin cfg) in
          let dev :=
            {| magic := WS2811_MAGIC; cfg := cfg; max_leds := to_uint16 max_leds;
               lame_dma_buf := gpio_bit;
               dma_buf_0 := prefilled gpio_bit; dma_buf_1 := prefilled gpio_bit;
               gpio_bit := gpio_bit;
               cur_buf := cur_buf mem; eof := eof mem; in_progress := in_progress mem;
               pixel_data_pos := pixel_data_pos mem;
               pixel_data_end := (3 * Z.to_nat max_leds)%nat;
               pixel_data := pixel_data mem |} in
          match PIOS_WS2811_set_all dev 0 0 0 with
          | Ok dev =>
              Ok (0, Some {| device := dev; hardware := [GpioInit (gpio_pin cfg)] |})
          | AssertFailed => AssertFailed
          | WildStore => WildStore
          end
    end.

(** *** Calls made by the application, one after the other *)

Inductive call : Set :=
| CallSet (idx r g b : Z)
| CallSetAll (r g b : Z)
| CallTriggerUpdate.

Definition with_device (m : system) (d : ws2811_dev_s) : system :=
  {| device := d; hardware := hardware m |}.

(** *** A store in front of the pixel array

    A negative [idx] passes the assertion of [PIOS_WS2811_set], and the
    three bytes are stored at [pixel_data + 3 * idx]: into the fields in
    front of the array, or in front of the structure.  On the target
    (32-bit ARM: 4-byte pointers, natural alignment, little endian) the
    fields of [ws2811_dev_s] lie at these byte offsets:

      magic 0, cfg 4, max_leds 8, lame_dma_buf 10, dma_buf_0 11,
      dma_buf_1 299, padding 587, gpio_bsrrh_address 588,
      gpio_bsrrl_address 592, gpio_bit 596, cur_buf 597, eof 598,
      in_progress 599, pixel_data_pos 600, pixel_data_end 604,
      pixel_data 608.

    The record carries neither addresses nor the two port pointers: a
    pointer one of whose bytes is overwritten may afterwards point
    anywhere, a store to the port pointers, to the padding or outside the
    structure leaves the record as it is. *)

Definition PIXEL_DATA_OFFSET : Z := 608.

Definition with_header (d : ws2811_dev_s) (magic : Z) (cfg : pios_ws2811_cfg)
           (max_leds : Z) : ws2811_dev_s :=
  {| magic := magic; cfg := cfg; max_leds := max_leds;
     lame_dma_buf := lame_dma_buf d;
     dma_buf_0 := dma_buf_0 d; dma_buf_1 := dma_buf_1 d;
     gpio_bit := gpio_bit d; cur_buf := cur_buf d; eof := eof d;
     in_progress := in_progress d;
     pixel_data_pos := pixel_data_pos d; pixel_data_end := pixel_data_end d;
     pixel_data := pixel_data d |}.

Definition with_buffers (d : ws2811_dev_s) (lame_dma_buf : Z)
           (dma_buf_0 dma_buf_1 : list Z) : ws2811_dev_s :=
  {| magic := magic d; cfg := cfg d; max_leds := max_leds d;
     lame_dma_buf := lame_dma_buf;
     dma_buf_0 := dma_buf_0; dma_buf_1 := dma_buf_1;
     gpio_bit := gpio_bit d; cur_buf := cur_buf d; eof := eof d;
     in_progress := in_progress d;
     pixel_data_pos := pixel_data_pos d; pixel_data_end := pixel_data_end d;
     pixel_data := pixel_data d |}.

Definition with_flags (d : ws2811_dev_s) (gpio_bit : Z)
           (cur_buf eof in_progress : bool) : ws2811_dev_s :=
  {| magic := magic d; cfg := cfg d; max_leds := max_leds d;
     lame_dma_buf := lame_dma_buf d;
     dma_buf_0 := dma_buf_0 d; dma_buf_1 := dma_buf_1 d;
     gpio_bit := gpio_bit; cur_buf := cur_buf; eof := eof;
     in_progress := in_progress;
     pixel_data_pos := pixel_data_pos d; pixel_data_end := pixel_data_end d;
     pixel_data := pixel_data d |}.

Definition with_cursor (d : ws2811_dev_s) (pixel_data_pos pixel_data_end : nat)
  : ws2811_dev_s :=
  {| magic := magic d; cfg := cfg d; max_leds := max_leds d;
     lame_dma_buf := lame_dma_buf d;
     dma_buf_0 := dma_buf_0 d; dma_buf_1 := dma_buf_1 d;
     gpio_bit := gpio_bit d; cur_buf := cur_buf d; eof := eof d;
     in_progress := in_progress d;
     pixel_data_pos := pixel_data_pos; pixel_data_end := pixel_data_end;
     pixel_data := pixel_data d |}.

(** Byte [k] of the little-endian integer [w] replaced by [v]. *)
Definition set_byte (w k v : Z) : Z :=
  w - (w / 2 ^ (8 * k)) mod 256 * 2 ^ (8 * k) + v * 2 ^ (8 * k).

(** A [bool] read back from a byte. *)
Definition bool_of_byte (v : Z) : bool := negb (v =? 0).

(** The devices the store of byte [v] at [offset] from the start of the
    structure, below [PIXEL_DATA_OFFSET], can leave. *)
Definition store_byte (d : ws2811_dev_s) (offset v : Z) (d' : ws2811_dev_s) : Prop :=
  if offset <? 0 then d' = d
  else if offset <? 4 then
    d' = with_header d (set_byte (magic d) offset v) (cfg d) (max_leds d)
  else if offset <? 8 then
    exists c, d' = with_header d (magic d) c (max_leds d)
  else if offset <? 10 then
    d' = with_header d (magic d) (cfg d) (set_byte (max_leds d) (offset - 8) v)
  else if offset <? 11 then
    d' = with_buffers d v (dma_buf_0 d) (dma_buf_1 d)
  else if offset <? 299 then
    d' = with_buffers d (lame_dma_buf d)
           (<[Z.to_nat (offset - 11) := v]> (dma_buf_0 d)) (dma_buf_1 d)
  else if offset <? 587 then
    d' = with_buffers d (lame_dma_buf d) (dma_buf_0 d)
           (<[Z.to_nat (offset - 299) := v]> (dma_buf_1 d))
  else if offset <? 596 then d' = d
  else if offset <? 597 then
    d' = with_flags d v (cur_buf d) (eof d) (in_progress d)
  else if offset <? 598 then
    d' = with_flags d (gpio_bit d) (bool_of_byte v) (eof d) (in_progress d)
  else if offset <? 599 then
    d' = with_flags d (gpio_bit d) (cur_buf d) (bool_of_byte v) (in_progress d)
  else if offset <? 600 then
    d' = with_flags d (gpio_bit d) (cur_buf d) (eof d) (bool_of_byte v)
  else if offset <? 604 then
    exists pos, d' = with_cursor d pos (pixel_data_end d)
  else
    exists pend, d' = with_cursor d (pixel_data_pos d) pend.

(** [dev->pixel_data[idx] = { .r = r, .g = g, .b = b }] for [idx < 0]. *)
Definition wild_store (d : ws2811_dev_s) (idx r g b : Z) (d' : ws2811_dev_s) : Prop :=
  let offset := PIXEL_DATA_OFFSET + 3 * idx in
  exists d1 d2,
    store_byte d offset r d1 /\
    store_byte d1 (offset + 1) g d2 /\
    store_byte d2 (offset + 2) b d'.

(** A call that returns.  A call that stops in [PIOS_Assert] has no
    successor: the program halts there. *)
Inductive step : system -> call -> system -> Prop :=
| step_set m idx r g b d :
    PIOS_WS2811_set (device m) idx r g b = Ok d ->
    step m (CallSet idx r g b) (with_device m d)
| step_set_wild m idx r g b d :
    PIOS_WS2811_set (device m) idx r g b = WildStore ->
    wild_store (device m) idx r g b d ->
    step m (CallSet idx r g b) (with_device m d)
| step_set_all m r g b d :
    PIOS_WS2811_set_all (device m) r g b = Ok d ->
    step m (CallSetAll r g b) (with_device m d)
| step_trigger_update m :
    step m CallTriggerUpdate (PIOS_WS2811_trigger_update m).

(** The states a program can be in once it has called
    [PIOS_WS2811_trigger_update] on [m0], with the calls it has made since,
    the latest first. *)
Inductive after_trigger (m0 : system) : list call -> system -> Prop :=
| after_first : after_trigger m0 [] (PIOS_WS2811_trigger_update m0)
| after_more cs m c m' :
    after_trigger m0 cs m -> step m c m' -> after_trigger m0 (c :: cs) m'.

(** The index of the call, if it has one, is not negative. *)
Definition index_not_negative (c : call) : Prop :=
  match c with
  | CallSet idx _ _ _ => 0 <= idx
  | _ => True
  end.

(** The bit positions (0 is the most significant bit) of the first slot
    group of [dma_buf] whose even cell carries [gpio_val]. *)
Definition early_fall_positions (dma_buf : list Z) (gpio_val : Z) : list nat :=
  filter (fun j => dma_buf !! (2 * j)%nat = Some gpio_val) (seq 0 8).

(** The value the encoding rule puts in the even cell of bit position [j]
    of byte [p]: 0 for a one bit, [gpio_val] for a zero bit. *)
Definition encoded_cell (p : Z) (j : nat) (gpio_val : Z) : Z :=
  if Z.testbit p (7 - Z.of_nat j) then 0 else gpio_val.

(** The even and the odd cells of the first eight slots of a buffer. *)
Definition even_cells (buf : list Z) : list (option Z) :=
  map (fun j => buf !! (2 * j)%nat) (seq 0 8).

Definition odd_cells (buf : list Z) : list (option Z) :=
  map (fun j => buf !! (2 * j + 1)%nat) (seq 0 8).

(** The operand of [p & 0x80] in round [j] of the inner loop. *)
Definition tested (p : Z) (j : nat) : Z :=
  Z.land (Nat.iter j (fun q => to_uint8 (Z.shiftl q 1)) p) 0x80.

(** *** Further vocabulary *)

(** The shape [PIOS_WS2811_init] gives a device and every call keeps. *)
Definition well_formed (d : ws2811_dev_s) : Prop :=
  magic d = WS2811_MAGIC /\
  0 < max_leds d <= 1024 /\
  length (pixel_data d) = Z.to_nat (max_leds d) /\
  pixel_data_end d = (3 * length (pixel_data d))%nat /\
  length (dma_buf_0 d) = WS2811_DMA_BUFSIZE /\
  length (dma_buf_1 d) = WS2811_DMA_BUFSIZE.

(** Every colour component is a [uint8_t]. *)
Definition pixels_are_bytes (px : list ws2811_pixel_data_s) : Prop :=
  Forall (fun p => is_uint8 (r p) /\ is_uint8 (g p) /\ is_uint8 (b p)) px.

(** The byte [fill_dma_buf] reads at offset [k]. *)
Definition byte_of (bytes : list Z) (k : nat) : Z := nth k bytes 0.

(** Cell [m] of a buffer into which the [count] bytes from offset [pos] on
    were encoded, starting at cell [base]: an even cell of a slot group in
    use follows the encoding rule, every other cell is the old one. *)
Definition encoded_lookup (old : list Z) (bytes : list Z) (base pos count : nat)
           (gpio_val : Z) (m : nat) : option Z :=
  if (base <=? m)%nat && (m <? base + 16 * count)%nat && ((m - base) mod 2 =? 0)%nat
  then Some (encoded_cell (byte_of bytes (pos + (m - base) / 16))
                          (((m - base) mod 16) / 2) gpio_val)
  else old !! m.

(** *** A strip of two LEDs on pin 3 *)

Definition strip_cfg : pios_ws2811_cfg := {| gpio_pin := 8 |}.

(** What [PIOS_malloc] returned: nothing in it is meaningful yet. *)
Definition strip_memory : ws2811_dev_s :=
  {| magic := 0; cfg := {| gpio_pin := 0 |}; max_leds := 0; lame_dma_buf := 0;
     dma_buf_0 := repeat 0 WS2811_DMA_BUFSIZE; dma_buf_1 := repeat 0 WS2811_DMA_BUFSIZE;
     gpio_bit := 0; cur_buf := false; eof := false; in_progress := false;
     pixel_data_pos := 0; pixel_data_end := 0;
     pixel_data := [{| r := 7; g := 7; b := 7 |}; {| r := 7; g := 7; b := 7 |}] |}.

(** The device [PIOS_WS2811_init strip_memory strip_cfg 2] hands out. *)
Definition strip : system :=
  {| device :=
       {| magic := WS2811_MAGIC; cfg := strip_cfg; max_leds := 2; lame_dma_buf := 8;
          dma_buf_0 := prefilled 8; dma_buf_1 := prefilled 8;
          gpio_bit := 8; cur_buf := false; eof := false; in_progress := false;
          pixel_data_pos := 0; pixel_data_end := 6;
          pixel_data := [{| r := 0; g := 0; b := 0 |}; {| r := 0; g := 0; b := 0 |}] |};
     hardware := [GpioInit 8] |}.

(** A block from [PIOS_malloc] whose [in_progress] byte happens to be set,
    and the device [PIOS_WS2811_init] makes of it. *)
Definition stale_memory : ws2811_dev_s :=
  {| magic := 0; cfg := {| gpio_pin := 0 |}; max_leds := 0; lame_dma_buf := 0;
     dma_buf_0 := repeat 0 WS2811_DMA_BUFSIZE; dma_buf_1 := repeat 0 WS2811_DMA_BUFSIZE;
     gpio_bit := 0; cur_buf := false; eof := false; in_progress := true;
     pixel_data_pos := 0; pixel_data_end := 0;
     pixel_data := [{| r := 7; g := 7; b := 7 |}; {| r := 7; g := 7; b := 7 |}] |}.

Definition stale_strip : system :=
  {| device :=
       {| magic := WS2811_MAGIC; cfg := strip_cfg; max_leds := 2; lame_dma_buf := 8;
          dma_buf_0 := prefilled 8; dma_buf_1 := prefilled 8;
          gpio_bit := 8; cur_buf := false; eof := false; in_progress := true;
          pixel_data_pos := 0; pixel_data_end := 6;
          pixel_data := [{| r := 0; g := 0; b := 0 |}; {| r := 0; g := 0; b := 0 |}] |};
     hardware := [GpioInit 8] |}.

End WS2811.

(** * Proofs *)

(** ** Machine integers *)

Module CInt_Facts.

Lemma to_int64_small z : - 2 ^ 63 <= z < 2 ^ 63 -> to_int64 z = z.
Proof.
  intros H. unfold to_int64, wrap_signed.
  change (2 ^ (64 - 1)) with (2 ^ 63). rewrite Z.mod_small; lia.
Qed.

Lemma to_int32_small z : - 2 ^ 31 <= z < 2 ^ 31 -> to_int32 z = z.
Proof.
  intros H. unfold to_int32, wrap_signed.
  change (2 ^ (32 - 1)) with (2 ^ 31). rewrite Z.mod_small; lia.
Qed.

Lemma to_uint32_small z : 0 <= z < 2 ^ 32 -> to_uint32 z = z.
Proof. intros H. unfold to_uint32, wrap_unsigned. apply Z.mod_small; lia. Qed.

Lemma to_uint8_range z : 0 <= to_uint8 z < 256.
Proof. unfold to_uint8, wrap_unsigned. change (2 ^ 8) with 256. apply Z.mod_pos_bound. lia. Qed.

Lemma to_uint16_range z : is_uint16 (to_uint16 z).
Proof. unfold is_uint16, to_uint16, wrap_unsigned. change (2 ^ 16) with 65536. apply Z.mod_pos_bound. lia. Qed.

Lemma land_shiftl_low a b n : 0 <= n -> 0 <= b < 2 ^ n -> Z.land (a * 2 ^ n) b = 0.
Proof.
  intros Hn Hb. apply Z.bits_inj'. intros i Hi.
  rewrite Z.land_spec, Z.bits_0.
  destruct (Z.lt_ge_cases i n) as [Hlt | Hge].
  - rewrite Z.mul_pow2_bits_low by lia. reflexivity.
  - destruct (Z.eq_dec b 0) as [-> | Hb0].
    + rewrite Z.bits_0. apply andb_false_r.
    + rewrite (Z.bits_above_log2 b i); [apply andb_false_r | lia |].
      apply Z.log2_lt_pow2; [lia |].
      apply Z.lt_le_trans with (2 ^ n); [lia |].
      apply Z.pow_le_mono_r; lia.
Qed.

Lemma lor_shiftl_low a b n :
  0 <= n -> 0 <= b < 2 ^ n -> Z.lor (Z.shiftl a n) b = a * 2 ^ n + b.
Proof.
  intros Hn Hb. rewrite Z.shiftl_mul_pow2 by lia.
  pose proof (land_shiftl_low a b n Hn Hb) as Hl.
  rewrite <- Z.lxor_lor by exact Hl. symmetry. apply Z.add_nocarry_lxor. exact Hl.
Qed.

(** [(b0 << 16) | (b1 << 8) | b2] in [int] arithmetic. *)
Lemma adc_word b0 b1 b2 :
  is_uint8 b0 -> is_uint8 b1 -> is_uint8 b2 ->
  to_uint32 (or32 (or32 (shl32 b0 16) (shl32 b1 8)) b2) = b0 * 2 ^ 16 + b1 * 2 ^ 8 + b2.
Proof.
  unfold is_uint8, or32, shl32. intros H0 H1 H2.
  rewrite (Z.shiftl_mul_pow2 b1 8) by lia.
  rewrite (to_int32_small (Z.shiftl b0 16)) by (rewrite Z.shiftl_mul_pow2; lia).
  rewrite (to_int32_small (b1 * 2 ^ 8)) by lia.
  rewrite (lor_shiftl_low b0 (b1 * 2 ^ 8) 16) by lia.
  rewrite (to_int32_small (b0 * 2 ^ 16 + b1 * 2 ^ 8)) by lia.
  replace (b0 * 2 ^ 16 + b1 * 2 ^ 8) with (Z.shiftl (b0 * 2 ^ 8 + b1) 8)
    by (rewrite Z.shiftl_mul_pow2 by lia; lia).
  rewrite (lor_shiftl_low (b0 * 2 ^ 8 + b1) b2 8) by lia.
  rewrite to_int32_small by lia.
  rewrite to_uint32_small by lia. rewrite Z.shiftl_mul_pow2 by lia. reflexivity.
Qed.

Lemma shl32_0 b : is_uint8 b -> shl32 b 0 = b.
Proof. unfold is_uint8, shl32. intros H. rewrite Z.shiftl_0_r. apply to_int32_small. lia. Qed.

Lemma sar64_div x n : 0 <= n -> sar64 x n = x / 2 ^ n.
Proof. intros H. apply Z.shiftr_div_pow2. exact H. Qed.

End CInt_Facts.

Module MS5611_Arith.
Import CInt_Facts.

Lemma asr_bounds x n lo hi :
  0 <= n -> lo * 2 ^ n <= x < hi * 2 ^ n -> lo <= Reference.asr x n < hi.
Proof.
  intros Hn [Hlo Hhi]. unfold Reference.asr.
  assert (0 < 2 ^ n) by (apply Z.pow_pos_nonneg; lia).
  split.
  - apply Z.div_le_lower_bound; lia.
  - apply Z.div_lt_upper_bound; lia.
Qed.

(** The temperature branch never leaves the range of its types. *)
Lemma temperature_branch raw c4 c5 :
  0 <= raw < 2 ^ 24 -> is_uint16 c4 -> is_uint16 c5 ->
  let dt := sub32 (to_int32 raw) (shl32 c4 8) in
  let t := add64 2000 (sar64 (mul64 dt c5) 23) in
  dt = Reference.delta_temp raw c4 /\
  t = Reference.temperature dt c5 /\
  (- 2 ^ 24 < dt < 2 ^ 24) /\
  (2000 - 2 ^ 17 <= t < 2000 + 2 ^ 17) /\
  sub64 t (sar64 (mul64 dt dt) 31) = t - Reference.asr (dt * dt) 31.
Proof.
  unfold is_uint16. intros Hraw H4 H5.
  assert (Hdt : sub32 (to_int32 raw) (shl32 c4 8) = Reference.delta_temp raw c4).
  { unfold sub32, shl32, Reference.delta_temp.
    rewrite Z.shiftl_mul_pow2 by lia.
    rewrite (to_int32_small raw), (to_int32_small (c4 * 2 ^ 8)) by lia.
    apply to_int32_small. lia. }
  cbv zeta. rewrite Hdt.
  set (dt := Reference.delta_temp raw c4).
  assert (Bdt : - 2 ^ 24 < dt < 2 ^ 24) by (unfold dt, Reference.delta_temp; lia).
  assert (Bm : - 2 ^ 40 <= dt * c5 < 2 ^ 40) by nia.
  pose proof (asr_bounds (dt * c5) 23 (- 2 ^ 17) (2 ^ 17) ltac:(lia) ltac:(lia)) as Bs.
  assert (Ht : add64 2000 (sar64 (mul64 dt c5) 23) = Reference.temperature dt c5).
  { unfold add64, mul64, Reference.temperature.
    rewrite (to_int64_small (dt * c5)) by lia.
    rewrite sar64_div by lia. fold (Reference.asr (dt * c5) 23).
    apply to_int64_small. lia. }
  rewrite Ht. unfold Reference.temperature at 2 3 4.
  assert (Bq : 0 <= dt * dt < 2 ^ 48) by nia.
  pose proof (asr_bounds (dt * dt) 31 0 (2 ^ 17) ltac:(lia) ltac:(lia)) as Bs2.
  repeat split; try lia.
  unfold sub64, mul64. rewrite (to_int64_small (dt * dt)) by lia.
  rewrite sar64_div by lia. fold (Reference.asr (dt * dt) 31).
  unfold Reference.temperature.
  apply to_int64_small. lia.
Qed.

Lemma sar64_asr x n : 0 <= n -> sar64 x n = Reference.asr x n.
Proof. intros H. apply sar64_div. exact H. Qed.

Lemma shl64_mul c n : 0 <= n -> shl64 c n = to_int64 (c * 2 ^ n).
Proof. intros H. unfold shl64. rewrite Z.shiftl_mul_pow2 by exact H. reflexivity. Qed.

Lemma pressure_branch raw dt t corrected c0 c1 c2 c3 :
  0 <= raw < 2 ^ 24 ->
  - 2 ^ 24 < dt < 2 ^ 24 ->
  2000 - 2 ^ 17 <= t < 2000 + 2 ^ 17 ->
  is_uint16 c0 -> is_uint16 c1 -> is_uint16 c2 -> is_uint16 c3 ->
  (let offset := add64 (shl64 c1 16) (sar64 (mul64 c3 dt) 7) in
   let sens := shl64 c0 15 in
   let sens := add64 sens (sar64 (mul64 c2 dt) 8) in
   let ' (offset, sens) :=
     if t <? 2000 then
       let offset :=
         sub64 offset (sar64 (mul64 (mul64 5 (sub64 t 2000)) (sub64 t 2000)) 1) in
       let sens :=
         sub64 sens (sar64 (mul64 (mul64 5 (sub64 t 2000)) (sub64 t 2000)) 2) in
       if corrected <? -1500 then
         (sub64 offset (mul64 (mul64 7 (add64 t 1500)) (add64 t 1500)),
          sub64 sens (sar64 (mul64 (mul64 11 (add64 t 1500)) (add64 t 1500)) 1))
       else (offset, sens)
     else (offset, sens) in
   sar64 (sub64 (sar64 (mul64 raw sens) 21) offset) 15) =
  Reference.pressure_unscaled raw dt t corrected c0 c1 c2 c3.
Proof.
  unfold is_uint16. intros Hraw Hdt Ht H0 H1 H2 H3.
  cbv zeta. unfold Reference.pressure_unscaled, Reference.offset, Reference.sens.
  unfold add64, sub64, mul64. rewrite !shl64_mul by lia.
  rewrite !sar64_asr by lia.
  assert (B3 : - 2 ^ 40 <= c3 * dt < 2 ^ 40) by nia.
  assert (B2 : - 2 ^ 40 <= c2 * dt < 2 ^ 40) by nia.
  pose proof (asr_bounds (c3 * dt) 7 (- 2 ^ 33) (2 ^ 33) ltac:(lia) ltac:(lia)) as A3.
  pose proof (asr_bounds (c2 * dt) 8 (- 2 ^ 32) (2 ^ 32) ltac:(lia) ltac:(lia)) as A2.
  set (off0 := c1 * 2 ^ 16 + Reference.asr (c3 * dt) 7) in *.
  set (sns0 := c0 * 2 ^ 15 + Reference.asr (c2 * dt) 8) in *.
  assert (Boff0 : - 2 ^ 33 <= off0 < 2 ^ 34) by (unfold off0; lia).
  assert (Bsns0 : - 2 ^ 32 <= sns0 < 2 ^ 33) by (unfold sns0; lia).
  rewrite (to_int64_small (c3 * dt)), (to_int64_small (c2 * dt)) by lia.
  rewrite (to_int64_small (c1 * 2 ^ 16)), (to_int64_small (c0 * 2 ^ 15)) by lia.
  fold off0 sns0.
  rewrite (to_int64_small off0), (to_int64_small sns0) by lia.
  assert (final : forall off sns,
             - 2 ^ 39 <= off < 2 ^ 39 -> - 2 ^ 38 <= sns < 2 ^ 38 ->
             sar64 (to_int64 (sar64 (to_int64 (raw * sns)) 21 - off)) 15 =
             Reference.asr (Reference.asr (raw * sns) 21 - off) 15).
  { intros off sns Bo Bs. rewrite !sar64_asr by lia.
    assert (Bp : - 2 ^ 62 <= raw * sns < 2 ^ 62) by nia.
    pose proof (asr_bounds (raw * sns) 21 (- 2 ^ 41) (2 ^ 41) ltac:(lia) ltac:(lia)) as Ap.
    rewrite (to_int64_small (raw * sns)) by lia.
    rewrite to_int64_small by lia. reflexivity. }
  destruct (t <? 2000) eqn:Hlt; [| apply final; lia].
  apply Z.ltb_lt in Hlt.
  set (u := t - 2000) in *.
  assert (Bu : - 2 ^ 17 <= u < 0) by (unfold u; lia).
  rewrite (to_int64_small u) by lia.
  rewrite (to_int64_small (5 * u)) by lia.
  assert (Buu : 0 <= 5 * u * u <= 5 * 2 ^ 34) by nia.
  rewrite (to_int64_small (5 * u * u)) by lia.
  replace (5 * u ^ 2) with (5 * u * u) by ring.
  pose proof (asr_bounds (5 * u * u) 1 0 (2 ^ 37) ltac:(lia) ltac:(lia)) as A51.
  pose proof (asr_bounds (5 * u * u) 2 0 (2 ^ 36) ltac:(lia) ltac:(lia)) as A52.
  rewrite (to_int64_small (off0 - _)), (to_int64_small (sns0 - _)) by lia.
  destruct (corrected <? -1500); [| apply final; lia].
  set (v := t + 1500) in *.
  assert (Bv : - 2 ^ 17 <= v < 2 ^ 12) by (unfold v, u in *; lia).
  rewrite (to_int64_small v) by lia.
  rewrite (to_int64_small (7 * v)), (to_int64_small (11 * v)) by lia.
  assert (Bvv : 0 <= v * v <= 2 ^ 34) by nia.
  rewrite (to_int64_small (7 * v * v)), (to_int64_small (11 * v * v)) by nia.
  replace (7 * v ^ 2) with (7 * v * v) by ring.
  replace (11 * v ^ 2) with (11 * v * v) by ring.
  pose proof (asr_bounds (11 * v * v) 1 0 (2 ^ 37) ltac:(lia) ltac:(nia)) as A11.
  rewrite (to_int64_small (off0 - _ - _)) by nia.
  rewrite (to_int64_small (sns0 - _ - _)) by lia.
  apply final; nia.
Qed.

End MS5611_Arith.

(** ** The barometer driver *)

Module MS5611_Facts.
Import MS5611 CInt_Facts MS5611_Arith.

#[local] Arguments to_uint8 : simpl never.
#[local] Arguments to_uint16 : simpl never.
#[local] Arguments to_uint32 : simpl never.
#[local] Arguments to_int32 : simpl never.
#[local] Arguments to_int64 : simpl never.
#[local] Arguments received : simpl never.
#[local] Arguments uninitialised : simpl never.
#[local] Arguments Z.mul : simpl never.
#[local] Arguments Z.add : simpl never.
#[local] Arguments Z.sub : simpl never.
#[local] Arguments Z.shiftl : simpl never.
#[local] Arguments Z.shiftr : simpl never.
#[local] Arguments Z.lor : simpl never.
#[local] Arguments Z.ltb : simpl never.
#[local] Arguments add64 : simpl never.
#[local] Arguments sub64 : simpl never.
#[local] Arguments mul64 : simpl never.
#[local] Arguments shl64 : simpl never.
#[local] Arguments sar64 : simpl never.
#[local] Arguments sub32 : simpl never.
#[local] Arguments shl32 : simpl never.
#[local] Arguments or32 : simpl never.

Lemma valid_inv s :
  valid s ->
  exists d, dev s = Some d /\
            (magic d =? PIOS_MS5611_DEV_MAGIC) = true /\ (spi_id d =? 0) = false.
Proof.
  unfold valid, PIOS_MS5611_Validate. destruct (dev s) as [d|]; [|discriminate].
  destruct (magic d =? _) eqn:Hm; simpl; [|discriminate].
  destruct (spi_id d =? 0) eqn:Hi; [discriminate|]. intros _. exists d. auto.
Qed.

Lemma bind_Done {A B} (m : M A) (f : A -> M B) s a s' :
  m s = Done a s' -> bind m f s = f a s'.
Proof. intros H. unfold bind. rewrite H. reflexivity. Qed.

Lemma bind_inv {A B} (m : M A) (f : A -> M B) s b s'' :
  bind m f s = Done b s'' -> exists a s', m s = Done a s' /\ f a s' = Done b s''.
Proof.
  unfold bind. destruct (m s) as [a s'| |]; [|discriminate..].
  intros H. exists a, s'. auto.
Qed.

(** Symbolic execution on a state whose handle is known to be valid. *)
Ltac drive Hd Hm Hi :=
  repeat (progress (cbn; rewrite ?Hd, ?Hm, ?Hi)).

Lemma iter_next_claim_dev k s : dev (Nat.iter k next_claim s) = dev s.
Proof. induction k; simpl; auto. Qed.

Lemma iter_next_claim_trace k s : trace (Nat.iter k next_claim s) = trace s.
Proof. induction k; simpl; auto. Qed.

Lemma iter_next_claim_claims k s :
  spi_claims (Nat.iter k next_claim s) = (spi_claims s + k)%nat.
Proof. induction k; simpl; [lia | rewrite IHk; lia]. Qed.

Lemma iter_next_claim_shift k s :
  Nat.iter k next_claim (next_claim s) = next_claim (Nat.iter k next_claim s).
Proof. induction k; simpl; [reflexivity | rewrite IHk; reflexivity]. Qed.

Section WithEnv.
Variable env : environment.

Lemma validate_run s : validate s = Done (PIOS_MS5611_Validate (dev s)) s.
Proof. reflexivity. Qed.

Lemma WriteCommand_run s c :
  valid s ->
  PIOS_MS5611_WriteCommand env c s =
    if spi_claim env (spi_claims s)
    then Done 0 (log (SpiTransferByte c) (next_claim s))
    else Done (-2) (next_claim s).
Proof.
  intros (d & Hd & Hm & Hi)%valid_inv.
  unfold PIOS_MS5611_WriteCommand, PIOS_MS5611_ClaimBus, PIOS_MS5611_ReleaseBus,
    validate, the_dev, bind, ret, PIOS_SPI_ClaimBus, PIOS_SPI_TransferByte,
    PIOS_SPI_RC_PinSet, PIOS_SPI_ReleaseBus, emit, PIOS_MS5611_Validate.
  drive Hd Hm Hi.
  destruct (spi_claim env (spi_claims s)); drive Hd Hm Hi; reflexivity.
Qed.

Lemma Read_run s address buffer len :
  valid s ->
  PIOS_MS5611_Read env address buffer len s =
    if spi_claim env (spi_claims s)
    then Done (match spi_block env (spi_blocks s) with
               | Some rx => (0, received rx len)
               | None => (-3, buffer)
               end)
              (next_block (log (SpiTransferByte address) (next_claim s)))
    else Done (-2, buffer) (next_claim s).
Proof.
  intros (d & Hd & Hm & Hi)%valid_inv.
  unfold PIOS_MS5611_Read, PIOS_MS5611_ClaimBus, PIOS_MS5611_ReleaseBus,
    validate, the_dev, bind, ret, PIOS_SPI_ClaimBus, PIOS_SPI_TransferByte,
    PIOS_SPI_TransferBlock, PIOS_SPI_RC_PinSet, PIOS_SPI_ReleaseBus, emit,
    PIOS_MS5611_Validate.
  drive Hd Hm Hi.
  destruct (spi_claim env (spi_claims s)); drive Hd Hm Hi; [|reflexivity].
  destruct (spi_block env (spi_blocks s)); reflexivity.
Qed.

Lemma ClaimDevice_run s :
  valid s ->
  PIOS_MS5611_ClaimDevice s = Done (if busy_taken s then 1 else 0) (upd_busy true s).
Proof.
  intros Hv. unfold PIOS_MS5611_ClaimDevice, validate, bind, ret, PIOS_Assert,
    PIOS_Semaphore_Take.
  rewrite Hv. cbn. destruct (busy_taken s); reflexivity.
Qed.

Lemma ReleaseDevice_run s :
  valid s ->
  PIOS_MS5611_ReleaseDevice s = Done (if busy_taken s then 0 else 1) (upd_busy false s).
Proof.
  intros Hv. unfold PIOS_MS5611_ReleaseDevice, validate, bind, ret, PIOS_Assert,
    PIOS_Semaphore_Give.
  rewrite Hv. cbn. destruct (busy_taken s); reflexivity.
Qed.

Lemma GetDelay_ok s :
  valid s -> exists ms, PIOS_MS5611_GetDelay env s = Done ms s.
Proof.
  intros Hv. destruct (valid_inv s Hv) as (d & Hd & _).
  unfold PIOS_MS5611_GetDelay.
  rewrite (bind_Done _ _ _ _ _ (validate_run s)). rewrite Hv. cbn [Z.eqb negb].
  unfold the_dev, bind, ret. rewrite Hd. cbv zeta.
  repeat match goal with
         | |- context [if ?b then _ else _] => destruct b
         end; eexists; reflexivity.
Qed.

(** The retry loop: [k] refused claims, then the command goes out. *)
Lemma while_WriteCommand_fails_run k : forall s d base fuel,
  valid s -> dev s = Some d ->
  granted_after env s k ->
  (k < fuel)%nat ->
  while_WriteCommand_fails env fuel base s =
    Done tt (log (SpiTransferByte (to_uint8 (base + oversampling (cfg d))))
                 (Nat.iter (S k) next_claim s)).
Proof.
  induction k as [|k IH]; intros s d base fuel Hv Hd [Hfail Hok] Hfuel;
    (destruct fuel as [|fuel]; [lia|]); cbn [while_WriteCommand_fails].
  - rewrite Nat.add_0_r in Hok.
    unfold the_dev, bind. rewrite Hd, WriteCommand_run, Hok by exact Hv.
    reflexivity.
  - pose proof (Hfail 0%nat ltac:(lia)) as H0. rewrite Nat.add_0_r in H0.
    unfold the_dev, bind. rewrite Hd, WriteCommand_run, H0 by exact Hv.
    cbn. rewrite (IH (next_claim s) d base fuel); try assumption; try lia.
    + cbn [Nat.iter]. rewrite !iter_next_claim_shift. reflexivity.
    + split.
      * intros j Hj. cbn. rewrite <- Nat.add_succ_r. apply Hfail. lia.
      * cbn. rewrite <- Nat.add_succ_r. exact Hok.
Qed.

Lemma while_WriteCommand_fails_spins k : forall s base fuel,
  valid s ->
  (forall j : nat, (j < k)%nat -> spi_claim env (spi_claims s + j) = false) ->
  (fuel <= k)%nat ->
  while_WriteCommand_fails env fuel base s = Spinning.
Proof.
  induction k as [|k IH]; intros s base fuel Hv Hfail Hfuel;
    (destruct fuel as [|fuel]; [reflexivity|]); [lia|].
  destruct (valid_inv s Hv) as (d & Hd & _).
  cbn [while_WriteCommand_fails].
  pose proof (Hfail 0%nat ltac:(lia)) as H0. rewrite Nat.add_0_r in H0.
  unfold the_dev, bind. rewrite Hd, WriteCommand_run, H0 by exact Hv.
  cbn. apply IH; [exact Hv | | lia].
  intros j Hj. cbn. rewrite <- Nat.add_succ_r. apply Hfail. lia.
Qed.

Lemma first_grant n : forall c,
  spi_claim env (c + n) = true ->
  exists k, (forall j : nat, (j < k)%nat -> spi_claim env (c + j) = false) /\
            spi_claim env (c + k) = true.
Proof.
  induction n as [|n IH]; intros c Hn.
  - exists 0%nat. split; [intros j Hj; lia | exact Hn].
  - destruct (spi_claim env c) eqn:Hc.
    + exists 0%nat. split; [intros j Hj; lia | rewrite Nat.add_0_r; exact Hc].
    + destruct (IH (S c)) as (k & Hfail & Hok).
      { rewrite <- Hn. f_equal. lia. }
      exists (S k). split.
      * intros [|j] Hj; [rewrite Nat.add_0_r; exact Hc |].
        rewrite Nat.add_succ_r. apply Hfail. lia.
      * rewrite Nat.add_succ_r. exact Hok.
Qed.

Lemma StartADC_run s d type k fuel :
  valid s -> dev s = Some d ->
  granted_after env s k ->
  (k < fuel)%nat ->
  PIOS_MS5611_StartADC env fuel type s =
    Done 0 (upd_dev (Some (with_current_conversion_type d type))
              (log (SpiTransferByte (conversion_command (oversampling (cfg d)) type))
                   (Nat.iter (S k) next_claim s))).
Proof.
  intros Hv Hd Hg Hfuel. unfold PIOS_MS5611_StartADC.
  rewrite (bind_Done _ _ _ _ _ (validate_run s)). rewrite Hv. cbn [Z.eqb negb].
  destruct type.
  - rewrite (bind_Done _ _ _ _ _
               (while_WriteCommand_fails_run k s d MS5611_PRES_ADDR fuel Hv Hd Hg Hfuel)).
    unfold the_dev, bind, set_dev, ret. cbn [dev log]. rewrite iter_next_claim_dev, Hd. reflexivity.
  - rewrite (bind_Done _ _ _ _ _
               (while_WriteCommand_fails_run k s d MS5611_TEMP_ADDR fuel Hv Hd Hg Hfuel)).
    unfold the_dev, bind, set_dev, ret. cbn [dev log]. rewrite iter_next_claim_dev, Hd. reflexivity.
Qed.

Lemma StartADC_spins s type k fuel :
  valid s ->
  (forall j : nat, (j < k)%nat -> spi_claim env (spi_claims s + j) = false) ->
  (fuel <= k)%nat ->
  PIOS_MS5611_StartADC env fuel type s = Spinning.
Proof.
  intros Hv Hfail Hfuel. unfold PIOS_MS5611_StartADC.
  rewrite (bind_Done _ _ _ _ _ (validate_run s)). rewrite Hv. cbn [Z.eqb negb].
  unfold bind at 1.
  destruct type; rewrite (while_WriteCommand_fails_spins k) by assumption; reflexivity.
Qed.

Lemma StartADC_result s fuel type rc s' :
  valid s ->
  PIOS_MS5611_StartADC env fuel type s = Done rc s' ->
  rc = 0 /\ conversion_in_flight s' = Some type.
Proof.
  intros Hv. unfold PIOS_MS5611_StartADC.
  rewrite (bind_Done _ _ _ _ _ (validate_run s)). rewrite Hv. cbn [Z.eqb negb].
  intros (u & s1 & _ & H)%bind_inv.
  apply bind_inv in H as (d1 & s2 & Hd1 & H).
  unfold set_dev, bind, ret in H. injection H as <- <-.
  split; reflexivity.
Qed.

Lemma cal_uint16 d i : calibrated d -> is_uint16 (cal d i).
Proof.
  intros [_ Hall]. unfold cal.
  destruct (nth_in_or_default i (calibration d) 0) as [Hin | ->].
  - rewrite Forall_forall in Hall. apply Hall. apply list_elem_of_In. exact Hin.
  - unfold is_uint16. lia.
Qed.

Lemma received_3 rx :
  received rx 3 = [to_uint8 (nth 0 rx 0); to_uint8 (nth 1 rx 0); to_uint8 (nth 2 rx 0)].
Proof. reflexivity. Qed.

Lemma ReadADC_refused s :
  valid s -> spi_claim env (spi_claims s) = false ->
  PIOS_MS5611_ReadADC env s = Done (-1) (next_claim s).
Proof.
  intros Hv Hc. destruct (valid_inv s Hv) as (d & Hd & _).
  unfold PIOS_MS5611_ReadADC.
  rewrite (bind_Done _ _ _ _ _ (validate_run s)). rewrite Hv. cbn [Z.eqb negb].
  unfold the_dev at 1. unfold bind at 1. rewrite Hd.
  destruct (current_conversion_type d);
    unfold bind at 1; rewrite Read_run, Hc by exact Hv; reflexivity.
Qed.

Lemma ReadADC_block_error s :
  valid s -> spi_claim env (spi_claims s) = true ->
  spi_block env (spi_blocks s) = None ->
  PIOS_MS5611_ReadADC env s =
    Done (-1) (next_block (log (SpiTransferByte MS5611_ADC_READ) (next_claim s))).
Proof.
  intros Hv Hc Hb. destruct (valid_inv s Hv) as (d & Hd & _).
  unfold PIOS_MS5611_ReadADC.
  rewrite (bind_Done _ _ _ _ _ (validate_run s)). rewrite Hv. cbn [Z.eqb negb].
  unfold the_dev at 1. unfold bind at 1. rewrite Hd.
  destruct (current_conversion_type d);
    unfold bind at 1; rewrite Read_run, Hc, Hb by exact Hv; reflexivity.
Qed.

Lemma ReadADC_ok s :
  valid s ->
  exists rc s' evs,
    PIOS_MS5611_ReadADC env s = Done rc s' /\
    steps_to s s' evs /\ read_events evs /\
    conversion_in_flight s' = conversion_in_flight s /\
    spi_claims s' = S (spi_claims s) /\
    (rc = 0 \/ rc = -1) /\
    (rc = 0 <-> spi_claim env (spi_claims s) = true /\
                spi_block env (spi_blocks s) <> None).
Proof.
  intros Hv.
  destruct (spi_claim env (spi_claims s)) eqn:Hc.
  2:{ exists (-1), (next_claim s), []. rewrite ReadADC_refused by assumption.
      unfold steps_to, read_events, dev_cfg, conversion_in_flight, valid in *. cbn.
      rewrite app_nil_r. intuition congruence. }
  destruct (spi_block env (spi_blocks s)) as [rx|] eqn:Hb.
  2:{ eexists (-1), _, [SpiTransferByte MS5611_ADC_READ].
      rewrite ReadADC_block_error by assumption.
      unfold steps_to, read_events, dev_cfg, conversion_in_flight, valid in *. cbn.
      intuition congruence. }
  destruct (valid_inv s Hv) as (d & Hd & Hm & Hi).
  exists 0. unfold PIOS_MS5611_ReadADC.
  rewrite (bind_Done _ _ _ _ _ (validate_run s)). rewrite Hv. cbn [Z.eqb negb].
  unfold the_dev at 1. unfold bind at 1. rewrite Hd.
  destruct (current_conversion_type d) eqn:Hct;
    unfold bind at 1; rewrite Read_run, Hc, Hb by exact Hv;
    unfold the_dev, set_statics, get_statics, set_dev, bind, ret; cbn; rewrite Hd; cbn.
  - destruct (temperature s <? 2000); [destruct (temperature_unscaled d <? -1500)|];
      (eexists _, [SpiTransferByte MS5611_ADC_READ]; split; [reflexivity|]);
      unfold steps_to, read_events, dev_cfg, conversion_in_flight, valid; cbn;
      rewrite Hd, Hm, Hi; cbn; rewrite Hct; intuition congruence.
  - match goal with |- context [if ?c then _ else _] => destruct c end; cbn;
      (eexists _, [SpiTransferByte MS5611_ADC_READ]; split; [reflexivity|]);
      unfold steps_to, read_events, dev_cfg, conversion_in_flight, valid; cbn;
      rewrite Hd, Hm, Hi; cbn; rewrite Hct; intuition congruence.
Qed.

(** A read that fails returns -1 and leaves the readings and the statics
    of the last temperature pass as they were. *)
Lemma ReadADC_failure_keeps_readings s :
  valid s ->
  spi_claim env (spi_claims s) = false \/ spi_block env (spi_blocks s) = None ->
  exists s',
    PIOS_MS5611_ReadADC env s = Done (-1) s' /\
    dev s' = dev s /\ delta_temp s' = delta_temp s /\ temperature s' = temperature s.
Proof.
  intros Hv Hfail.
  destruct (spi_claim env (spi_claims s)) eqn:Hc.
  - destruct Hfail as [Hfail | Hb]; [discriminate|].
    eexists. split; [apply ReadADC_block_error; assumption|]. auto.
  - eexists. split; [apply ReadADC_refused; assumption|]. auto.
Qed.

Lemma adc_code_range s : 0 <= adc_code env s < 2 ^ 24.
Proof.
  unfold adc_code. destruct (spi_block env (spi_blocks s)) as [rx|]; [|lia].
  pose proof (to_uint8_range (nth 0 rx 0)).
  pose proof (to_uint8_range (nth 1 rx 0)).
  pose proof (to_uint8_range (nth 2 rx 0)). lia.
Qed.

(** C1: with the bus granted and three bytes received, a temperature
    conversion leaves [delta_temp = raw - calibration[4] * 2^8],
    [temperature = 2000 + (delta_temp * calibration[5] >> 23)] and the
    corrected value (less [delta_temp^2 >> 31] exactly when the uncorrected
    one is below 2000) in the device; a pressure conversion stores
    [(((raw * sens) >> 21) - offset) >> 15] for the offset and sens of the
    reference formulas, computed from the statics of the last temperature
    pass.  No 64-bit operation wraps, and the statics stay in range. *)
Theorem ReadADC_bit_exact s d rx :
  dev s = Some d -> valid s -> calibrated d -> statics_bounded s ->
  spi_claim env (spi_claims s) = true ->
  spi_block env (spi_blocks s) = Some rx ->
  let raw := adc_code env s in
  0 <= raw < 2 ^ 24 /\
  exists s' d',
    PIOS_MS5611_ReadADC env s = Done 0 s' /\
    dev s' = Some d' /\ valid s' /\ statics_bounded s' /\
    calibration d' = calibration d /\
    current_conversion_type d' = current_conversion_type d /\
    match current_conversion_type d with
    | TEMPERATURE_CONV =>
        delta_temp s' = Reference.delta_temp raw (cal d 4) /\
        temperature s' = Reference.temperature (delta_temp s') (cal d 5) /\
        temperature_unscaled d' =
          Reference.temperature_unscaled (delta_temp s') (temperature s') /\
        pressure_unscaled d' = pressure_unscaled d
    | PRESSURE_CONV =>
        delta_temp s' = delta_temp s /\ temperature s' = temperature s /\
        temperature_unscaled d' = temperature_unscaled d /\
        pressure_unscaled d' =
          Reference.pressure_unscaled raw (delta_temp s) (temperature s)
            (temperature_unscaled d) (cal d 0) (cal d 1) (cal d 2) (cal d 3)
    end.
Proof.
  intros Hd Hv Hcal Hst Hc Hb raw.
  pose proof (adc_code_range s) as Hraw. fold raw in Hraw.
  split; [exact Hraw|].
  destruct (valid_inv s Hv) as (d0 & Hd0 & Hm & Hi).
  rewrite Hd in Hd0. injection Hd0 as <-.
  assert (B0 := to_uint8_range (nth 0 rx 0)).
  assert (B1 := to_uint8_range (nth 1 rx 0)).
  assert (B2 := to_uint8_range (nth 2 rx 0)).
  assert (Hraw_eq : raw = to_uint8 (nth 0 rx 0) * 2 ^ 16 + to_uint8 (nth 1 rx 0) * 2 ^ 8
                          + to_uint8 (nth 2 rx 0))
    by (unfold raw, adc_code; rewrite Hb; reflexivity).
  unfold PIOS_MS5611_ReadADC.
  rewrite (bind_Done _ _ _ _ _ (validate_run s)). rewrite Hv. cbn [Z.eqb negb].
  unfold the_dev at 1. unfold bind at 1. rewrite Hd.
  destruct (current_conversion_type d) eqn:Hct;
    unfold bind at 1; rewrite Read_run, Hc, Hb by exact Hv;
    unfold the_dev, set_statics, get_statics, set_dev, bind, ret; cbn; rewrite Hd; cbn.
  - (* pressure *)
    rewrite !received_3. unfold byte_at. cbn [nth].
    rewrite shl32_0 by exact B2. rewrite adc_word by assumption. rewrite <- Hraw_eq.
    destruct Hst as [Hdt Ht].
    pose proof (pressure_branch raw (delta_temp s) (temperature s) (temperature_unscaled d)
                  (cal d 0) (cal d 1) (cal d 2) (cal d 3) Hraw Hdt Ht
                  (cal_uint16 d 0 Hcal) (cal_uint16 d 1 Hcal)
                  (cal_uint16 d 2 Hcal) (cal_uint16 d 3 Hcal)) as Hp.
    cbv zeta in Hp.
    destruct (temperature s <? 2000); [destruct (temperature_unscaled d <? -1500)|];
      (eexists _, _; split; [reflexivity|]);
      unfold valid, statics_bounded; cbn; rewrite Hm, Hi; cbn;
      repeat split; try assumption; try reflexivity; try lia; exact Hp.
  - (* temperature *)
    rewrite !received_3. unfold byte_at. cbn [nth].
    rewrite adc_word by assumption. rewrite <- Hraw_eq.
    destruct (temperature_branch raw (cal d 4) (cal d 5) Hraw
                (cal_uint16 d 4 Hcal) (cal_uint16 d 5 Hcal))
      as (Edt & Et & Bdt & Bt & Ecorr).
    cbv zeta in Edt, Et, Bdt, Bt, Ecorr.
    set (dt := sub32 (to_int32 raw) (shl32 (cal d 4) 8)) in *.
    set (t := add64 2000 (sar64 (mul64 dt (cal d 5)) 23)) in *.
    unfold Reference.temperature_unscaled.
    destruct (t <? 2000) eqn:Hlt; cbn;
      (eexists _, _; split; [reflexivity|]);
      unfold valid, statics_bounded; cbn; rewrite Hm, Hi; cbn; rewrite ?Hlt;
      repeat split; try assumption; try reflexivity; try lia.
Qed.

(** C8: on a valid handle [PIOS_MS5611_StartADC] has no failing return: any
    result is 0 with the requested kind recorded.  When the first [k]
    claims are refused and the next is granted it keeps retrying through
    the [k] refusals, sends the one command byte, and returns 0; it returns
    whenever some later claim is granted, and never while none is. *)
Theorem StartADC_blocks_until_accepted s d type :
  dev s = Some d -> valid s ->
  (forall fuel rc s',
      PIOS_MS5611_StartADC env fuel type s = Done rc s' ->
      rc = 0 /\ conversion_in_flight s' = Some type) /\
  (forall k, granted_after env s k ->
      (forall fuel, (fuel <= k)%nat -> PIOS_MS5611_StartADC env fuel type s = Spinning) /\
      (forall fuel, (k < fuel)%nat ->
          exists s', PIOS_MS5611_StartADC env fuel type s = Done 0 s' /\
                     conversion_in_flight s' = Some type /\
                     spi_claims s' = (spi_claims s + k + 1)%nat /\
                     trace s' = trace s ++
                       [SpiTransferByte (conversion_command (oversampling (cfg d)) type)])) /\
  ((exists n, spi_claim env (spi_claims s + n) = true) ->
      exists fuel s', PIOS_MS5611_StartADC env fuel type s = Done 0 s') /\
  ((forall n, spi_claim env (spi_claims s + n) = false) ->
      forall fuel, PIOS_MS5611_StartADC env fuel type s = Spinning).
Proof.
  intros Hd Hv. repeat split.
  - eapply StartADC_result; eassumption.
  - eapply StartADC_result; eassumption.
  - intros fuel Hfuel. destruct H as [Hfail _].
    eapply StartADC_spins; eassumption.
  - intros fuel Hfuel. eexists. split; [apply (StartADC_run s d type k fuel); assumption|].
    unfold conversion_in_flight. cbn [dev upd_dev option_map with_current_conversion_type
                                      current_conversion_type spi_claims trace log].
    rewrite iter_next_claim_claims, iter_next_claim_trace.
    repeat split. lia.
  - intros [n Hn]. destruct (first_grant n _ Hn) as (k & Hk).
    exists (S k). eexists. apply (StartADC_run s d type k); try assumption. lia.
  - intros Hnever fuel. apply (StartADC_spins s type fuel fuel); auto.
Qed.

Lemma steps_to_refl s : valid s -> steps_to s s [].
Proof. intros Hv. unfold steps_to. rewrite app_nil_r. auto. Qed.

Lemma steps_to_trans s1 s2 s3 e1 e2 :
  steps_to s1 s2 e1 -> steps_to s2 s3 e2 -> steps_to s1 s3 (e1 ++ e2).
Proof.
  unfold steps_to. intros (_ & Hc1 & Ht1) (Hv & Hc2 & Ht2).
  rewrite Ht2, Ht1, Hc2, Hc1, app_assoc. auto.
Qed.

Lemma steps_to_upd_busy b s : valid s -> steps_to s (upd_busy b s) [].
Proof. intros Hv. unfold steps_to. cbn. rewrite app_nil_r. auto. Qed.

Lemma steps_to_log e s : valid s -> steps_to s (log e s) [e].
Proof. intros Hv. unfold steps_to. cbn. auto. Qed.

Lemma StartADC_ok s c type :
  valid s -> dev_cfg s = Some c -> eventually_granted env ->
  exists fuel0 s',
    (forall fuel, (fuel0 <= fuel)%nat -> PIOS_MS5611_StartADC env fuel type s = Done 0 s') /\
    steps_to s s' [SpiTransferByte (conversion_command (oversampling c) type)] /\
    conversion_in_flight s' = Some type.
Proof.
  intros Hv Hc Hg. destruct (valid_inv s Hv) as (d & Hd & Hm & Hi).
  destruct (Hg (spi_claims s)) as [n Hn].
  destruct (first_grant n _ Hn) as (k & Hk).
  unfold dev_cfg in Hc. rewrite Hd in Hc. injection Hc as <-.
  exists (S k). eexists. split; [|split].
  - intros fuel Hfuel. apply (StartADC_run s d type k); try assumption; lia.
  - unfold steps_to, valid, dev_cfg. cbn [dev upd_dev log trace option_map cfg
                                          with_current_conversion_type].
    rewrite iter_next_claim_trace, Hd. cbn. rewrite Hm, Hi. auto.
  - reflexivity.
Qed.

Ltac step H := rewrite (bind_Done _ _ _ _ _ H).

Lemma range_check_verdict d :
  let failed :=
    (temperature_unscaled d <? -4000) || (temperature_unscaled d >? 8500)
    || (pressure_unscaled d <? 1000) || (pressure_unscaled d >? 120000) in
  (failed = false <-> in_datasheet_range d).
Proof.
  cbv zeta. unfold in_datasheet_range. rewrite !orb_false_iff.
  rewrite !Z.ltb_ge, !Z.gtb_ltb, !Z.ltb_ge. lia.
Qed.

(** C3, as the code has it: after one temperature cycle and one pressure
    cycle (each: claim, start, delay, read, release) the self-test returns
    0 when the temperature lies in [-4000, 8500] and the pressure in
    [1000, 120000], and -1 otherwise. *)
Theorem SPI_Test_range_check s c :
  valid s -> dev_cfg s = Some c -> eventually_granted env ->
  exists fuel0 rc s' d' msT evsT msP evsP,
    (forall fuel, (fuel0 <= fuel)%nat -> PIOS_MS5611_SPI_Test env fuel s = Done rc s') /\
    dev s' = Some d' /\
    read_events evsT /\ read_events evsP /\
    trace s' = trace s
               ++ [SpiTransferByte (conversion_command (oversampling c) TEMPERATURE_CONV);
                   DelayWaitmS msT]
               ++ evsT
               ++ [SpiTransferByte (conversion_command (oversampling c) PRESSURE_CONV);
                   DelayWaitmS msP]
               ++ evsP /\
    (rc = 0 <-> in_datasheet_range d') /\
    (rc = -1 <-> ~ in_datasheet_range d').
Proof.
  intros Hv Hc Hg.
  pose proof (ClaimDevice_run s Hv) as H1.
  pose proof (steps_to_upd_busy true s Hv) as S1.
  destruct (StartADC_ok (upd_busy true s) c TEMPERATURE_CONV) as (f1 & s2 & H2 & S2 & _);
    [apply S1 | exact Hc | exact Hg |].
  destruct (GetDelay_ok s2 (proj1 S2)) as (msT & G2).
  pose proof (steps_to_log (DelayWaitmS msT) s2 (proj1 S2)) as D2.
  destruct (ReadADC_ok (log (DelayWaitmS msT) s2)) as (rc3 & s3 & evsT & H3 & S3 & RT & _);
    [apply D2|].
  pose proof (ReleaseDevice_run s3 (proj1 S3)) as H4.
  pose proof (steps_to_upd_busy false s3 (proj1 S3)) as S4.
  pose proof (ClaimDevice_run _ (proj1 S4)) as H5.
  pose proof (steps_to_upd_busy true _ (proj1 S4)) as S5.
  pose proof (steps_to_trans _ _ _ _ _ S1 (steps_to_trans _ _ _ _ _ S2
               (steps_to_trans _ _ _ _ _ D2 (steps_to_trans _ _ _ _ _ S3
               (steps_to_trans _ _ _ _ _ S4 S5))))) as S15.
  destruct (StartADC_ok (upd_busy true (upd_busy false s3)) c PRESSURE_CONV)
    as (f6 & s6 & H6 & S6 & _); [apply S5 | | exact Hg |].
  { destruct S15 as (_ & -> & _). exact Hc. }
  destruct (GetDelay_ok s6 (proj1 S6)) as (msP & G6).
  pose proof (steps_to_log (DelayWaitmS msP) s6 (proj1 S6)) as D6.
  destruct (ReadADC_ok (log (DelayWaitmS msP) s6)) as (rc7 & s7 & evsP & H7 & S7 & RP & _);
    [apply D6|].
  pose proof (ReleaseDevice_run s7 (proj1 S7)) as H8.
  pose proof (steps_to_upd_busy false s7 (proj1 S7)) as S8.
  pose proof (steps_to_trans _ _ _ _ _ S15 (steps_to_trans _ _ _ _ _ S6
               (steps_to_trans _ _ _ _ _ D6 (steps_to_trans _ _ _ _ _ S7 S8)))) as S18.
  destruct (valid_inv _ (proj1 S8)) as (d' & Hd' & _).
  pose proof (range_check_verdict d') as Hrange. cbv zeta in Hrange.
  exists (Nat.max f1 f6).
  exists (if (temperature_unscaled d' <? -4000) || (temperature_unscaled d' >? 8500)
             || (pressure_unscaled d' <? 1000) || (pressure_unscaled d' >? 120000)
          then -1 else 0).
  exists (upd_busy false s7), d', msT, evsT, msP, evsP.
  split; [|split; [exact Hd'|split; [exact RT|split; [exact RP|split]]]].
  - intros fuel Hfuel. unfold PIOS_MS5611_SPI_Test.
    step (validate_run s). rewrite Hv. cbn [Z.eqb negb].
    step H1. step (H2 fuel ltac:(lia)). step G2.
    unfold PIOS_DELAY_WaitmS, emit. unfold bind at 1. step H3. step H4. step H5.
    step (H6 fuel ltac:(lia)). step G6. unfold bind at 1. step H7. step H8.
    unfold the_dev, bind. rewrite Hd'.
    match goal with |- context [if ?b then _ else _] => destruct b end; reflexivity.
  - destruct S18 as (_ & _ & ->). cbn [app]. rewrite ?app_nil_r, <- ?app_assoc.
    reflexivity.
  - revert Hrange.
    match goal with |- context [if ?b then _ else _] => generalize b end.
    intros [] Hrange.
    + assert (HR : ~ in_datasheet_range d') by (intros HR%Hrange; discriminate).
      split; split; intros; try discriminate; try contradiction; auto.
    + assert (HR : in_datasheet_range d') by (apply Hrange; reflexivity).
      split; split; intros; try discriminate; try contradiction; auto.
Qed.

Lemma dev_cfg_inv s c :
  dev_cfg s = Some c -> exists d, dev s = Some d /\ cfg d = c.
Proof.
  unfold dev_cfg. destruct (dev s) as [d|]; [|discriminate].
  cbn. intros [= <-]. exists d. auto.
Qed.

(** The block under "Update the temperature data". *)
Lemma temperature_block_ok s c :
  valid s -> dev_cfg s = Some c -> eventually_granted env ->
  exists fuel0 ms evsT s',
    (forall fuel, (fuel0 <= fuel)%nat ->
       bind PIOS_MS5611_ClaimDevice (fun _ =>
       bind (PIOS_MS5611_StartADC env fuel TEMPERATURE_CONV) (fun _ =>
       bind (PIOS_MS5611_GetDelay env) (fun ms =>
       bind (PIOS_Thread_Sleep ms) (fun _ =>
       bind (PIOS_MS5611_ReadADC env) (fun _ =>
       bind PIOS_MS5611_ReleaseDevice (fun _ =>
       bind the_dev (fun d =>
         let temp_press_interleave_count := to_uint32 (temperature_interleaving (cfg d)) in
         if temp_press_interleave_count =? 0 then ret 1
         else ret temp_press_interleave_count))))))) s
       = Done (if to_uint32 (temperature_interleaving c) =? 0 then 1
               else to_uint32 (temperature_interleaving c)) s') /\
    read_events evsT /\
    steps_to s s'
      (SpiTransferByte (conversion_command (oversampling c) TEMPERATURE_CONV)
       :: ThreadSleep ms :: evsT).
Proof.
  intros Hv Hc Hg.
  pose proof (ClaimDevice_run s Hv) as H1.
  pose proof (steps_to_upd_busy true s Hv) as S1.
  destruct (StartADC_ok (upd_busy true s) c TEMPERATURE_CONV) as (f1 & s2 & H2 & S2 & _);
    [apply S1 | exact Hc | exact Hg |].
  destruct (GetDelay_ok s2 (proj1 S2)) as (ms & G2).
  pose proof (steps_to_log (ThreadSleep ms) s2 (proj1 S2)) as D2.
  destruct (ReadADC_ok (log (ThreadSleep ms) s2)) as (rc3 & s3 & evsT & H3 & S3 & RT & _);
    [apply D2|].
  pose proof (ReleaseDevice_run s3 (proj1 S3)) as H4.
  pose proof (steps_to_upd_busy false s3 (proj1 S3)) as S4.
  pose proof (steps_to_trans _ _ _ _ _ S1 (steps_to_trans _ _ _ _ _ S2
               (steps_to_trans _ _ _ _ _ D2 (steps_to_trans _ _ _ _ _ S3 S4)))) as S14.
  destruct (dev_cfg_inv (upd_busy false s3) c) as (d & Hd & Hcfg).
  { destruct S14 as (_ & -> & _). exact Hc. }
  exists f1, ms, evsT, (upd_busy false s3). split; [|split; [exact RT|]].
  - intros fuel Hfuel. step H1. step (H2 fuel Hfuel). step G2.
    unfold PIOS_Thread_Sleep, emit. unfold bind at 1. step H3. step H4.
    unfold the_dev, bind. rewrite Hd, Hcfg.
    destruct (to_uint32 (temperature_interleaving c) =? 0); reflexivity.
  - cbn [app] in S14. rewrite app_nil_r in S14. exact S14.
Qed.

(** The block under "Update the pressure data" and the publication. *)
Lemma pressure_block_ok s c (count : Z) :
  valid s -> dev_cfg s = Some c -> eventually_granted env ->
  exists fuel0 ms s1 rc s2 evs2 d2 s',
    (forall fuel, (fuel0 <= fuel)%nat ->
       bind PIOS_MS5611_ClaimDevice (fun _ =>
       bind (PIOS_MS5611_StartADC env fuel PRESSURE_CONV) (fun _ =>
       bind (PIOS_MS5611_GetDelay env) (fun ms =>
       bind (PIOS_Thread_Sleep ms) (fun _ =>
       bind (PIOS_MS5611_ReadADC env) (fun read_adc_result =>
       bind PIOS_MS5611_ReleaseDevice (fun _ =>
       bind the_dev (fun d =>
       bind (if read_adc_result =? 0
             then emit (QueueSend (temperature_unscaled d) (pressure_unscaled d) 0)
             else ret tt) (fun _ =>
       ret count)))))))) s = Done count s') /\
    steps_to s s1 [SpiTransferByte (conversion_command (oversampling c) PRESSURE_CONV);
                   ThreadSleep ms] /\
    conversion_in_flight s1 = Some PRESSURE_CONV /\
    PIOS_MS5611_ReadADC env s1 = Done rc s2 /\
    steps_to s1 s2 evs2 /\ read_events evs2 /\
    (rc = 0 <-> spi_claim env (spi_claims s1) = true /\
                spi_block env (spi_blocks s1) <> None) /\
    dev s2 = Some d2 /\
    spi_claims s' = S (spi_claims s1) /\
    steps_to s2 s'
      (if rc =? 0
       then [QueueSend (temperature_unscaled d2) (pressure_unscaled d2) 0]
       else []).
Proof.
  intros Hv Hc Hg.
  pose proof (ClaimDevice_run s Hv) as H1.
  pose proof (steps_to_upd_busy true s Hv) as S1.
  destruct (StartADC_ok (upd_busy true s) c PRESSURE_CONV) as (f1 & s0 & H2 & S2 & Hfl);
    [apply S1 | exact Hc | exact Hg |].
  destruct (GetDelay_ok s0 (proj1 S2)) as (ms & G2).
  pose proof (steps_to_log (ThreadSleep ms) s0 (proj1 S2)) as D2.
  set (s1 := log (ThreadSleep ms) s0) in *.
  destruct (ReadADC_ok s1) as (rc & s2 & evs2 & H3 & S3 & RP & _ & Hcl & _ & Hrc);
    [apply D2|].
  pose proof (ReleaseDevice_run s2 (proj1 S3)) as H4.
  pose proof (steps_to_upd_busy false s2 (proj1 S3)) as S4.
  destruct (valid_inv _ (proj1 S3)) as (d2 & Hd2 & _).
  exists f1, ms, s1, rc, s2, evs2, d2.
  exists (if rc =? 0
          then log (QueueSend (temperature_unscaled d2) (pressure_unscaled d2) 0)
                   (upd_busy false s2)
          else upd_busy false s2).
  split; [|split; [|split; [exact Hfl|split; [exact H3|split; [exact S3|split; [exact RP|
          split; [exact Hrc|split; [exact Hd2|split]]]]]]]].
  - intros fuel Hfuel. step H1. step (H2 fuel Hfuel). step G2.
    unfold PIOS_Thread_Sleep, emit at 1. unfold bind at 1. fold s1. step H3. step H4.
    unfold the_dev, bind. cbn [dev upd_busy]. rewrite Hd2.
    destruct (rc =? 0); reflexivity.
  - pose proof (steps_to_trans _ _ _ _ _ S1 (steps_to_trans _ _ _ _ _ S2 D2)) as S12.
    exact S12.
  - destruct (rc =? 0); cbn; exact Hcl.
  - destruct (rc =? 0).
    + pose proof (steps_to_trans _ _ _ _ _ S4 (steps_to_log
                   (QueueSend (temperature_unscaled d2) (pressure_unscaled d2) 0)
                   _ (proj1 S4))) as S5. exact S5.
    + exact S4.
Qed.

Lemma Task_iteration_ok s c count :
  valid s -> dev_cfg s = Some c -> eventually_granted env ->
  exists fuel0 s1 evs1 rc s2 evs2 d2 s',
    (forall fuel, (fuel0 <= fuel)%nat ->
       Task_iteration env fuel count s = Done (next_count c count) s') /\
    steps_to s s1 evs1 /\
    (if to_uint32 (count - 1) =? 0
     then exists msT evsT msP,
            read_events evsT /\
            evs1 = SpiTransferByte (conversion_command (oversampling c) TEMPERATURE_CONV)
                   :: ThreadSleep msT :: evsT
                   ++ [SpiTransferByte (conversion_command (oversampling c) PRESSURE_CONV);
                       ThreadSleep msP]
     else exists msP,
            evs1 = [SpiTransferByte (conversion_command (oversampling c) PRESSURE_CONV);
                    ThreadSleep msP]) /\
    conversion_in_flight s1 = Some PRESSURE_CONV /\
    PIOS_MS5611_ReadADC env s1 = Done rc s2 /\
    steps_to s1 s2 evs2 /\ read_events evs2 /\
    (rc = 0 <-> spi_claim env (spi_claims s1) = true /\
                spi_block env (spi_blocks s1) <> None) /\
    dev s2 = Some d2 /\
    spi_claims s' = S (spi_claims s1) /\
    steps_to s2 s'
      (if rc =? 0
       then [QueueSend (temperature_unscaled d2) (pressure_unscaled d2) 0]
       else []).
Proof.
  intros Hv Hc Hg. unfold Task_iteration, next_count. cbv zeta.
  destruct (to_uint32 (count - 1) =? 0) eqn:Hdue.
  - destruct (temperature_block_ok s c Hv Hc Hg) as (f1 & msT & evsT & sT & HT & RT & ST).
    destruct (pressure_block_ok sT c
                (if to_uint32 (temperature_interleaving c) =? 0 then 1
                 else to_uint32 (temperature_interleaving c)))
      as (f2 & msP & s1 & rc & s2 & evs2 & d2 & s' & HP & S1 & Rest);
      [apply ST | destruct ST as (_ & -> & _); exact Hc | exact Hg |].
    exists (Nat.max f1 f2), s1. eexists. exists rc, s2, evs2, d2, s'.
    split; [|split; [exact (steps_to_trans _ _ _ _ _ ST S1)|split; [|exact Rest]]].
    + intros fuel Hfuel. step (HT fuel ltac:(lia)). apply HP. lia.
    + exists msT, evsT, msP. split; [exact RT | reflexivity].
  - destruct (pressure_block_ok s c (to_uint32 (count - 1)) Hv Hc Hg)
      as (f2 & msP & s1 & rc & s2 & evs2 & d2 & s' & HP & S1 & Rest).
    exists f2, s1. eexists. exists rc, s2, evs2, d2, s'.
    split; [|split; [exact S1|split; [exists msP; reflexivity|exact Rest]]].
    intros fuel Hfuel. unfold bind at 1. unfold ret at 1. apply HP. exact Hfuel.
Qed.

Lemma bind_ret_r {A} (m : M A) s : bind m ret s = m s.
Proof. unfold bind, ret. destruct (m s); reflexivity. Qed.

Lemma bind_assoc {A B C} (m : M A) (f : A -> M B) (g : B -> M C) s :
  bind (bind m f) g s = bind m (fun a => bind (f a) g) s.
Proof. unfold bind. destruct (m s); reflexivity. Qed.

Lemma bind_ext {A B} (m : M A) (f g : A -> M B) s :
  (forall a s', f a s' = g a s') -> bind m f s = bind m g s.
Proof. intros H. unfold bind. destruct (m s); auto. Qed.

(** The loop run for one more pass is the loop followed by a pass. *)
Lemma Task_loop_snoc fuel n : forall count s,
  Task_loop env (S n) fuel count s =
  bind (Task_loop env n fuel count) (Task_iteration env fuel) s.
Proof.
  induction n as [|n IH]; intros count s.
  - cbn [Task_loop]. rewrite bind_ret_r. reflexivity.
  - change (Task_loop env (S (S n)) fuel count s)
      with (bind (Task_iteration env fuel count) (Task_loop env (S n) fuel) s).
    rewrite (bind_ext _ _ _ _ (IH)).
    rewrite <- bind_assoc. reflexivity.
Qed.

Lemma conversion_commands_differ osr :
  conversion_command osr PRESSURE_CONV <> conversion_command osr TEMPERATURE_CONV.
Proof.
  unfold conversion_command, to_uint8, wrap_unsigned, MS5611_PRES_ADDR, MS5611_TEMP_ADDR.
  change (2 ^ 8) with 256. Z.div_mod_to_equations. lia.
Qed.

Lemma conversion_command_not_read osr type :
  0 <= osr <= 8 -> conversion_command osr type <> MS5611_ADC_READ.
Proof.
  intros H. unfold MS5611_ADC_READ.
  destruct type; unfold conversion_command, to_uint8, wrap_unsigned,
    MS5611_PRES_ADDR, MS5611_TEMP_ADDR; rewrite Z.mod_small; change (2 ^ 8) with 256; lia.
Qed.

Lemma conversions_started_command osr type :
  conversions_started osr [SpiTransferByte (conversion_command osr type)] = [type].
Proof.
  unfold conversions_started. cbn -[conversion_command]. destruct type.
  - pose proof (conversion_commands_differ osr) as Hne.
    apply Z.eqb_neq in Hne. rewrite Hne, Z.eqb_refl. reflexivity.
  - rewrite Z.eqb_refl. reflexivity.
Qed.

Lemma conversions_started_read osr evs :
  0 <= osr <= 8 -> read_events evs -> conversions_started osr evs = [].
Proof.
  intros Hosr [-> | ->]; [reflexivity|].
  unfold conversions_started. cbn -[conversion_command MS5611_ADC_READ].
  pose proof (conversion_command_not_read osr TEMPERATURE_CONV Hosr) as HT.
  pose proof (conversion_command_not_read osr PRESSURE_CONV Hosr) as HP.
  apply not_eq_sym, Z.eqb_neq in HT, HP. rewrite HT, HP. reflexivity.
Qed.

Lemma conversions_started_app osr e1 e2 :
  conversions_started osr (e1 ++ e2) =
  conversions_started osr e1 ++ conversions_started osr e2.
Proof. apply omap_app. Qed.

Lemma conversions_started_QueueSend osr rc t p :
  conversions_started osr (if rc =? 0 then [QueueSend t p 0] else []) = [].
Proof. destruct (rc =? 0); reflexivity. Qed.

Lemma emitted_since_steps s s' evs : steps_to s s' evs -> emitted_since s s' = evs.
Proof.
  intros (_ & _ & Ht). unfold emitted_since. rewrite Ht.
  apply drop_app_length.
Qed.

(** What one pass of the loop puts on the bus, as conversions. *)
Lemma Task_iteration_conversions s c count :
  valid s -> dev_cfg s = Some c -> eventually_granted env ->
  exists fuel0 s' evs,
    (forall fuel, (fuel0 <= fuel)%nat ->
       Task_iteration env fuel count s = Done (next_count c count) s') /\
    steps_to s s' evs /\
    (0 <= oversampling c <= 8 ->
     conversions_started (oversampling c) evs =
       if to_uint32 (count - 1) =? 0
       then [TEMPERATURE_CONV; PRESSURE_CONV]
       else [PRESSURE_CONV]).
Proof.
  intros Hv Hc Hg.
  destruct (Task_iteration_ok s c count Hv Hc Hg)
    as (f & s1 & evs1 & rc & s2 & evs2 & d2 & s' & Hrun & S1 & Hevs1 & _ & _ & S2 & R2
        & _ & _ & _ & S3).
  exists f, s'. eexists. split; [exact Hrun|].
  split; [exact (steps_to_trans _ _ _ _ _ S1 (steps_to_trans _ _ _ _ _ S2 S3))|].
  intros Hosr.
  rewrite !conversions_started_app, conversions_started_QueueSend,
    (conversions_started_read _ _ Hosr R2), !app_nil_r.
  destruct (to_uint32 (count - 1) =? 0).
  - destruct Hevs1 as (msT & evsT & msP & RT & ->).
    change (SpiTransferByte ?a :: ThreadSleep msT :: evsT ++ [SpiTransferByte ?b; ?e])
      with ([SpiTransferByte a] ++ [ThreadSleep msT] ++ evsT ++ [SpiTransferByte b] ++ [e]).
    rewrite !conversions_started_app, !conversions_started_command,
      (conversions_started_read _ _ Hosr RT). reflexivity.
  - destruct Hevs1 as (msP & ->).
    change [SpiTransferByte ?b; ?e] with ([SpiTransferByte b] ++ [e]).
    rewrite conversions_started_app, conversions_started_command. reflexivity.
Qed.

(** Any number of passes complete, whatever the reads return. *)
Lemma Task_loop_ok n : forall s c count,
  valid s -> dev_cfg s = Some c -> eventually_granted env ->
  exists fuel0 count' s' evs,
    (forall fuel, (fuel0 <= fuel)%nat ->
       Task_loop env n fuel count s = Done count' s') /\
    steps_to s s' evs /\
    (0 <= oversampling c <= 8 ->
     conversions_started (oversampling c) evs = schedule n c count).
Proof.
  induction n as [|n IH]; intros s c count Hv Hc Hg.
  - exists 0%nat, count, s, []. split; [reflexivity|].
    split; [apply steps_to_refl; exact Hv | reflexivity].
  - destruct (Task_iteration_conversions s c count Hv Hc Hg)
      as (f1 & s1 & evs1 & H1 & S1 & C1).
    destruct (IH s1 c (next_count c count)) as (f2 & count' & s' & evs2 & H2 & S2 & C2);
      [apply S1 | destruct S1 as (_ & -> & _); exact Hc | exact Hg |].
    exists (Nat.max f1 f2), count', s', (evs1 ++ evs2).
    split; [|split; [exact (steps_to_trans _ _ _ _ _ S1 S2)|]].
    + intros fuel Hfuel. cbn [Task_loop]. step (H1 fuel ltac:(lia)). apply H2. lia.
    + intros Hosr. rewrite conversions_started_app, C1, C2 by exact Hosr. reflexivity.
Qed.

Lemma Task_conversions n s c :
  valid s -> dev_cfg s = Some c -> 0 <= oversampling c <= 8 ->
  eventually_granted env ->
  exists fuel0 count' s',
    (forall fuel, (fuel0 <= fuel)%nat ->
       PIOS_MS5611_Task env n fuel s = Done count' s') /\
    conversions_started (oversampling c) (emitted_since s s') = schedule n c 1.
Proof.
  intros Hv Hc Hosr Hg.
  destruct (Task_loop_ok n s c 1 Hv Hc Hg) as (f & count' & s' & evs & H & S & C).
  exists f, count', s'. split; [exact H|].
  rewrite (emitted_since_steps _ _ _ S). apply C. exact Hosr.
Qed.

(** C4, as the code has it: with interleave 3 the first seven conversions
    are Temp, Pres, Pres, Pres, Temp, Pres, Pres, and they take five passes
    of the loop; seven passes start ten conversions.  In any pass a
    temperature conversion is started exactly when the decremented counter
    is zero and is followed by a pressure conversion, which every pass
    starts; the counter then continues from [next_count]. *)
Theorem Task_conversion_order s c :
  valid s -> dev_cfg s = Some c -> 0 <= oversampling c <= 8 ->
  eventually_granted env ->
  (temperature_interleaving c = 3 ->
   (exists fuel0 count' s',
      (forall fuel, (fuel0 <= fuel)%nat ->
         PIOS_MS5611_Task env 5 fuel s = Done count' s') /\
      conversions_started (oversampling c) (emitted_since s s') =
        [TEMPERATURE_CONV; PRESSURE_CONV; PRESSURE_CONV; PRESSURE_CONV;
         TEMPERATURE_CONV; PRESSURE_CONV; PRESSURE_CONV]) /\
   (exists fuel0 count' s',
      (forall fuel, (fuel0 <= fuel)%nat ->
         PIOS_MS5611_Task env 7 fuel s = Done count' s') /\
      conversions_started (oversampling c) (emitted_since s s') =
        [TEMPERATURE_CONV; PRESSURE_CONV; PRESSURE_CONV; PRESSURE_CONV;
         TEMPERATURE_CONV; PRESSURE_CONV; PRESSURE_CONV; PRESSURE_CONV;
         TEMPERATURE_CONV; PRESSURE_CONV])) /\
  (forall count,
     exists fuel0 s',
       (forall fuel, (fuel0 <= fuel)%nat ->
          Task_iteration env fuel count s =
            Done (if to_uint32 (count - 1) =? 0
                  then (if to_uint32 (temperature_interleaving c) =? 0 then 1
                        else to_uint32 (temperature_interleaving c))
                  else to_uint32 (count - 1)) s') /\
       conversions_started (oversampling c) (emitted_since s s') =
         if to_uint32 (count - 1) =? 0
         then [TEMPERATURE_CONV; PRESSURE_CONV]
         else [PRESSURE_CONV]).
Proof.
  intros Hv Hc Hosr Hg. split; [intros H3; split|].
  - destruct (Task_conversions 5 s c Hv Hc Hosr Hg) as (f & count' & s' & H & C).
    exists f, count', s'. split; [exact H|]. rewrite C.
    cbn [schedule]. unfold next_count. rewrite !H3. reflexivity.
  - destruct (Task_conversions 7 s c Hv Hc Hosr Hg) as (f & count' & s' & H & C).
    exists f, count', s'. split; [exact H|]. rewrite C.
    cbn [schedule]. unfold next_count. rewrite !H3. reflexivity.
  - intros count.
    destruct (Task_iteration_conversions s c count Hv Hc Hg) as (f & s' & evs & H & S & C).
    exists f, s'. split; [exact H|].
    rewrite (emitted_since_steps _ _ _ S). apply C. exact Hosr.
Qed.

Lemma queue_sends_app e1 e2 : queue_sends (e1 ++ e2) = queue_sends e1 ++ queue_sends e2.
Proof. apply List.filter_app. Qed.

Lemma queue_sends_read evs : read_events evs -> queue_sends evs = [].
Proof. intros [-> | ->]; reflexivity. Qed.

(** A pass is its part up to the pressure read, the read, and the rest. *)
Lemma Task_iteration_cut fuel count s :
  Task_iteration env fuel count s =
  bind (Task_until_pressure_read env fuel count)
       (fun count' => bind (PIOS_MS5611_ReadADC env) (Task_after_pressure_read count')) s.
Proof.
  unfold Task_iteration, Task_until_pressure_read, Task_after_pressure_read. cbv zeta.
  rewrite bind_assoc. apply bind_ext. intros c1 s1.
  rewrite bind_assoc. apply bind_ext. intros u2 s2.
  rewrite bind_assoc. apply bind_ext. intros u3 s3.
  rewrite bind_assoc. apply bind_ext. intros ms s4.
  rewrite bind_assoc. apply bind_ext. intros u5 s5.
  reflexivity.
Qed.

Lemma StartADC_ok_lock s c type :
  valid s -> dev_cfg s = Some c -> eventually_granted env ->
  exists fuel0 s',
    (forall fuel, (fuel0 <= fuel)%nat -> PIOS_MS5611_StartADC env fuel type s = Done 0 s') /\
    steps_to s s' [SpiTransferByte (conversion_command (oversampling c) type)] /\
    conversion_in_flight s' = Some type /\
    busy_taken s' = busy_taken s.
Proof.
  intros Hv Hc Hg. destruct (valid_inv s Hv) as (d & Hd & Hm & Hi).
  destruct (Hg (spi_claims s)) as [n Hn].
  destruct (first_grant n _ Hn) as (k & Hk).
  destruct (StartADC_ok s c type Hv Hc Hg) as (f & s' & Hrun & Hsteps & Hfl).
  exists (Nat.max f (S k)), s'.
  split; [intros fuel Hfuel; apply Hrun; lia|].
  split; [exact Hsteps|]. split; [exact Hfl|].
  pose proof (Hrun (Nat.max f (S k)) ltac:(lia)) as Hrun'.
  rewrite (StartADC_run s d type k (Nat.max f (S k)) Hv Hd Hk ltac:(lia)) in Hrun'.
  injection Hrun' as <-. cbn [busy_taken upd_dev log].
  clear. induction k as [|k IH]; [reflexivity | exact IH].
Qed.

(** The pass up to its pressure read. *)
Lemma until_pressure_read_ok s c count :
  valid s -> dev_cfg s = Some c -> eventually_granted env ->
  exists fuel0 s1 evs ms,
    (forall fuel, (fuel0 <= fuel)%nat ->
       Task_until_pressure_read env fuel count s = Done (next_count c count) s1) /\
    steps_to s s1
      (evs ++ [SpiTransferByte (conversion_command (oversampling c) PRESSURE_CONV);
               ThreadSleep ms]) /\
    queue_sends evs = [] /\
    busy_taken s1 = true /\
    conversion_in_flight s1 = Some PRESSURE_CONV.
Proof.
  intros Hv Hc Hg.
  assert (Hstart : forall s0, valid s0 -> dev_cfg s0 = Some c ->
            exists fuel0 s1 ms,
              (forall fuel B (k : unit -> M B), (fuel0 <= fuel)%nat ->
                 bind PIOS_MS5611_ClaimDevice (fun _ =>
                 bind (PIOS_MS5611_StartADC env fuel PRESSURE_CONV) (fun _ =>
                 bind (PIOS_MS5611_GetDelay env) (fun ms =>
                 bind (PIOS_Thread_Sleep ms) k))) s0 = k tt s1) /\
              steps_to s0 s1
                [SpiTransferByte (conversion_command (oversampling c) PRESSURE_CONV);
                 ThreadSleep ms] /\
              busy_taken s1 = true /\ conversion_in_flight s1 = Some PRESSURE_CONV).
  { intros s0 Hv0 Hc0.
    pose proof (ClaimDevice_run s0 Hv0) as H1.
    pose proof (steps_to_upd_busy true s0 Hv0) as S1.
    destruct (StartADC_ok_lock (upd_busy true s0) c PRESSURE_CONV)
      as (f & s2 & H2 & S2 & F2 & B2); [apply S1 | exact Hc0 | exact Hg |].
    destruct (GetDelay_ok s2 (proj1 S2)) as (ms & H3).
    pose proof (steps_to_log (ThreadSleep ms) s2 (proj1 S2)) as S4.
    exists f, (log (ThreadSleep ms) s2), ms. split; [|split; [|split]].
    - intros fuel B k Hfuel. step H1. step (H2 fuel Hfuel). step H3. reflexivity.
    - exact (steps_to_trans _ _ _ _ _ S1 (steps_to_trans _ _ _ _ _ S2 S4)).
    - exact B2.
    - exact F2. }
  unfold Task_until_pressure_read, next_count. cbv zeta.
  destruct (to_uint32 (count - 1) =? 0) eqn:Hdue.
  - destruct (temperature_block_ok s c Hv Hc Hg) as (f1 & msT & evsT & sT & HT & RT & ST).
    destruct (Hstart sT) as (f2 & s1 & ms & H2 & S2 & B2 & F2);
      [apply ST | destruct ST as (_ & -> & _); exact Hc |].
    exists (Nat.max f1 f2), s1, (SpiTransferByte (conversion_command (oversampling c)
                                                   TEMPERATURE_CONV)
                                 :: ThreadSleep msT :: evsT), ms.
    split; [|split; [exact (steps_to_trans _ _ _ _ _ ST S2)|split; [|auto]]].
    + intros fuel Hfuel. step (HT fuel ltac:(lia)). rewrite H2 by lia. reflexivity.
    + change (queue_sends (?a :: ?b :: evsT)) with (queue_sends evsT).
      apply queue_sends_read. exact RT.
  - destruct (Hstart s Hv Hc) as (f2 & s1 & ms & H2 & S2 & B2 & F2).
    exists f2, s1, [], ms.
    split; [|split; [exact S2|split; [reflexivity|auto]]].
    intros fuel Hfuel. unfold bind at 1, ret at 1. rewrite H2 by lia. reflexivity.
Qed.

(** C5: cut at its pressure read, the pass that follows any number of
    passes runs like this.  Up to the read it takes the device lock, starts
    the pressure conversion and waits, and queues nothing.  The read returns
    0 exactly when the bus is granted and the transfer succeeds.  After the
    read the lock is released, and when the read returned 0 the readings
    the device then holds are queued as one sample with timeout 0; when it
    failed nothing is queued.  Either way the pass ends and the loop goes on
    to the following one. *)
Theorem Task_publishes_iff_pressure_read_ok s c n :
  valid s -> dev_cfg s = Some c -> eventually_granted env ->
  (forall fuel count s0,
     Task_iteration env fuel count s0 =
     bind (Task_until_pressure_read env fuel count)
          (fun count' =>
             bind (PIOS_MS5611_ReadADC env) (Task_after_pressure_read count')) s0) /\
  exists fuel0 count_n s_n count' s1 rc s2 d2 s',
    (forall fuel, (fuel0 <= fuel)%nat ->
       PIOS_MS5611_Task env n fuel s = Done count_n s_n) /\
    (forall fuel, (fuel0 <= fuel)%nat ->
       Task_until_pressure_read env fuel count_n s_n = Done count' s1) /\
    PIOS_MS5611_ReadADC env s1 = Done rc s2 /\
    Task_after_pressure_read count' rc s2 = Done count' s' /\
    (forall fuel, (fuel0 <= fuel)%nat ->
       Task_iteration env fuel count_n s_n = Done count' s') /\
    (forall fuel, (fuel0 <= fuel)%nat ->
       PIOS_MS5611_Task env (S n) fuel s = Done count' s') /\
    busy_taken s1 = true /\
    conversion_in_flight s1 = Some PRESSURE_CONV /\
    (exists evs ms,
       emitted_since s_n s1 =
         evs ++ [SpiTransferByte (conversion_command (oversampling c) PRESSURE_CONV);
                 ThreadSleep ms] /\
       queue_sends evs = []) /\
    (rc = 0 <-> spi_claim env (spi_claims s1) = true /\
                spi_block env (spi_blocks s1) <> None) /\
    dev s2 = Some d2 /\
    s' = (if rc =? 0
          then log (QueueSend (temperature_unscaled d2) (pressure_unscaled d2) 0)
                   (upd_busy false s2)
          else upd_busy false s2) /\
    queue_sends (emitted_since s_n s') =
      (if rc =? 0
       then [QueueSend (temperature_unscaled d2) (pressure_unscaled d2) 0]
       else []).
Proof.
  intros Hv Hc Hg. split; [intros fuel count s0; apply Task_iteration_cut|].
  destruct (Task_loop_ok n s c 1 Hv Hc Hg) as (f1 & count_n & s_n & evs0 & H1 & S1 & _).
  assert (Hcn : dev_cfg s_n = Some c) by (destruct S1 as (_ & -> & _); exact Hc).
  destruct (until_pressure_read_ok s_n c count_n (proj1 S1) Hcn Hg)
    as (f2 & s1 & evs & ms & H2 & S2 & Q2 & B1 & F1).
  destruct (ReadADC_ok s1 (proj1 S2))
    as (rc & s2 & evs2 & H3 & S3 & R3 & _ & _ & _ & Hrc).
  destruct (valid_inv s2 (proj1 S3)) as (d2 & Hd2 & _).
  pose proof (ReleaseDevice_run s2 (proj1 S3)) as H4.
  set (s' := if rc =? 0
             then log (QueueSend (temperature_unscaled d2) (pressure_unscaled d2) 0)
                      (upd_busy false s2)
             else upd_busy false s2).
  assert (H5 : Task_after_pressure_read (next_count c count_n) rc s2
               = Done (next_count c count_n) s').
  { unfold Task_after_pressure_read. step H4.
    unfold the_dev, bind, emit, ret. cbn [dev upd_busy]. rewrite Hd2.
    unfold s'. destruct (rc =? 0); reflexivity. }
  assert (S5 : steps_to s2 s'
                 (if rc =? 0
                  then [QueueSend (temperature_unscaled d2) (pressure_unscaled d2) 0]
                  else [])).
  { unfold s'. destruct (rc =? 0).
    - apply (steps_to_trans _ _ _ [] _ (steps_to_upd_busy false s2 (proj1 S3))).
      apply steps_to_log. exact (proj1 S3).
    - apply steps_to_upd_busy. exact (proj1 S3). }
  assert (H6 : forall fuel, (Nat.max f1 f2 <= fuel)%nat ->
                 Task_iteration env fuel count_n s_n = Done (next_count c count_n) s').
  { intros fuel Hfuel. rewrite Task_iteration_cut.
    step (H2 fuel ltac:(lia)). step H3. exact H5. }
  exists (Nat.max f1 f2), count_n, s_n, (next_count c count_n), s1, rc, s2, d2, s'.
  split; [intros fuel Hfuel; apply H1; lia|].
  split; [intros fuel Hfuel; apply H2; lia|].
  split; [exact H3|]. split; [exact H5|]. split; [exact H6|].
  split.
  { intros fuel Hfuel. unfold PIOS_MS5611_Task. rewrite Task_loop_snoc.
    step (H1 fuel ltac:(lia)). apply H6. exact Hfuel. }
  split; [exact B1|]. split; [exact F1|].
  split; [exists evs, ms; split; [apply (emitted_since_steps _ _ _ S2) | exact Q2]|].
  split; [exact Hrc|]. split; [exact Hd2|]. split; [reflexivity|].
  rewrite (emitted_since_steps _ _ _
             (steps_to_trans _ _ _ _ _ S2 (steps_to_trans _ _ _ _ _ S3 S5))).
  rewrite !queue_sends_app, Q2, (queue_sends_read _ R3).
  destruct (rc =? 0); reflexivity.
Qed.

End WithEnv.

(** *** On the bench *)

Lemma bench_eventually_granted : eventually_granted bench.
Proof. intros n. exists 0%nat. reflexivity. Defined.

Lemma bench_calibrated : calibrated bench_dev.
Proof.
  split; [reflexivity|].
  repeat constructor; unfold is_uint16; lia.
Defined.

Example Init_gives_bench_ready :
  PIOS_MS5611_SPI_Init bench 1 0 bench_cfg initial_state = Done 0 bench_ready.
Proof. vm_compute. reflexivity. Qed.

(** The worked example of the data sheet. *)
Example Test_on_the_bench :
  exists s' d',
    PIOS_MS5611_SPI_Test bench 1 bench_ready = Done 0 s' /\
    dev s' = Some d' /\ delta_temp s' = 2366 /\
    temperature_unscaled d' = 2007 /\ pressure_unscaled d' = 100009.
Proof. vm_compute. eexists _, _. repeat split. Qed.

Lemma ReadADC_bit_exact_witness :
  exists s' d',
    PIOS_MS5611_ReadADC bench bench_ready = Done 0 s' /\
    dev s' = Some d' /\
    pressure_unscaled d' =
      Reference.pressure_unscaled 8569150 0 0 0 40127 36924 23317 23282.
Proof.
  destruct (ReadADC_bit_exact bench bench_ready bench_dev (code_bytes 8569150))
    as (_ & s' & d' & Hrun & Hd & _ & _ & _ & _ & Hres).
  - reflexivity.
  - reflexivity.
  - exact bench_calibrated.
  - unfold statics_bounded. cbn. lia.
  - reflexivity.
  - reflexivity.
  - exists s', d'. split; [exact Hrun|]. split; [exact Hd|].
    cbn [bench_dev current_conversion_type] in Hres.
    destruct Hres as (_ & _ & _ & Hp). exact Hp.
Defined.

Lemma StartADC_blocks_until_accepted_witness :
  exists s',
    PIOS_MS5611_StartADC bench 1 TEMPERATURE_CONV bench_ready = Done 0 s' /\
    conversion_in_flight s' = Some TEMPERATURE_CONV.
Proof.
  destruct (StartADC_blocks_until_accepted bench bench_ready bench_dev TEMPERATURE_CONV)
    as (_ & Hgrant & _); [reflexivity | reflexivity |].
  destruct (Hgrant 0%nat) as (_ & Hrun).
  { split; [intros j Hj; lia | reflexivity]. }
  destruct (Hrun 1%nat ltac:(lia)) as (s' & H & Hfl & _).
  exists s'. split; [exact H | exact Hfl].
Defined.

Lemma SPI_Test_range_check_witness :
  exists fuel0 rc s' d',
    (forall fuel, (fuel0 <= fuel)%nat ->
       PIOS_MS5611_SPI_Test bench fuel bench_ready = Done rc s') /\
    dev s' = Some d' /\
    (rc = 0 <-> in_datasheet_range d').
Proof.
  destruct (SPI_Test_range_check bench bench_ready bench_cfg)
    as (fuel0 & rc & s' & d' & msT & evsT & msP & evsP & Hrun & Hd & _ & _ & _ & H0 & _).
  - reflexivity.
  - reflexivity.
  - exact bench_eventually_granted.
  - exists fuel0, rc, s', d'. split; [exact Hrun|]. split; [exact Hd | exact H0].
Defined.

(** C3 as it was claimed: a pressure of 100009 is far outside [100, 12000],
    and the self-test succeeds. *)
Lemma SPI_Test_succeeds_outside_100_12000 :
  exists s' d',
    PIOS_MS5611_SPI_Test bench 1 bench_ready = Done 0 s' /\
    dev s' = Some d' /\
    -4000 <= temperature_unscaled d' <= 8500 /\
    ~ (100 <= pressure_unscaled d' <= 12000).
Proof.
  vm_compute. eexists _, _. split; [reflexivity|]. split; [reflexivity|].
  split; [split; discriminate|]. intros [_ H]. apply H. reflexivity.
Qed.

Lemma Task_conversion_order_witness :
  exists fuel0 count' s',
    (forall fuel, (fuel0 <= fuel)%nat ->
       PIOS_MS5611_Task bench 7 fuel bench_ready = Done count' s') /\
    conversions_started 8 (emitted_since bench_ready s') =
      [TEMPERATURE_CONV; PRESSURE_CONV; PRESSURE_CONV; PRESSURE_CONV;
       TEMPERATURE_CONV; PRESSURE_CONV; PRESSURE_CONV; PRESSURE_CONV;
       TEMPERATURE_CONV; PRESSURE_CONV].
Proof.
  destruct (Task_conversion_order bench bench_ready bench_cfg) as [H3 _].
  - reflexivity.
  - reflexivity.
  - cbn. lia.
  - exact bench_eventually_granted.
  - destruct (H3 eq_refl) as [_ H7]. exact H7.
Defined.

(** C4 as it was claimed: seven passes of the loop start ten conversions,
    not seven. *)
Lemma Task_seven_passes_start_ten_conversions :
  exists count' s',
    PIOS_MS5611_Task bench 7 1 bench_ready = Done count' s' /\
    conversions_started 8 (emitted_since bench_ready s') <>
      [TEMPERATURE_CONV; PRESSURE_CONV; PRESSURE_CONV; PRESSURE_CONV;
       TEMPERATURE_CONV; PRESSURE_CONV; PRESSURE_CONV].
Proof. vm_compute. eexists _, _. split; [reflexivity | discriminate]. Qed.

Lemma Task_publishes_iff_pressure_read_ok_witness :
  exists fuel0 count_n s_n count' s1 rc s2 d2 s',
    (forall fuel, (fuel0 <= fuel)%nat ->
       PIOS_MS5611_Task bench 2 fuel bench_ready = Done count_n s_n) /\
    (forall fuel, (fuel0 <= fuel)%nat ->
       Task_until_pressure_read bench fuel count_n s_n = Done count' s1) /\
    PIOS_MS5611_ReadADC bench s1 = Done rc s2 /\
    dev s2 = Some d2 /\
    (forall fuel, (fuel0 <= fuel)%nat ->
       PIOS_MS5611_Task bench 3 fuel bench_ready = Done count' s') /\
    queue_sends (emitted_since s_n s') =
      (if rc =? 0
       then [QueueSend (temperature_unscaled d2) (pressure_unscaled d2) 0]
       else []).
Proof.
  destruct (Task_publishes_iff_pressure_read_ok bench bench_ready bench_cfg 2)
    as (_ & fuel0 & count_n & s_n & count' & s1 & rc & s2 & d2 & s' & Hn & Huntil & Hread
        & _ & _ & Hrun & _ & _ & _ & _ & Hd2 & _ & Hq).
  - reflexivity.
  - reflexivity.
  - exact bench_eventually_granted.
  - exists fuel0, count_n, s_n, count', s1, rc, s2, d2, s'.
    split; [exact Hn|]. split; [exact Huntil|]. split; [exact Hread|].
    split; [exact Hd2|]. split; [exact Hrun | exact Hq].
Defined.

(** Three passes on the bench: a sample is queued in each. *)
Example Task_on_the_bench :
  exists count' s',
    PIOS_MS5611_Task bench 3 1 bench_ready = Done count' s' /\
    queue_sends (emitted_since bench_ready s') =
      [QueueSend 2007 100009 0; QueueSend 2007 100009 0; QueueSend 2007 100009 0].
Proof. vm_compute. eexists _, _. split; reflexivity. Qed.

(** *** On the starved bus *)

(** The calibration loop always runs to its end and leaves six 16-bit
    words, whatever its reads meet on the bus. *)
Lemma read_calibration_ok env n : forall i data s d,
  valid s -> dev s = Some d -> calibrated d ->
  exists s' d',
    read_calibration env n i data s = Done tt s' /\
    valid s' /\ dev s' = Some d' /\ calibrated d' /\
    delta_temp s' = delta_temp s /\ temperature s' = temperature s.
Proof.
  induction n as [|n IH]; intros i data s d Hv Hd Hcal; [exists s, d; auto 10|].
  destruct (valid_inv s Hv) as (d0 & Hd0 & Hm & Hi).
  rewrite Hd in Hd0. injection Hd0 as <-.
  assert (Hins : forall w,
             calibrated (with_calibration d (<[i := to_uint16 w]> (calibration d)))).
  { intros w. destruct Hcal as [Hlen Hall]. split; cbn [calibration with_calibration].
    - rewrite length_insert. exact Hlen.
    - apply Forall_insert; [exact Hall | apply to_uint16_range]. }
  cbn [read_calibration]. unfold bind at 1. rewrite Read_run by exact Hv.
  destruct (spi_claim env (spi_claims s));
    [destruct (spi_block env (spi_blocks s))|];
    unfold the_dev, set_dev, bind; cbn [dev next_block log next_claim]; rewrite Hd;
    (edestruct IH as (s' & d' & Hrun & Hrest);
     [ | | apply Hins | exists s', d'; split; [exact Hrun | exact Hrest]]);
    try reflexivity; unfold valid; cbn; rewrite Hm, Hi; reflexivity.
Qed.

(** With every allocation granted and the reset command accepted the
    status of [PIOS_MS5611_SPI_Init] is 0 whatever the calibration reads
    return, and the machine it leaves meets the conditions under which
    [ReadADC_bit_exact] speaks. *)
Lemma Init_status_ignores_calibration_reads env spi_id slave_num cfg :
  spi_id <> 0 ->
  malloc_ok env = true -> queue_ok env = true ->
  semaphore_ok env = true -> thread_ok env = true ->
  spi_claim env 0 = true ->
  exists s' d',
    PIOS_MS5611_SPI_Init env spi_id slave_num cfg initial_state = Done 0 s' /\
    dev s' = Some d' /\ valid s' /\ calibrated d' /\ statics_bounded s'.
Proof.
  intros Hid Hmal Hq Hsem Hth Hc.
  unfold PIOS_MS5611_SPI_Init, PIOS_MS5611_alloc.
  rewrite Hmal, Hq, Hsem, Hth. cbn [negb PIOS_Assert].
  erewrite bind_Done by reflexivity.
  erewrite bind_Done by reflexivity.
  erewrite bind_Done by reflexivity.
  match goal with
  | |- context [bind (PIOS_MS5611_WriteCommand env MS5611_RESET) _ ?s] => set (s0 := s)
  end.
  assert (Hv0 : valid s0).
  { unfold valid, s0. cbn. apply Z.eqb_neq in Hid. rewrite Hid. reflexivity. }
  unfold bind at 1. rewrite WriteCommand_run by exact Hv0.
  change (spi_claims s0) with 0%nat. rewrite Hc. cbn [Z.eqb negb].
  unfold PIOS_DELAY_WaitmS, emit. unfold bind at 1.
  edestruct (read_calibration_ok env 6 0 (uninitialised env 2)
               (log (DelayWaitmS 20) (log (SpiTransferByte MS5611_RESET) (next_claim s0))))
    as (s' & d' & Hrun & Hv' & Hd' & Hcal' & Hdt & Ht);
    [exact Hv0 | reflexivity | |].
  { split; [reflexivity|]. repeat constructor; unfold is_uint16; lia. }
  rewrite (bind_Done _ _ _ _ _ Hrun).
  unfold bind, ret, emit. cbn [PIOS_Assert].
  eexists _, d'. split; [reflexivity|].
  unfold valid, statics_bounded in *. cbn [dev log delta_temp temperature].
  rewrite Hdt, Ht. cbn.
  split; [exact Hd' | split; [exact Hv' | split; [exact Hcal' | lia]]].
Qed.

(** C6 where the bus is refused to every calibration read: each read
    returns -2, [PIOS_MS5611_SPI_Init] stores what the buffer happened to
    hold and reports success. *)
Example Init_succeeds_without_calibration :
  (forall s address buffer len,
      valid s -> (0 < spi_claims s)%nat ->
      PIOS_MS5611_Read starved address buffer len s = Done (-2, buffer) (next_claim s)) /\
  exists s' d',
    PIOS_MS5611_SPI_Init starved 1 0 bench_cfg initial_state = Done 0 s' /\
    dev s' = Some d' /\
    calibration d' = [0xAAAA; 0xAAAA; 0xAAAA; 0xAAAA; 0xAAAA; 0xAAAA] /\
    spi_blocks s' = 0%nat.
Proof.
  split.
  - intros s address buffer len Hv Hn. rewrite Read_run by exact Hv.
    cbn [spi_claim starved]. replace (spi_claims s =? 0)%nat with false; [reflexivity|].
    symmetry. apply Nat.eqb_neq. lia.
  - vm_compute. eexists _, _. repeat split.
Qed.

End MS5611_Facts.

(** ** The LED strip driver *)

Module WS2811_Facts.
Import WS2811.

#[local] Arguments Z.land : simpl never.
#[local] Arguments Z.shiftl : simpl never.
#[local] Arguments Z.testbit : simpl never.
#[local] Arguments Z.sub : simpl never.
#[local] Arguments to_uint8 : simpl never.

(** *** The bit encoding *)

Lemma tested_bit_all :
  forallb (fun n =>
    forallb (fun j => Bool.eqb (tested (Z.of_nat n) j =? 0)
                               (negb (Z.testbit (Z.of_nat n) (7 - Z.of_nat j))))
            (seq 0 8))
    (seq 0 256) = true.
Proof. vm_compute. reflexivity. Qed.

(** Round [j] tests bit [7 - j] of the byte. *)
Lemma tested_bit p j :
  is_uint8 p -> (j < 8)%nat ->
  (tested p j =? 0) = negb (Z.testbit p (7 - Z.of_nat j)).
Proof.
  intros Hp Hj. pose proof tested_bit_all as H.
  rewrite forallb_forall in H. specialize (H (Z.to_nat p)).
  rewrite Z2Nat.id in H by (unfold is_uint8 in Hp; lia).
  assert (Hin : In (Z.to_nat p) (seq 0 256)) by (apply in_seq; unfold is_uint8 in Hp; lia).
  specialize (H Hin). rewrite forallb_forall in H.
  specialize (H j ltac:(apply in_seq; lia)).
  apply Bool.eqb_prop in H. exact H.
Qed.

Lemma cell_value p j g :
  is_uint8 p -> (j < 8)%nat ->
  (if tested p j =? 0 then g else 0) = encoded_cell p j g.
Proof.
  intros Hp Hj. unfold encoded_cell. rewrite (tested_bit p j Hp Hj).
  destruct (Z.testbit p (7 - Z.of_nat j)); reflexivity.
Qed.

Lemma blit_bits_step n j i p g buf :
  blit_bits (S n) j i p g buf =
  blit_bits n (S j) i (to_uint8 (Z.shiftl p 1)) g
    (<[(i + j * 2)%nat := if Z.land p 0x80 =? 0 then g else 0]> buf).
Proof. cbn [blit_bits]. destruct (Z.land p 128 =? 0); reflexivity. Qed.

Lemma blit_bits_length n : forall j i p g buf,
  length (blit_bits n j i p g buf) = length buf.
Proof.
  induction n as [|n IH]; intros j i p g buf; [reflexivity|].
  rewrite blit_bits_step, IH. apply length_insert.
Qed.

(** Cells below the slot group are not touched. *)
Lemma blit_bits_take n k : forall j i p g buf,
  (k <= i)%nat -> take k (blit_bits n j i p g buf) = take k buf.
Proof.
  induction n as [|n IH]; intros j i p g buf Hk; [reflexivity|].
  rewrite blit_bits_step, IH by exact Hk. apply take_insert_ge. lia.
Qed.

Lemma fill_slots_step n i buf bytes pos pend g :
  (pos < pend)%nat ->
  fill_slots (S n) i buf bytes pos pend g =
  fill_slots n (i + 16) (blit_bits 8 0 i (nth pos bytes 0) g buf) bytes (S pos) pend g.
Proof.
  intros H. cbn [fill_slots].
  replace (pend <=? pos)%nat with false by (symmetry; apply Nat.leb_gt; lia).
  reflexivity.
Qed.

Lemma fill_slots_take n k : forall i buf bytes pos pend g,
  (k <= i)%nat -> take k (fill_slots n i buf bytes pos pend g).1 = take k buf.
Proof.
  induction n as [|n IH]; intros i buf bytes pos pend g Hk; [reflexivity|].
  cbn [fill_slots]. destruct (pend <=? pos)%nat; [reflexivity|].
  rewrite IH by lia. apply blit_bits_take. exact Hk.
Qed.

Lemma fill_slots_length n : forall i buf bytes pos pend g,
  length (fill_slots n i buf bytes pos pend g).1 = length buf.
Proof.
  induction n as [|n IH]; intros i buf bytes pos pend g; [reflexivity|].
  cbn [fill_slots]. destruct (pend <=? pos)%nat; [reflexivity|].
  rewrite IH. apply blit_bits_length.
Qed.

Lemma even_cells_take buf : even_cells (take 16 buf) = even_cells buf.
Proof. unfold even_cells. cbn [map seq]. rewrite !lookup_take_lt by lia. reflexivity. Qed.

Lemma odd_cells_take buf : odd_cells (take 16 buf) = odd_cells buf.
Proof. unfold odd_cells. cbn [map seq]. rewrite !lookup_take_lt by lia. reflexivity. Qed.

(** One byte encoded into the slot group at the start of a buffer. *)
Lemma blit_bits_byte p g buf :
  is_uint8 p -> (16 <= length buf)%nat ->
  even_cells (blit_bits 8 0 0 p g buf) = map (fun j => Some (encoded_cell p j g)) (seq 0 8) /\
  odd_cells (blit_bits 8 0 0 p g buf) = odd_cells buf.
Proof.
  intros Hp Hlen.
  do 16 (destruct buf as [|? buf]; [cbn in Hlen; lia|]).
  rewrite !blit_bits_step. cbn [blit_bits].
  pose proof (cell_value p 0 g Hp ltac:(lia)) as H0.
  pose proof (cell_value p 1 g Hp ltac:(lia)) as H1.
  pose proof (cell_value p 2 g Hp ltac:(lia)) as H2.
  pose proof (cell_value p 3 g Hp ltac:(lia)) as H3.
  pose proof (cell_value p 4 g Hp ltac:(lia)) as H4.
  pose proof (cell_value p 5 g Hp ltac:(lia)) as H5.
  pose proof (cell_value p 6 g Hp ltac:(lia)) as H6.
  pose proof (cell_value p 7 g Hp ltac:(lia)) as H7.
  unfold tested in *. cbn [Nat.iter nat_rect] in *.
  cbn. rewrite H0, H1, H2, H3, H4, H5, H6, H7. split; reflexivity.
Qed.

Lemma filter_early_fall (buf : list Z) (g : Z) (js : list nat) :
  filter (fun j => buf !! (2 * j)%nat = Some g) js =
  List.map fst (List.filter (fun jc => bool_decide (jc.2 = Some g))
                            (combine js (map (fun j => buf !! (2 * j)%nat) js))).
Proof.
  induction js as [|j js IH]; [reflexivity|].
  rewrite filter_cons. cbn [map combine List.filter snd].
  destruct (decide (buf !! (2 * j)%nat = Some g)) as [H|H].
  - rewrite bool_decide_eq_true_2 by exact H. cbn [List.map fst]. f_equal. exact IH.
  - rewrite bool_decide_eq_false_2 by exact H. exact IH.
Qed.

Lemma early_fall_of_even_cells buf g :
  early_fall_positions buf g =
  List.map fst (List.filter (fun jc => bool_decide (jc.2 = Some g))
                            (combine (seq 0 8) (even_cells buf))).
Proof. apply filter_early_fall. Qed.

(** C2, as the code has it: the first byte [fill_dma_buf] takes is encoded
    into the first sixteen cells, most significant bit first: the even cell
    of bit position [j] receives [gpio_val] when that bit is 0 and 0 when it
    is 1, the odd cells keep what they held.  For the byte 0b10110000 the
    early-fall value sits at positions 1, 4, 5, 6 and 7 and not at 0, 2
    and 3. *)
Theorem fill_dma_buf_first_byte dma_buf bytes pos pixel_data_end gpio_val :
  length dma_buf = WS2811_DMA_BUFSIZE ->
  (pos < pixel_data_end)%nat ->
  is_uint8 (nth pos bytes 0) ->
  let buf := (fill_dma_buf dma_buf bytes pos pixel_data_end gpio_val).1.1 in
  length buf = WS2811_DMA_BUFSIZE /\
  even_cells buf =
    map (fun j => Some (encoded_cell (nth pos bytes 0) j gpio_val)) (seq 0 8) /\
  odd_cells buf = odd_cells dma_buf /\
  (nth pos bytes 0 = 0xB0 ->
   even_cells buf =
     [Some 0; Some gpio_val; Some 0; Some 0;
      Some gpio_val; Some gpio_val; Some gpio_val; Some gpio_val] /\
   (gpio_val <> 0 -> early_fall_positions buf gpio_val = [1; 4; 5; 6; 7]%nat)).
Proof.
  intros Hlen Hpos Hp buf.
  assert (Hbuf : buf = (fill_slots 17 16 (blit_bits 8 0 0 (nth pos bytes 0) gpio_val dma_buf)
                          bytes (S pos) pixel_data_end gpio_val).1).
  { unfold buf, fill_dma_buf. change (WS2811_DMA_BUFSIZE / 16)%nat with 18%nat.
    rewrite fill_slots_step by exact Hpos. change (0 + 16)%nat with 16%nat.
    match goal with
    | |- context [fill_slots 17 ?a ?b ?c ?d ?e ?f] => destruct (fill_slots 17 a b c d e f)
    end. reflexivity. }
  assert (Htake : take 16 buf = take 16 (blit_bits 8 0 0 (nth pos bytes 0) gpio_val dma_buf)).
  { rewrite Hbuf. apply fill_slots_take. lia. }
  destruct (blit_bits_byte (nth pos bytes 0) gpio_val dma_buf Hp) as [Heven Hodd].
  { rewrite Hlen. unfold WS2811_DMA_BUFSIZE. lia. }
  assert (Ev : even_cells buf =
               map (fun j => Some (encoded_cell (nth pos bytes 0) j gpio_val)) (seq 0 8)).
  { rewrite <- even_cells_take, Htake, even_cells_take. exact Heven. }
  split; [|split; [exact Ev|split]].
  - rewrite Hbuf, fill_slots_length, blit_bits_length. exact Hlen.
  - rewrite <- odd_cells_take, Htake, odd_cells_take. exact Hodd.
  - intros HB0. rewrite HB0 in Ev.
    assert (Ev' : even_cells buf =
                  [Some 0; Some gpio_val; Some 0; Some 0;
                   Some gpio_val; Some gpio_val; Some gpio_val; Some gpio_val])
      by (rewrite Ev; reflexivity).
    split; [exact Ev'|].
    intros Hg. rewrite early_fall_of_even_cells, Ev'.
    cbn [seq combine List.filter List.map fst snd].
    rewrite !(bool_decide_eq_true_2 (Some gpio_val = Some gpio_val)) by reflexivity.
    rewrite !(bool_decide_eq_false_2 (Some 0 = Some gpio_val)) by congruence.
    reflexivity.
Qed.

(** *** The calls *)

(** The early return of [PIOS_WS2811_trigger_update]. *)
Lemma trigger_update_early_return m :
  in_progress (device m) = true -> PIOS_WS2811_trigger_update m = m.
Proof. intros H. unfold PIOS_WS2811_trigger_update. rewrite H. reflexivity. Qed.

(** C7: while an update is in progress [PIOS_WS2811_trigger_update] hands
    the system back as it found it: both DMA buffers, the cursor, [eof],
    [cur_buf], [in_progress], the pixels and the peripherals. *)
Theorem trigger_update_in_progress_noop m :
  in_progress (device m) = true -> PIOS_WS2811_trigger_update m = m.
Proof. exact (trigger_update_early_return m). Qed.

Lemma trigger_update_sets_in_progress m :
  in_progress (device (PIOS_WS2811_trigger_update m)) = true.
Proof.
  unfold PIOS_WS2811_trigger_update.
  destruct (in_progress (device m)) eqn:H; [exact H|].
  destruct (fill_dma_buf (dma_buf_0 (device m)) _ _ _ _) as [[buf_0 pos] flag].
  destruct (fill_dma_buf (dma_buf_1 (device m)) _ _ _ _) as [[buf_1 pos'] flag'].
  reflexivity.
Qed.

Lemma set_index_too_large d idx r g b :
  magic d = WS2811_MAGIC -> max_leds d <= idx ->
  PIOS_WS2811_set d idx r g b = AssertFailed.
Proof.
  intros Hm Hidx. unfold PIOS_WS2811_set. rewrite Hm, Z.eqb_refl. cbn [negb].
  replace (idx <? max_leds d) with false by (symmetry; apply Z.ltb_ge; lia).
  reflexivity.
Qed.

Lemma set_in_range d idx r g b :
  magic d = WS2811_MAGIC -> 0 <= idx < max_leds d ->
  PIOS_WS2811_set d idx r g b =
  Ok (with_pixel_data d (<[Z.to_nat idx := {| r := r; g := g; b := b |}]> (pixel_data d))).
Proof.
  intros Hm Hidx. unfold PIOS_WS2811_set. rewrite Hm, Z.eqb_refl. cbn [negb].
  replace (idx <? max_leds d) with true by (symmetry; apply Z.ltb_lt; lia).
  replace (idx <? 0) with false by (symmetry; apply Z.ltb_ge; lia).
  reflexivity.
Qed.

(** A negative index is not caught by the assertion. *)
Lemma set_negative_index d idx r g b :
  magic d = WS2811_MAGIC -> 0 <= max_leds d -> idx < 0 ->
  PIOS_WS2811_set d idx r g b = WildStore.
Proof.
  intros Hm Hmax Hidx. unfold PIOS_WS2811_set. rewrite Hm, Z.eqb_refl. cbn [negb].
  replace (idx <? max_leds d) with true by (symmetry; apply Z.ltb_lt; lia).
  replace (idx <? 0) with true by (symmetry; apply Z.ltb_lt; lia).
  reflexivity.
Qed.

(** C9 at index -1 on the two-LED strip: the assertion lets the call
    through and the store lands in front of the pixel array. *)
Example set_minus_one_is_a_wild_store :
  PIOS_WS2811_set (device strip) (-1) 255 0 0 = WildStore.
Proof. reflexivity. Qed.

Lemma set_in_progress d idx r g b d' :
  PIOS_WS2811_set d idx r g b = Ok d' -> in_progress d' = in_progress d.
Proof.
  unfold PIOS_WS2811_set.
  destruct (negb (magic d =? WS2811_MAGIC)); [discriminate|].
  destruct (negb (idx <? max_leds d)); [discriminate|].
  destruct (idx <? 0); [discriminate|].
  intros [= <-]. reflexivity.
Qed.

Lemma set_all_from_in_progress n r g b : forall i d d',
  set_all_from n i d r g b = Ok d' -> in_progress d' = in_progress d.
Proof.
  induction n as [|n IH]; intros i d d'; cbn [set_all_from].
  - intros [= <-]. reflexivity.
  - destruct (PIOS_WS2811_set d i r g b) as [d1| |] eqn:Hset; [|discriminate..].
    intros H. rewrite (IH _ _ _ H). eapply set_in_progress. exact Hset.
Qed.

Lemma set_all_in_progress d r g b d' :
  PIOS_WS2811_set_all d r g b = Ok d' -> in_progress d' = in_progress d.
Proof.
  unfold PIOS_WS2811_set_all.
  destruct (negb (magic d =? WS2811_MAGIC)); [discriminate|].
  apply set_all_from_in_progress.
Qed.

(** Only a negative index gets past the assertion and out of the array. *)
Lemma set_wild_store_negative d idx r g b :
  PIOS_WS2811_set d idx r g b = WildStore -> idx < 0.
Proof.
  unfold PIOS_WS2811_set.
  destruct (negb (magic d =? WS2811_MAGIC)); [discriminate|].
  destruct (negb (idx <? max_leds d)); [discriminate|].
  destruct (Z.ltb_spec idx 0); [lia | discriminate].
Qed.


Lemma step_in_progress m c m' :
  step m c m' -> index_not_negative c ->
  in_progress (device m) = true -> in_progress (device m') = true.
Proof.
  intros Hstep Hidx Hin.
  destruct Hstep as [m idx r g b d Hset | m idx r g b d Hset _ | m r g b d Hset | m].
  - cbn. rewrite (set_in_progress _ _ _ _ _ _ Hset). exact Hin.
  - apply set_wild_store_negative in Hset. cbn in Hidx. lia.
  - cbn. rewrite (set_all_in_progress _ _ _ _ _ Hset). exact Hin.
  - apply trigger_update_sets_in_progress.
Qed.


(** *** On the two-LED strip *)

Example init_gives_strip :
  PIOS_WS2811_init (Some strip_memory) strip_cfg 2 = Ok (0, Some strip).
Proof. vm_compute. reflexivity. Qed.

Lemma fill_dma_buf_first_byte_witness :
  early_fall_positions
    (fill_dma_buf (prefilled 8) [0xB0; 0; 0] 0 3 8).1.1 8 = [1; 4; 5; 6; 7]%nat.
Proof.
  apply (fill_dma_buf_first_byte (prefilled 8) [0xB0; 0; 0] 0 3 8);
    [reflexivity | lia | unfold is_uint8; cbn; lia | reflexivity | discriminate].
Defined.

(** C2 as it was claimed: positions 1, 3 and 4.  Position 3 of 0b10110000
    is a one bit and positions 5, 6 and 7 are zero bits. *)
Lemma early_fall_0xB0_is_not_1_3_4 :
  early_fall_positions (fill_dma_buf (prefilled 8) [0xB0; 0; 0] 0 3 8).1.1 8
  <> [1; 3; 4]%nat.
Proof. vm_compute. discriminate. Qed.

Lemma trigger_update_in_progress_noop_witness :
  PIOS_WS2811_trigger_update (PIOS_WS2811_trigger_update strip)
  = PIOS_WS2811_trigger_update strip.
Proof.
  apply (trigger_update_in_progress_noop (PIOS_WS2811_trigger_update strip)).
  vm_compute. reflexivity.
Defined.



End WS2811_Facts.

(** ** Further properties of the barometer driver *)

Module MS5611_More.
Import MS5611 CInt_Facts MS5611_Arith MS5611_Facts.

#[local] Arguments to_uint8 : simpl never.
#[local] Arguments to_uint16 : simpl never.
#[local] Arguments to_uint32 : simpl never.
#[local] Arguments to_int32 : simpl never.
#[local] Arguments to_int64 : simpl never.
#[local] Arguments received : simpl never.
#[local] Arguments uninitialised : simpl never.
#[local] Arguments Z.mul : simpl never.
#[local] Arguments Z.add : simpl never.
#[local] Arguments Z.sub : simpl never.
#[local] Arguments Z.shiftl : simpl never.
#[local] Arguments Z.shiftr : simpl never.
#[local] Arguments Z.lor : simpl never.
#[local] Arguments Z.ltb : simpl never.
#[local] Arguments add64 : simpl never.
#[local] Arguments sub64 : simpl never.
#[local] Arguments mul64 : simpl never.
#[local] Arguments shl64 : simpl never.
#[local] Arguments sar64 : simpl never.
#[local] Arguments sub32 : simpl never.
#[local] Arguments shl32 : simpl never.
#[local] Arguments or32 : simpl never.

Ltac run H := rewrite (bind_Done _ _ _ _ _ H).

Section WithEnv.
Variable env : environment.

(** *** An invalid handle *)

Lemma validate_invalid s :
  PIOS_MS5611_Validate (dev s) <> 0 ->
  negb (PIOS_MS5611_Validate (dev s) =? 0) = true.
Proof. intros H. apply Z.eqb_neq in H. rewrite H. reflexivity. Qed.

Lemma WriteCommand_invalid s command :
  PIOS_MS5611_Validate (dev s) <> 0 ->
  PIOS_MS5611_WriteCommand env command s = Done (-1) s.
Proof.
  intros Hbad. unfold PIOS_MS5611_WriteCommand.
  run (validate_run s). rewrite (validate_invalid s Hbad). reflexivity.
Qed.

(** X1: with a handle that does not validate (no device, wrong magic or
    SPI id 0) every entry point that returns a status returns -1 (the read
    hands the caller's buffer back) and [PIOS_MS5611_GetDelay] returns 100,
    all without touching the bus, the lock or the trace; claiming or
    releasing the device, and with them a pass of the task, stop in
    [PIOS_Assert]. *)
Theorem invalid_handle_is_refused s fuel type address buffer len command count :
  PIOS_MS5611_Validate (dev s) <> 0 ->
  PIOS_MS5611_ClaimBus env s = Done (-1) s /\
  PIOS_MS5611_ReleaseBus s = Done (-1) s /\
  PIOS_MS5611_Read env address buffer len s = Done (-1, buffer) s /\
  PIOS_MS5611_WriteCommand env command s = Done (-1) s /\
  PIOS_MS5611_StartADC env fuel type s = Done (-1) s /\
  PIOS_MS5611_GetDelay env s = Done 100 s /\
  PIOS_MS5611_ReadADC env s = Done (-1) s /\
  PIOS_MS5611_SPI_Test env fuel s = Done (-1) s /\
  PIOS_MS5611_ClaimDevice s = Fatal /\
  PIOS_MS5611_ReleaseDevice s = Fatal /\
  Task_iteration env fuel count s = Fatal.
Proof.
  intros Hbad. pose proof (validate_invalid s Hbad) as Hneg.
  assert (Hz : (PIOS_MS5611_Validate (dev s) =? 0) = false) by (apply Z.eqb_neq; exact Hbad).
  assert (Hclaim : PIOS_MS5611_ClaimDevice s = Fatal).
  { unfold PIOS_MS5611_ClaimDevice, bind, validate, PIOS_Assert. rewrite Hz. reflexivity. }
  repeat split;
    try (unfold PIOS_MS5611_ClaimBus, PIOS_MS5611_ReleaseBus, PIOS_MS5611_Read,
           PIOS_MS5611_WriteCommand, PIOS_MS5611_StartADC, PIOS_MS5611_GetDelay,
           PIOS_MS5611_ReadADC, PIOS_MS5611_SPI_Test;
         run (validate_run s); rewrite Hneg; reflexivity).
  - exact Hclaim.
  - unfold PIOS_MS5611_ReleaseDevice, bind, validate, PIOS_Assert. rewrite Hz. reflexivity.
  - unfold Task_iteration. cbv zeta.
    destruct (to_uint32 (count - 1) =? 0).
    + unfold bind at 1. unfold bind at 1. rewrite Hclaim. reflexivity.
    + unfold bind at 1. unfold ret at 1. unfold bind at 1. rewrite Hclaim. reflexivity.
Qed.

(** *** Bus transactions *)

Lemma received_length rx len : length (received rx len) = len.
Proof. unfold received. rewrite length_map, length_seq. reflexivity. Qed.

Lemma received_bytes rx len : Forall is_uint8 (received rx len).
Proof.
  unfold received. apply Forall_forall. intros x Hx.
  apply list_elem_of_In, in_map_iff in Hx. destruct Hx as (i & <- & _).
  apply to_uint8_range.
Qed.

(** X2: the three outcomes of [PIOS_MS5611_Read] on a valid handle.  It
    claims the bus once and leaves the device as it was.  0: the claim was
    granted and the block transfer succeeded, the buffer holds the [len]
    bytes received; -3: the claim was granted and the transfer failed; -2:
    the claim was refused and nothing was sent.  On -3 and -2 the caller's
    buffer is untouched. *)
Theorem Read_status s address buffer len rc buffer' s' :
  valid s ->
  PIOS_MS5611_Read env address buffer len s = Done (rc, buffer') s' ->
  dev s' = dev s /\ spi_claims s' = S (spi_claims s) /\
  ((rc = 0 /\ spi_claim env (spi_claims s) = true /\
    (exists rx, spi_block env (spi_blocks s) = Some rx /\ buffer' = received rx len) /\
    length buffer' = len /\ Forall is_uint8 buffer' /\
    trace s' = trace s ++ [SpiTransferByte address] /\
    spi_blocks s' = S (spi_blocks s))
   \/ (rc = -3 /\ spi_claim env (spi_claims s) = true /\
       spi_block env (spi_blocks s) = None /\ buffer' = buffer /\
       trace s' = trace s ++ [SpiTransferByte address] /\
       spi_blocks s' = S (spi_blocks s))
   \/ (rc = -2 /\ spi_claim env (spi_claims s) = false /\ buffer' = buffer /\
       trace s' = trace s /\ spi_blocks s' = spi_blocks s)).
Proof.
  intros Hv. rewrite Read_run by exact Hv.
  destruct (spi_claim env (spi_claims s)) eqn:Hc.
  - destruct (spi_block env (spi_blocks s)) as [rx|] eqn:Hb; intros [= <- <- <-].
    + split; [reflexivity|]. split; [reflexivity|]. left.
      repeat split; eauto using received_length, received_bytes.
    + split; [reflexivity|]. split; [reflexivity|]. right. left. repeat split.
  - intros [= <- <- <-]. split; [reflexivity|]. split; [reflexivity|].
    right. right. repeat split.
Qed.

(** X3: the two outcomes of [PIOS_MS5611_WriteCommand] on a valid handle:
    0 after the command byte has been sent on a granted bus, -2 with
    nothing sent when the claim was refused.  Either way one claim is used
    and no block transfer is made. *)
Theorem WriteCommand_status s command rc s' :
  valid s ->
  PIOS_MS5611_WriteCommand env command s = Done rc s' ->
  dev s' = dev s /\ spi_claims s' = S (spi_claims s) /\ spi_blocks s' = spi_blocks s /\
  ((rc = 0 /\ spi_claim env (spi_claims s) = true /\
    trace s' = trace s ++ [SpiTransferByte command])
   \/ (rc = -2 /\ spi_claim env (spi_claims s) = false /\ trace s' = trace s)).
Proof.
  intros Hv. rewrite WriteCommand_run by exact Hv.
  destruct (spi_claim env (spi_claims s)) eqn:Hc; intros [= <- <-];
    repeat split; [left | right]; repeat split.
Qed.

(** *** The conversion delay *)

(** X4: the delay table of [PIOS_MS5611_GetDelay]: 2 ms for OSR 256 and
    512, 3 ms for 1024, 5 ms for 2048, 10 ms for 4096 and for any other
    oversampling value; the state is not changed. *)
Theorem GetDelay_table s d :
  valid s -> dev s = Some d ->
  NoDup [MS5611_OSR_256 env; MS5611_OSR_512 env; MS5611_OSR_1024 env;
         MS5611_OSR_2048 env; MS5611_OSR_4096 env] ->
  exists ms,
    PIOS_MS5611_GetDelay env s = Done ms s /\
    (oversampling (cfg d) = MS5611_OSR_256 env -> ms = 2) /\
    (oversampling (cfg d) = MS5611_OSR_512 env -> ms = 2) /\
    (oversampling (cfg d) = MS5611_OSR_1024 env -> ms = 3) /\
    (oversampling (cfg d) = MS5611_OSR_2048 env -> ms = 5) /\
    (oversampling (cfg d) = MS5611_OSR_4096 env -> ms = 10) /\
    (~ In (oversampling (cfg d))
          [MS5611_OSR_256 env; MS5611_OSR_512 env; MS5611_OSR_1024 env;
           MS5611_OSR_2048 env; MS5611_OSR_4096 env] -> ms = 10) /\
    2 <= ms <= 10.
Proof.
  intros Hv Hd Hnd.
  assert (Hne : MS5611_OSR_256 env <> MS5611_OSR_512 env /\
                MS5611_OSR_256 env <> MS5611_OSR_1024 env /\
                MS5611_OSR_256 env <> MS5611_OSR_2048 env /\
                MS5611_OSR_256 env <> MS5611_OSR_4096 env /\
                MS5611_OSR_512 env <> MS5611_OSR_1024 env /\
                MS5611_OSR_512 env <> MS5611_OSR_2048 env /\
                MS5611_OSR_512 env <> MS5611_OSR_4096 env /\
                MS5611_OSR_1024 env <> MS5611_OSR_2048 env /\
                MS5611_OSR_1024 env <> MS5611_OSR_4096 env /\
                MS5611_OSR_2048 env <> MS5611_OSR_4096 env).
  { rewrite !NoDup_cons in Hnd. rewrite !not_elem_of_cons in Hnd. tauto. }
  clear Hnd. destruct Hne as (N12 & N13 & N14 & N15 & N23 & N24 & N25 & N34 & N35 & N45).
  unfold PIOS_MS5611_GetDelay.
  run (validate_run s). rewrite Hv. cbn [Z.eqb negb].
  unfold the_dev, bind, ret. rewrite Hd. cbv zeta. cbn [In].
  generalize dependent (oversampling (cfg d)). intros osr.
  destruct (Z.eqb_spec osr (MS5611_OSR_256 env)) as [E1|E1].
  { exists 2. split; [reflexivity|]. subst osr.
    repeat match goal with |- _ /\ _ => split end; intros; try congruence; try lia; tauto. }
  destruct (Z.eqb_spec osr (MS5611_OSR_512 env)) as [E2|E2].
  { exists 2. split; [reflexivity|]. subst osr.
    repeat match goal with |- _ /\ _ => split end; intros; try congruence; try lia; tauto. }
  destruct (Z.eqb_spec osr (MS5611_OSR_1024 env)) as [E3|E3].
  { exists 3. split; [reflexivity|]. subst osr.
    repeat match goal with |- _ /\ _ => split end; intros; try congruence; try lia; tauto. }
  destruct (Z.eqb_spec osr (MS5611_OSR_2048 env)) as [E4|E4].
  { exists 5. split; [reflexivity|]. subst osr.
    repeat match goal with |- _ /\ _ => split end; intros; try congruence; try lia; tauto. }
  exists 10. split; [destruct (osr =? MS5611_OSR_4096 env); reflexivity|].
  repeat match goal with |- _ /\ _ => split end; intros; try congruence; try lia.
Qed.

(** *** Initialisation *)

(** X5: how [PIOS_MS5611_SPI_Init] fails.  Without memory for the device
    or for its queue it returns -1 and leaves no device; a failed semaphore
    creation or thread creation stops in [PIOS_Assert]; SPI id 0 or a
    refused reset command returns -2 with the device already allocated and
    installed, nothing sent and no calibration word read. *)
Theorem Init_failures spi_id slave_num cfg :
  (malloc_ok env = false \/ queue_ok env = false ->
   PIOS_MS5611_SPI_Init env spi_id slave_num cfg initial_state = Done (-1) initial_state) /\
  (malloc_ok env = true -> queue_ok env = true -> semaphore_ok env = false ->
   PIOS_MS5611_SPI_Init env spi_id slave_num cfg initial_state = Fatal) /\
  (malloc_ok env = true -> queue_ok env = true -> semaphore_ok env = true ->
   spi_id = 0 \/ spi_claim env 0 = false ->
   exists s' d',
     PIOS_MS5611_SPI_Init env spi_id slave_num cfg initial_state = Done (-2) s' /\
     dev s' = Some d' /\ magic d' = PIOS_MS5611_DEV_MAGIC /\
     calibration d' = [0; 0; 0; 0; 0; 0] /\
     trace s' = [] /\ spi_blocks s' = 0%nat) /\
  (malloc_ok env = true -> queue_ok env = true -> semaphore_ok env = true ->
   spi_id <> 0 -> spi_claim env 0 = true -> thread_ok env = false ->
   PIOS_MS5611_SPI_Init env spi_id slave_num cfg initial_state = Fatal).
Proof.
  unfold PIOS_MS5611_SPI_Init, PIOS_MS5611_alloc. repeat split.
  - intros [Hm | Hq].
    + rewrite Hm. reflexivity.
    + rewrite Hq. destruct (malloc_ok env); reflexivity.
  - intros Hm Hq Hs. rewrite Hm, Hq, Hs. reflexivity.
  - intros Hm Hq Hs Hbad. rewrite Hm, Hq, Hs. cbn [negb PIOS_Assert].
    erewrite bind_Done by reflexivity.
    erewrite bind_Done by reflexivity.
    erewrite bind_Done by reflexivity.
    match goal with
    | |- context [bind (PIOS_MS5611_WriteCommand env MS5611_RESET) _ ?s] => set (s0 := s)
    end.
    destruct (Z.eq_dec spi_id 0) as [Hz | Hnz].
    + assert (Hw : PIOS_MS5611_WriteCommand env MS5611_RESET s0 = Done (-1) s0).
      { apply WriteCommand_invalid. unfold s0. cbn. rewrite Hz. discriminate. }
      run Hw. cbn [Z.eqb negb]. eexists _, _. split; [reflexivity|]. repeat split.
    + destruct Hbad as [Hz | Hc]; [contradiction|].
      assert (Hv0 : valid s0).
      { unfold valid, s0. cbn. apply Z.eqb_neq in Hnz. rewrite Hnz. reflexivity. }
      unfold bind at 1. rewrite WriteCommand_run by exact Hv0.
      change (spi_claims s0) with 0%nat. rewrite Hc. cbn [Z.eqb negb].
      eexists _, _. split; [reflexivity|]. repeat split.
  - intros Hm Hq Hs Hnz Hc Ht. rewrite Hm, Hq, Hs, Ht. cbn [negb PIOS_Assert].
    erewrite bind_Done by reflexivity.
    erewrite bind_Done by reflexivity.
    erewrite bind_Done by reflexivity.
    match goal with
    | |- context [bind (PIOS_MS5611_WriteCommand env MS5611_RESET) _ ?s] => set (s0 := s)
    end.
    assert (Hv0 : valid s0).
    { unfold valid, s0. cbn. apply Z.eqb_neq in Hnz. rewrite Hnz. reflexivity. }
    unfold bind at 1. rewrite WriteCommand_run by exact Hv0.
    change (spi_claims s0) with 0%nat. rewrite Hc. cbn [Z.eqb negb].
    unfold PIOS_DELAY_WaitmS, emit. unfold bind at 1.
    edestruct (read_calibration_ok env 6 0 (uninitialised env 2)
                 (log (DelayWaitmS 20) (log (SpiTransferByte MS5611_RESET) (next_claim s0))))
      as (s' & d' & Hrun & _); [exact Hv0 | reflexivity | |].
    { split; [reflexivity|]. repeat constructor; unfold is_uint16; lia. }
    run Hrun. reflexivity.
Qed.

Lemma calibration_word_code b0 b1 :
  is_uint8 b0 -> is_uint8 b1 ->
  to_uint16 (or32 (shl32 b0 8) b1) = b0 * 2 ^ 8 + b1.
Proof.
  unfold is_uint8, or32, shl32. intros H0 H1.
  rewrite (to_int32_small (Z.shiftl b0 8)) by (rewrite Z.shiftl_mul_pow2; lia).
  rewrite (lor_shiftl_low b0 b1 8) by lia.
  rewrite to_int32_small by lia.
  unfold to_uint16, wrap_unsigned. apply Z.mod_small. lia.
Qed.

(** The calibration loop on a bus that answers: word [k] is assembled from
    the two bytes of the transfer, most significant first. *)
Lemma read_calibration_good (rx : nat -> list Z) n : forall i data s d,
  valid s -> dev s = Some d ->
  (forall j, (j < n)%nat -> spi_claim env (spi_claims s + j) = true) ->
  (forall j, (j < n)%nat -> spi_block env (spi_blocks s + j) = Some (rx (i + j)%nat)) ->
  exists s',
    read_calibration env n i data s = Done tt s' /\
    dev s' = Some (with_calibration d
                     (foldl (fun c k => <[k := calibration_word (rx k)]> c)
                            (calibration d) (seq i n))) /\
    trace s' = trace s ++
               map (fun k => SpiTransferByte (to_uint8 (MS5611_CALIB_ADDR + Z.of_nat k * 2)))
                   (seq i n) /\
    delta_temp s' = delta_temp s /\ temperature s' = temperature s /\
    busy_taken s' = busy_taken s.
Proof.
  induction n as [|n IH]; intros i data s d Hv Hd Hclaim Hblock.
  - exists s. cbn. rewrite app_nil_r. destruct d; auto 10.
  - destruct (valid_inv s Hv) as (d0 & Hd0 & Hm & Hi).
    rewrite Hd in Hd0. injection Hd0 as <-.
    pose proof (Hclaim 0%nat ltac:(lia)) as Hc0. rewrite Nat.add_0_r in Hc0.
    pose proof (Hblock 0%nat ltac:(lia)) as Hb0. rewrite !Nat.add_0_r in Hb0.
    cbn [read_calibration]. unfold bind at 1. rewrite Read_run, Hc0, Hb0 by exact Hv.
    unfold the_dev, set_dev, bind. cbn [dev next_block log next_claim]. rewrite Hd.
    assert (Hword : to_uint16 (or32 (shl32 (byte_at (received (rx i) 2) 0) 8)
                                    (byte_at (received (rx i) 2) 1))
                    = calibration_word (rx i)).
    { unfold calibration_word. apply calibration_word_code; apply to_uint8_range. }
    rewrite Hword.
    match goal with
    | |- context [read_calibration env n (S i) ?data ?st] =>
        edestruct (IH (S i) data st) as (s' & Hrun & Hd' & Htr & Hrest);
          [ | reflexivity | | | ]
    end.
    + unfold valid. cbn. rewrite Hm, Hi. reflexivity.
    + intros j Hj. cbn. rewrite <- Nat.add_succ_r. apply Hclaim. lia.
    + intros j Hj. cbn. rewrite <- !Nat.add_succ_r. apply Hblock. lia.
    + exists s'. split; [exact Hrun|]. split; [exact Hd'|].
      split; [|exact Hrest].
      rewrite Htr. cbn [trace upd_dev next_block log next_claim seq map].
      rewrite <- app_assoc. reflexivity.
Qed.

(** X6: on a bus that grants the first seven claims and answers the six
    PROM reads, [PIOS_MS5611_SPI_Init] returns 0 having sent the reset
    command, waited 20 ms and read the PROM addresses 0xA2 to 0xAC in
    order; calibration word [i] is the first byte of answer [i] times 256
    plus the second, the configuration is stored, and the readings and the
    statics are zero. *)
Theorem Init_reads_calibration spi_id slave_num cfg (rx : nat -> list Z) :
  spi_id <> 0 ->
  malloc_ok env = true -> queue_ok env = true ->
  semaphore_ok env = true -> thread_ok env = true ->
  (forall k, (k < 7)%nat -> spi_claim env k = true) ->
  (forall i, (i < 6)%nat -> spi_block env i = Some (rx i)) ->
  exists s' d',
    PIOS_MS5611_SPI_Init env spi_id slave_num cfg initial_state = Done 0 s' /\
    dev s' = Some d' /\
    calibration d' = map (fun i => calibration_word (rx i)) (seq 0 6) /\
    MS5611.cfg d' = cfg /\ MS5611.spi_id d' = spi_id /\ MS5611.slave_num d' = slave_num /\
    temperature_unscaled d' = 0 /\ pressure_unscaled d' = 0 /\
    delta_temp s' = 0 /\ temperature s' = 0 /\
    trace s' = [SpiTransferByte 0x1E; DelayWaitmS 20;
                SpiTransferByte 0xA2; SpiTransferByte 0xA4; SpiTransferByte 0xA6;
                SpiTransferByte 0xA8; SpiTransferByte 0xAA; SpiTransferByte 0xAC;
                SensorsRegister; ThreadCreate].
Proof.
  intros Hid Hmal Hq Hsem Hth Hclaim Hblock.
  unfold PIOS_MS5611_SPI_Init, PIOS_MS5611_alloc.
  rewrite Hmal, Hq, Hsem, Hth. cbn [negb PIOS_Assert].
  erewrite bind_Done by reflexivity.
  erewrite bind_Done by reflexivity.
  erewrite bind_Done by reflexivity.
  match goal with
  | |- context [bind (PIOS_MS5611_WriteCommand env MS5611_RESET) _ ?s] => set (s0 := s)
  end.
  assert (Hv0 : valid s0).
  { unfold valid, s0. cbn. apply Z.eqb_neq in Hid. rewrite Hid. reflexivity. }
  unfold bind at 1. rewrite WriteCommand_run by exact Hv0.
  change (spi_claims s0) with 0%nat. rewrite (Hclaim 0%nat) by lia. cbn [Z.eqb negb].
  unfold PIOS_DELAY_WaitmS, emit. unfold bind at 1.
  edestruct (read_calibration_good rx 6 0 (uninitialised env 2)
               (log (DelayWaitmS 20) (log (SpiTransferByte MS5611_RESET) (next_claim s0))))
    as (s' & Hrun & Hd' & Htr & Hdt & Ht & _);
    [exact Hv0 | reflexivity | | | ].
  - intros j Hj. apply Hclaim. cbn. lia.
  - intros j Hj. apply Hblock. exact Hj.
  - run Hrun. unfold bind, ret, emit. cbn [PIOS_Assert].
    eexists _, _. split; [reflexivity|].
    cbn [dev log delta_temp temperature trace]. rewrite Hd', Htr, Hdt, Ht.
    repeat split.
Qed.

(** *** Reading a conversion *)

Lemma adc_code_eq s rx :
  spi_block env (spi_blocks s) = Some rx ->
  adc_code env s =
  to_uint8 (nth 0 rx 0) * 2 ^ 16 + to_uint8 (nth 1 rx 0) * 2 ^ 8 + to_uint8 (nth 2 rx 0).
Proof. intros Hb. unfold adc_code. rewrite Hb. reflexivity. Qed.

(** A temperature conversion read on a granted bus, as a state equation. *)
Lemma ReadADC_temperature_run s d rx :
  valid s -> dev s = Some d ->
  current_conversion_type d = TEMPERATURE_CONV ->
  calibrated d ->
  spi_claim env (spi_claims s) = true ->
  spi_block env (spi_blocks s) = Some rx ->
  let dt := Reference.delta_temp (adc_code env s) (cal d 4) in
  let t := Reference.temperature dt (cal d 5) in
  PIOS_MS5611_ReadADC env s =
    Done 0 (upd_dev (Some (with_temperature_unscaled d (Reference.temperature_unscaled dt t)))
              (upd_statics dt t
                 (next_block (log (SpiTransferByte MS5611_ADC_READ) (next_claim s))))) /\
  - 2 ^ 24 < dt < 2 ^ 24 /\ 2000 - 2 ^ 17 <= t < 2000 + 2 ^ 17.
Proof.
  intros Hv Hd Hct Hcal Hc Hb dt t.
  pose proof (adc_code_range env s) as Hraw.
  assert (B0 := to_uint8_range (nth 0 rx 0)).
  assert (B1 := to_uint8_range (nth 1 rx 0)).
  assert (B2 := to_uint8_range (nth 2 rx 0)).
  destruct (temperature_branch (adc_code env s) (cal d 4) (cal d 5) Hraw
              (cal_uint16 d 4 Hcal) (cal_uint16 d 5 Hcal))
    as (Edt & Et & Bdt & Bt & Ecorr).
  cbv zeta in Edt, Et, Bdt, Bt, Ecorr.
  rewrite Edt in Et, Bdt, Bt, Ecorr. fold dt in Et, Bdt, Bt, Ecorr.
  rewrite Et in Bt, Ecorr. fold t in Bt, Ecorr.
  split; [|split; [exact Bdt | exact Bt]].
  unfold PIOS_MS5611_ReadADC.
  run (validate_run s). rewrite Hv. cbn [Z.eqb negb].
  unfold the_dev at 1. unfold bind at 1. rewrite Hd, Hct.
  unfold bind at 1. rewrite Read_run, Hc, Hb by exact Hv.
  unfold the_dev, set_statics, get_statics, set_dev, bind, ret; cbn; rewrite Hd; cbn.
  rewrite !received_3. unfold byte_at. cbn [nth].
  rewrite adc_word by assumption. rewrite <- (adc_code_eq s rx Hb).
  rewrite Edt. fold dt. rewrite Et. fold t.
  unfold Reference.temperature_unscaled.
  destruct (t <? 2000); cbn; [rewrite Ecorr|]; reflexivity.
Qed.

(** A pressure conversion read on a granted bus, as a state equation. *)
Lemma ReadADC_pressure_run s d rx :
  valid s -> dev s = Some d ->
  current_conversion_type d = PRESSURE_CONV ->
  calibrated d -> statics_bounded s ->
  spi_claim env (spi_claims s) = true ->
  spi_block env (spi_blocks s) = Some rx ->
  PIOS_MS5611_ReadADC env s =
    Done 0 (upd_dev
              (Some (with_pressure_unscaled d
                       (Reference.pressure_unscaled (adc_code env s)
                          (delta_temp s) (temperature s) (temperature_unscaled d)
                          (cal d 0) (cal d 1) (cal d 2) (cal d 3))))
              (next_block (log (SpiTransferByte MS5611_ADC_READ) (next_claim s)))).
Proof.
  intros Hv Hd Hct Hcal [Hdt Ht] Hc Hb.
  pose proof (adc_code_range env s) as Hraw.
  assert (B0 := to_uint8_range (nth 0 rx 0)).
  assert (B1 := to_uint8_range (nth 1 rx 0)).
  assert (B2 := to_uint8_range (nth 2 rx 0)).
  pose proof (pressure_branch (adc_code env s) (delta_temp s) (temperature s)
                (temperature_unscaled d)
                (cal d 0) (cal d 1) (cal d 2) (cal d 3) Hraw Hdt Ht
                (cal_uint16 d 0 Hcal) (cal_uint16 d 1 Hcal)
                (cal_uint16 d 2 Hcal) (cal_uint16 d 3 Hcal)) as Hp.
  cbv zeta in Hp.
  unfold PIOS_MS5611_ReadADC.
  run (validate_run s). rewrite Hv. cbn [Z.eqb negb].
  unfold the_dev at 1. unfold bind at 1. rewrite Hd, Hct.
  unfold bind at 1. rewrite Read_run, Hc, Hb by exact Hv.
  unfold the_dev, set_statics, get_statics, set_dev, bind, ret; cbn; rewrite Hd; cbn.
  rewrite !received_3. unfold byte_at. cbn [nth].
  rewrite shl32_0 by exact B2. rewrite adc_word by assumption.
  rewrite <- (adc_code_eq s rx Hb).
  rewrite <- Hp.
  destruct (temperature s <? 2000); [destruct (temperature_unscaled d <? -1500)|];
    reflexivity.
Qed.

Lemma identity_dev_cfg s s' : identity s' = identity s -> dev_cfg s' = dev_cfg s.
Proof.
  unfold identity, dev_cfg. destruct (dev s'), (dev s); cbn; congruence.
Qed.

(** Whatever the bus does, a read keeps the machine ready and touches
    nothing but the readings. *)
Lemma ReadADC_frame s rc s' :
  ready s ->
  PIOS_MS5611_ReadADC env s = Done rc s' ->
  ready s' /\ identity s' = identity s /\
  conversion_in_flight s' = conversion_in_flight s /\
  busy_taken s' = busy_taken s /\
  (rc = 0 \/ rc = -1) /\
  (rc <> 0 -> readings s' = readings s) /\
  (conversion_in_flight s = Some PRESSURE_CONV -> temperature_part s' = temperature_part s).
Proof.
  intros (Hv & (d & Hd & Hcal) & Hst) Hrun.
  destruct (valid_inv s Hv) as (d0 & Hd0 & Hm & Hi).
  rewrite Hd in Hd0. injection Hd0 as <-.
  destruct (spi_claim env (spi_claims s)) eqn:Hc.
  2:{ rewrite ReadADC_refused in Hrun by assumption. injection Hrun as <- <-.
      unfold ready, valid, statics_bounded, identity, conversion_in_flight, readings,
        temperature_part in *. cbn. rewrite Hd. cbn. rewrite Hm, Hi.
      repeat split; eauto; try tauto. }
  destruct (spi_block env (spi_blocks s)) as [rx|] eqn:Hb.
  2:{ rewrite ReadADC_block_error in Hrun by assumption. injection Hrun as <- <-.
      unfold ready, valid, statics_bounded, identity, conversion_in_flight, readings,
        temperature_part in *. cbn. rewrite Hd. cbn. rewrite Hm, Hi.
      repeat split; eauto; try tauto. }
  destruct (current_conversion_type d) eqn:Hct.
  - rewrite (ReadADC_pressure_run s d rx) in Hrun by (assumption || (split; tauto)).
    injection Hrun as <- <-.
    unfold ready, valid, statics_bounded, identity, conversion_in_flight, readings,
      temperature_part in *. cbn. rewrite Hd. cbn. rewrite Hm, Hi, Hct.
    repeat split; eauto; try tauto; try congruence.
  - destruct (ReadADC_temperature_run s d rx Hv Hd Hct Hcal Hc Hb) as (Heq & Bdt & Bt).
    cbv zeta in Heq. rewrite Heq in Hrun. injection Hrun as <- <-.
    unfold ready, valid, statics_bounded, identity, conversion_in_flight, readings,
      temperature_part in *. cbn. rewrite Hd. cbn. rewrite Hm, Hi, Hct.
    repeat split; eauto; try tauto; try congruence.
Qed.

(** X7: whatever the bus does, [PIOS_MS5611_ReadADC] on a ready driver
    returns 0 or -1 and leaves the driver ready, with the same
    configuration, bus address, calibration and conversion in flight; when
    it does not return 0 the readings and the statics are the old ones,
    and reading a pressure conversion never changes the temperature. *)
Theorem ReadADC_keeps_ready s rc s' :
  ready s ->
  PIOS_MS5611_ReadADC env s = Done rc s' ->
  ready s' /\ identity s' = identity s /\
  conversion_in_flight s' = conversion_in_flight s /\
  (rc = 0 \/ rc = -1) /\
  (rc <> 0 -> readings s' = readings s) /\
  (conversion_in_flight s = Some PRESSURE_CONV -> temperature_part s' = temperature_part s).
Proof.
  intros Hr Hrun.
  destruct (ReadADC_frame s rc s' Hr Hrun) as (H1 & H2 & H3 & _ & H5 & H6 & H7).
  auto 10.
Qed.

(** *** Starting a conversion *)

Lemma while_WriteCommand_fails_inv fuel : forall s d base u s',
  valid s -> dev s = Some d ->
  while_WriteCommand_fails env fuel base s = Done u s' ->
  exists k, granted_after env s k /\ (k < fuel)%nat.
Proof.
  induction fuel as [|fuel IH]; intros s d base u s' Hv Hd Hrun; [discriminate|].
  cbn [while_WriteCommand_fails] in Hrun.
  unfold the_dev, bind in Hrun. rewrite Hd, WriteCommand_run in Hrun by exact Hv.
  destruct (spi_claim env (spi_claims s)) eqn:Hc.
  - exists 0%nat. split; [|lia]. split; [intros j Hj; lia | rewrite Nat.add_0_r; exact Hc].
  - cbn in Hrun. destruct (IH (next_claim s) d base u s' Hv Hd Hrun) as (k & [Hfail Hok] & Hk).
    exists (S k). split; [|lia]. split.
    + intros [|j] Hj; [rewrite Nat.add_0_r; exact Hc|].
      rewrite Nat.add_succ_r. apply Hfail. lia.
    + rewrite Nat.add_succ_r. exact Hok.
Qed.

(** Every return of [PIOS_MS5611_StartADC] on a valid handle is the one
    [StartADC_run] describes. *)
Lemma StartADC_inv s d fuel type rc s' :
  valid s -> dev s = Some d ->
  PIOS_MS5611_StartADC env fuel type s = Done rc s' ->
  exists k,
    granted_after env s k /\ rc = 0 /\
    s' = upd_dev (Some (with_current_conversion_type d type))
           (log (SpiTransferByte (conversion_command (oversampling (cfg d)) type))
                (Nat.iter (S k) next_claim s)).
Proof.
  intros Hv Hd Hrun.
  assert (Hk : exists k, granted_after env s k /\ (k < fuel)%nat).
  { unfold PIOS_MS5611_StartADC in Hrun.
    rewrite (bind_Done _ _ _ _ _ (validate_run s)) in Hrun. rewrite Hv in Hrun.
    cbn [Z.eqb negb] in Hrun.
    apply bind_inv in Hrun as (u & s1 & Hloop & _).
    destruct type; eapply while_WriteCommand_fails_inv; eassumption. }
  destruct Hk as (k & Hg & Hlt). exists k. split; [exact Hg|].
  rewrite (StartADC_run env s d type k fuel Hv Hd Hg Hlt) in Hrun.
  injection Hrun as <- <-. auto.
Qed.

Lemma iter_next_claim_statics k s :
  delta_temp (Nat.iter k next_claim s) = delta_temp s /\
  temperature (Nat.iter k next_claim s) = temperature s /\
  busy_taken (Nat.iter k next_claim s) = busy_taken s.
Proof. induction k; cbn; auto. Qed.

Lemma StartADC_frame s fuel type rc s' :
  ready s ->
  PIOS_MS5611_StartADC env fuel type s = Done rc s' ->
  ready s' /\ identity s' = identity s /\
  conversion_in_flight s' = Some type /\
  busy_taken s' = busy_taken s /\ readings s' = readings s /\
  temperature_part s' = temperature_part s.
Proof.
  intros (Hv & (d & Hd & Hcal) & Hst) Hrun.
  destruct (valid_inv s Hv) as (d0 & Hd0 & Hm & Hi).
  rewrite Hd in Hd0. injection Hd0 as <-.
  destruct (StartADC_inv s d fuel type rc s' Hv Hd Hrun) as (k & _ & _ & ->).
  destruct (iter_next_claim_statics (S k) s) as (Hdt & Ht & Hb).
  unfold ready, valid, statics_bounded, identity, conversion_in_flight, readings,
    temperature_part in *.
  cbn [dev upd_dev log delta_temp temperature busy_taken option_map
       with_current_conversion_type MS5611.cfg MS5611.spi_id MS5611.slave_num
       calibration MS5611.magic current_conversion_type temperature_unscaled
       pressure_unscaled PIOS_MS5611_Validate].
  rewrite Hdt, Ht, Hb, Hd, Hm, Hi. cbn.
  repeat split; eauto; tauto.
Qed.

Lemma GetDelay_inv s ms s' :
  PIOS_MS5611_GetDelay env s = Done ms s' -> s' = s.
Proof.
  unfold PIOS_MS5611_GetDelay, bind, validate, the_dev, ret.
  destruct (negb _); [intros [= _ <-]; reflexivity|].
  destruct (dev s); [|discriminate]. cbv zeta.
  repeat match goal with
         | |- context [if ?b then _ else _] => destruct b
         end; intros [= _ <-]; reflexivity.
Qed.

Lemma ready_upd_busy b s : ready s -> ready (upd_busy b s).
Proof. intros H. exact H. Qed.

Lemma ready_log e s : ready s -> ready (log e s).
Proof. intros H. exact H. Qed.

(** *** The conversion cycle of the self-test and of the task *)

(** Claim, start, wait, read, release: whatever the bus does, a cycle that
    returns leaves the machine ready, the lock free and the handle's
    identity as it was. *)
Lemma cycle_frame {B} fuel type (delay : Z -> M unit) (k : Z -> M B) s b s'' :
  ready s ->
  (forall ms s0, exists e, delay ms s0 = Done tt (log e s0)) ->
  bind PIOS_MS5611_ClaimDevice (fun _ =>
  bind (PIOS_MS5611_StartADC env fuel type) (fun _ =>
  bind (PIOS_MS5611_GetDelay env) (fun ms =>
  bind (delay ms) (fun _ =>
  bind (PIOS_MS5611_ReadADC env) (fun rc =>
  bind PIOS_MS5611_ReleaseDevice (fun _ => k rc)))))) s = Done b s'' ->
  exists rc s1 s',
    ready s1 /\ conversion_in_flight s1 = Some type /\
    readings s1 = readings s /\
    PIOS_MS5611_ReadADC env s1 = Done rc s' /\
    ready s' /\ identity s' = identity s /\
    (type = PRESSURE_CONV -> temperature_part s' = temperature_part s) /\
    (rc <> 0 -> readings s' = readings s) /\
    k rc (upd_busy false s') = Done b s''.
Proof.
  intros Hr Hdelay Hrun.
  rewrite (bind_Done _ _ _ _ _ (ClaimDevice_run s (proj1 Hr))) in Hrun.
  apply bind_inv in Hrun as (r2 & s2 & H2 & Hrun).
  destruct (StartADC_frame (upd_busy true s) fuel type r2 s2 Hr H2)
    as (Hr2 & I2 & F2 & _ & R2 & T2).
  apply bind_inv in Hrun as (ms & s3 & H3 & Hrun).
  apply GetDelay_inv in H3. subst s3.
  destruct (Hdelay ms s2) as (e & He).
  rewrite (bind_Done _ _ _ _ _ He) in Hrun.
  apply bind_inv in Hrun as (rc & s5 & H5 & Hrun).
  destruct (ReadADC_frame (log e s2) rc s5 Hr2 H5) as (Hr5 & I5 & F5 & _ & _ & R5 & T5).
  rewrite (bind_Done _ _ _ _ _ (ReleaseDevice_run s5 (proj1 Hr5))) in Hrun.
  exists rc, (log e s2), s5.
  split; [exact Hr2|]. split; [exact F2|]. split; [exact R2|].
  split; [exact H5|]. split; [exact Hr5|].
  split; [rewrite I5; exact I2|].
  split; [intros ->; rewrite T5 by exact F2; exact T2|].
  split; [intros Hrc; rewrite (R5 Hrc); exact R2|].
  exact Hrun.
Qed.

Lemma Sleep_logs ms s0 : exists e, PIOS_Thread_Sleep ms s0 = Done tt (log e s0).
Proof. eexists. reflexivity. Qed.

Lemma WaitmS_logs ms s0 : exists e, PIOS_DELAY_WaitmS ms s0 = Done tt (log e s0).
Proof. eexists. reflexivity. Qed.

Lemma ready_dev s : ready s -> exists d, dev s = Some d.
Proof. intros (_ & (d & Hd & _) & _). eauto. Qed.

(** One pass of the task loop. *)
Lemma Task_iteration_frame fuel count s count' s' :
  ready s ->
  Task_iteration env fuel count s = Done count' s' ->
  ready s' /\ identity s' = identity s /\ busy_taken s' = false /\
  (to_uint32 (count - 1) <> 0 -> temperature_part s' = temperature_part s).
Proof.
  intros Hr Hrun. unfold Task_iteration in Hrun. cbv zeta in Hrun.
  apply bind_inv in Hrun as (c1 & s1 & H1 & Hrun).
  assert (Hmid : ready s1 /\ identity s1 = identity s /\
                 (to_uint32 (count - 1) <> 0 -> temperature_part s1 = temperature_part s)).
  { destruct (to_uint32 (count - 1) =? 0) eqn:Hdue.
    - apply (cycle_frame fuel TEMPERATURE_CONV PIOS_Thread_Sleep _ s c1 s1 Hr Sleep_logs) in H1.
      destruct H1 as (rc & sa & sb & _ & _ & _ & _ & Hrb & Ib & _ & _ & Hk).
      destruct (ready_dev _ Hrb) as (d & Hd).
      unfold the_dev, bind in Hk. cbn [dev upd_busy] in Hk. rewrite Hd in Hk.
      apply Z.eqb_eq in Hdue.
      destruct (_ =? 0) in Hk; injection Hk as _ <-; (split; [exact Hrb|]);
        (split; [exact Ib|]); intros; contradiction.
    - injection H1 as _ <-. auto. }
  destruct Hmid as (Hr1 & I1 & T1).
  apply (cycle_frame fuel PRESSURE_CONV PIOS_Thread_Sleep _ s1 count' s' Hr1 Sleep_logs)
    in Hrun.
  destruct Hrun as (rc & sa & sb & _ & _ & _ & _ & Hrb & Ib & Tb & _ & Hk).
  destruct (ready_dev _ Hrb) as (d & Hd).
  unfold the_dev, bind in Hk. cbn [dev upd_busy] in Hk. rewrite Hd in Hk.
  destruct (rc =? 0); cbn in Hk; injection Hk as _ <-.
  - split; [exact Hrb|]. split; [rewrite <- I1; exact Ib|]. split; [reflexivity|].
    intros Hne. change (temperature_part sb = temperature_part s).
    rewrite Tb by reflexivity. auto.
  - split; [exact Hrb|]. split; [rewrite <- I1; exact Ib|]. split; [reflexivity|].
    intros Hne. change (temperature_part sb = temperature_part s).
    rewrite Tb by reflexivity. auto.
Qed.

Lemma Task_loop_frame n : forall fuel count s count' s',
  ready s ->
  Task_loop env n fuel count s = Done count' s' ->
  ready s' /\ identity s' = identity s /\ ((0 < n)%nat -> busy_taken s' = false).
Proof.
  induction n as [|n IH]; intros fuel count s count' s' Hr Hrun.
  - injection Hrun as _ <-. split; [exact Hr|]. split; [reflexivity | lia].
  - cbn [Task_loop] in Hrun. apply bind_inv in Hrun as (c1 & s1 & H1 & Hrun).
    destruct (Task_iteration_frame fuel count s c1 s1 Hr H1) as (Hr1 & I1 & B1 & _).
    destruct (IH fuel c1 s1 count' s' Hr1 Hrun) as (Hr' & I' & B').
    split; [exact Hr'|]. split; [rewrite I'; exact I1|]. intros _.
    destruct n as [|n]; [|apply B'; lia].
    injection Hrun as _ <-. exact B1.
Qed.

Lemma ready_dev_cfg s : ready s -> exists c, dev_cfg s = Some c.
Proof.
  intros (d & Hd)%ready_dev. exists (cfg d). unfold dev_cfg. rewrite Hd. reflexivity.
Qed.

(** X8: any number of passes of the task loop on a ready driver run to
    their end once the bus is eventually granted, and leave the driver
    ready, its configuration and calibration untouched and the device lock
    released. *)
Theorem Task_keeps_ready s n :
  ready s -> eventually_granted env ->
  exists fuel0 count' s',
    (forall fuel, (fuel0 <= fuel)%nat ->
       PIOS_MS5611_Task env n fuel s = Done count' s') /\
    ready s' /\ identity s' = identity s /\
    ((0 < n)%nat -> busy_taken s' = false).
Proof.
  intros Hr Hg. destruct (ready_dev_cfg s Hr) as (c & Hc).
  destruct (Task_loop_ok env n s c 1 (proj1 Hr) Hc Hg) as (f & count' & s' & evs & H & _).
  exists f, count', s'. split; [exact H|].
  exact (Task_loop_frame n f 1 s count' s' Hr (H f (Nat.le_refl f))).
Qed.

(** X9: a pass of the task loop that is not due for a temperature
    conversion decrements the counter and leaves the temperature reading
    and both statics as they were: the pressure of that pass is compensated
    with the temperature of an earlier pass. *)
Theorem pressure_pass_keeps_temperature s count :
  ready s -> eventually_granted env ->
  to_uint32 (count - 1) <> 0 ->
  exists fuel0 s',
    (forall fuel, (fuel0 <= fuel)%nat ->
       Task_iteration env fuel count s = Done (to_uint32 (count - 1)) s') /\
    temperature_part s' = temperature_part s /\
    identity s' = identity s /\ ready s' /\ busy_taken s' = false.
Proof.
  intros Hr Hg Hne. destruct (ready_dev_cfg s Hr) as (c & Hc).
  destruct (Task_iteration_ok env s c count (proj1 Hr) Hc Hg)
    as (f & s1 & evs1 & rc & s2 & evs2 & d2 & s' & H & _).
  unfold next_count in H. apply Z.eqb_neq in Hne. rewrite Hne in H.
  apply Z.eqb_neq in Hne.
  exists f, s'. split; [exact H|].
  destruct (Task_iteration_frame f count s _ s' Hr (H f (Nat.le_refl f)))
    as (Hr' & I' & B' & T').
  auto.
Qed.

(** *** Counting conversions *)

Lemma effective_interleaving_range c : 1 <= effective_interleaving c < 2 ^ 32.
Proof.
  unfold effective_interleaving.
  destruct (to_uint32 (temperature_interleaving c) =? 0) eqn:E; [lia|].
  apply Z.eqb_neq in E.
  assert (0 <= to_uint32 (temperature_interleaving c) < 2 ^ 32)
    by (unfold to_uint32; apply Z.mod_pos_bound; lia).
  lia.
Qed.

Lemma schedule_pressure n c : forall count,
  pressure_conversions (schedule n c count) = n.
Proof.
  induction n as [|n IH]; intros count; [reflexivity|].
  cbn [schedule]. unfold pressure_conversions in *.
  rewrite List.filter_app, length_app, IH.
  destruct (to_uint32 (count - 1) =? 0); reflexivity.
Qed.

Lemma schedule_temperature n c : forall count,
  1 <= count <= effective_interleaving c ->
  Z.of_nat (temperature_conversions (schedule n c count)) =
  (Z.of_nat n + effective_interleaving c - count) / effective_interleaving c.
Proof.
  pose proof (effective_interleaving_range c) as HK.
  induction n as [|n IH]; intros count Hcount.
  - cbn. symmetry. apply Z.div_small. lia.
  - cbn [schedule]. unfold temperature_conversions in *.
    rewrite List.filter_app, length_app, Nat2Z.inj_add.
    assert (Hdec : to_uint32 (count - 1) = count - 1)
      by (apply to_uint32_small; lia).
    unfold next_count. rewrite Hdec.
    destruct (count - 1 =? 0) eqn:E.
    + apply Z.eqb_eq in E. fold (effective_interleaving c).
      rewrite IH by lia. cbn [List.filter is_temperature length].
      replace (Z.of_nat (S n) + effective_interleaving c - count)
        with (Z.of_nat n + 1 * effective_interleaving c) by lia.
      rewrite Z.div_add by lia.
      replace (Z.of_nat n + effective_interleaving c - effective_interleaving c)
        with (Z.of_nat n) by lia.
      apply Z.add_comm.
    + apply Z.eqb_neq in E. rewrite IH by lia. cbn [List.filter is_temperature length].
      change (Z.of_nat 0) with 0. rewrite Z.add_0_l. f_equal. lia.
Qed.

(** X10: [n] passes of the task loop start [n] pressure conversions and
    the ceiling of [n / k] temperature conversions, where [k] is the
    configured interleave, or 1 when it is configured as 0. *)
Theorem Task_conversion_counts s c n :
  valid s -> dev_cfg s = Some c -> 0 <= oversampling c <= 8 ->
  eventually_granted env ->
  exists fuel0 count' s',
    (forall fuel, (fuel0 <= fuel)%nat ->
       PIOS_MS5611_Task env n fuel s = Done count' s') /\
    let started := conversions_started (oversampling c) (emitted_since s s') in
    pressure_conversions started = n /\
    Z.of_nat (temperature_conversions started) =
      (Z.of_nat n + effective_interleaving c - 1) / effective_interleaving c.
Proof.
  intros Hv Hc Hosr Hg.
  destruct (Task_conversions env n s c Hv Hc Hosr Hg) as (f & count' & s' & H & E).
  exists f, count', s'. split; [exact H|]. cbv zeta. rewrite E.
  split; [apply schedule_pressure|].
  apply schedule_temperature. pose proof (effective_interleaving_range c). lia.
Qed.

(** *** Samples handed to the queue *)

Lemma valid_dev_cfg s : valid s -> exists c, dev_cfg s = Some c.
Proof.
  intros (d & Hd & _)%valid_inv. exists (cfg d). unfold dev_cfg. rewrite Hd. reflexivity.
Qed.

Lemma Task_iteration_queue s c count :
  valid s -> dev_cfg s = Some c -> eventually_granted env ->
  exists fuel0 s' evs,
    (forall fuel, (fuel0 <= fuel)%nat ->
       Task_iteration env fuel count s = Done (next_count c count) s') /\
    steps_to s s' evs /\
    (length (queue_sends evs) <= 1)%nat /\
    Forall (fun e => exists t p, e = QueueSend t p 0) (queue_sends evs) /\
    ((forall i, spi_claim env i = true) -> (forall i, spi_block env i <> None) ->
     length (queue_sends evs) = 1%nat).
Proof.
  intros Hv Hc Hg.
  destruct (Task_iteration_ok env s c count Hv Hc Hg)
    as (f & s1 & evs1 & rc & s2 & evs2 & d2 & s' & H & S1 & Hevs1 & _ & _ & S2 & R2 & Hrc
        & _ & _ & S3).
  exists f, s'. eexists. split; [exact H|].
  split; [exact (steps_to_trans _ _ _ _ _ S1 (steps_to_trans _ _ _ _ _ S2 S3))|].
  assert (Q1 : queue_sends evs1 = []).
  { destruct (to_uint32 (count - 1) =? 0).
    - destruct Hevs1 as (msT & evsT & msP & RT & ->).
      change (queue_sends (?a :: ?b :: ?l)) with (queue_sends l).
      rewrite queue_sends_app, (queue_sends_read _ RT). reflexivity.
    - destruct Hevs1 as (msP & ->). reflexivity. }
  rewrite !queue_sends_app, Q1, (queue_sends_read _ R2). cbn [app].
  destruct (rc =? 0) eqn:E.
  - cbn. split; [lia|]. split; [|reflexivity]. repeat constructor. eauto.
  - cbn. split; [lia|]. split; [constructor|]. intros Hclaim Hblock.
    apply Z.eqb_neq in E. exfalso. apply E, Hrc. auto.
Qed.

Lemma Task_loop_queue n : forall s c count,
  valid s -> dev_cfg s = Some c -> eventually_granted env ->
  exists fuel0 count' s' evs,
    (forall fuel, (fuel0 <= fuel)%nat ->
       Task_loop env n fuel count s = Done count' s') /\
    steps_to s s' evs /\
    (length (queue_sends evs) <= n)%nat /\
    Forall (fun e => exists t p, e = QueueSend t p 0) (queue_sends evs) /\
    ((forall i, spi_claim env i = true) -> (forall i, spi_block env i <> None) ->
     length (queue_sends evs) = n).
Proof.
  induction n as [|n IH]; intros s c count Hv Hc Hg.
  - exists 0%nat, count, s, []. split; [reflexivity|].
    split; [apply steps_to_refl; exact Hv|]. cbn. auto.
  - destruct (Task_iteration_queue s c count Hv Hc Hg)
      as (f1 & s1 & evs1 & H1 & S1 & L1 & F1 & G1).
    destruct (IH s1 c (next_count c count))
      as (f2 & count' & s' & evs2 & H2 & S2 & L2 & F2 & G2);
      [apply S1 | destruct S1 as (_ & -> & _); exact Hc | exact Hg |].
    exists (Nat.max f1 f2), count', s', (evs1 ++ evs2).
    split; [|split; [exact (steps_to_trans _ _ _ _ _ S1 S2)|]].
    + intros fuel Hfuel. cbn [Task_loop].
      rewrite (bind_Done _ _ _ _ _ (H1 fuel ltac:(lia))). apply H2. lia.
    + rewrite queue_sends_app, length_app. split; [lia|].
      split; [apply Forall_app; auto|].
      intros Hclaim Hblock. rewrite G1, G2 by assumption. reflexivity.
Qed.

(** X11: [n] passes of the task loop hand at most [n] samples to the
    queue, each with timeout 0, and exactly [n] when every bus claim is
    granted and every transfer succeeds. *)
Theorem Task_queues_one_sample_per_good_pass s n :
  valid s -> eventually_granted env ->
  exists fuel0 count' s',
    (forall fuel, (fuel0 <= fuel)%nat ->
       PIOS_MS5611_Task env n fuel s = Done count' s') /\
    let sent := queue_sends (emitted_since s s') in
    (length sent <= n)%nat /\
    Forall (fun e => exists t p, e = QueueSend t p 0) sent /\
    ((forall i, spi_claim env i = true) -> (forall i, spi_block env i <> None) ->
     length sent = n).
Proof.
  intros Hv Hg. destruct (valid_dev_cfg s Hv) as (c & Hc).
  destruct (Task_loop_queue n s c 1 Hv Hc Hg) as (f & count' & s' & evs & H & S & Q).
  exists f, count', s'. split; [exact H|]. cbv zeta.
  rewrite (emitted_since_steps _ _ _ S). exact Q.
Qed.

(** *** The self-test *)

Lemma SPI_Test_frame fuel s rc s' :
  ready s ->
  PIOS_MS5611_SPI_Test env fuel s = Done rc s' ->
  exists rcT sT rcP sP s2 s4,
    ready sT /\ PIOS_MS5611_ReadADC env sT = Done rcT s2 /\
    ready sP /\ PIOS_MS5611_ReadADC env sP = Done rcP s4 /\
    (rcT <> 0 -> rcP <> 0 -> readings s' = readings s) /\
    ready s' /\ identity s' = identity s /\ busy_taken s' = false /\
    exists d', dev s' = Some d' /\
      (rc = 0 <-> in_datasheet_range d') /\ (rc = -1 <-> ~ in_datasheet_range d').
Proof.
  intros Hr Hrun. unfold PIOS_MS5611_SPI_Test in Hrun.
  rewrite (bind_Done _ _ _ _ _ (validate_run s)) in Hrun.
  rewrite (proj1 Hr) in Hrun. cbn [Z.eqb negb] in Hrun.
  apply (cycle_frame fuel TEMPERATURE_CONV PIOS_DELAY_WaitmS _ s rc s' Hr WaitmS_logs) in Hrun.
  destruct Hrun as (rcT & sT & s2 & HrT & _ & RT & HT & Hr2 & I2 & _ & R2 & Hrun).
  apply (cycle_frame fuel PRESSURE_CONV PIOS_DELAY_WaitmS _ (upd_busy false s2) rc s'
           Hr2 WaitmS_logs) in Hrun.
  destruct Hrun as (rcP & sP & s4 & HrP & _ & RP & HP & Hr4 & I4 & _ & R4 & Hrun).
  destruct (ready_dev _ Hr4) as (d & Hd).
  unfold the_dev, bind in Hrun. cbn [dev upd_busy] in Hrun. rewrite Hd in Hrun.
  pose proof (range_check_verdict d) as Hverdict. cbv zeta in Hverdict.
  assert (Hs' : s' = upd_busy false s4).
  { destruct (_ || _) in Hrun; injection Hrun as _ <-; reflexivity. }
  subst s'. exists rcT, sT, rcP, sP, s2, s4.
  split; [exact HrT|]. split; [exact HT|]. split; [exact HrP|].
  split; [exact HP|].
  split; [intros HnT HnP; change (readings s4 = readings s);
          rewrite (R4 HnP); exact (R2 HnT)|].
  split; [exact Hr4|]. split; [rewrite <- I2; exact I4|]. split; [reflexivity|].
  exists d. split; [exact Hd|].
  destruct (_ || _) in Hrun, Hverdict; injection Hrun as <-.
  - split; [split; [discriminate | intros Hin; apply Hverdict in Hin; discriminate]|].
    split; [intros _ Hin; apply Hverdict in Hin; discriminate | reflexivity].
  - split; [split; [intros _; apply Hverdict; reflexivity | reflexivity]|].
    split; [discriminate | intros Hn; exfalso; apply Hn, Hverdict; reflexivity].
Qed.

(** A cycle runs to its end once the bus is granted. *)
Lemma cycle_ok type (delay : Z -> M unit) s :
  valid s -> eventually_granted env ->
  (forall ms s0, exists e, delay ms s0 = Done tt (log e s0)) ->
  exists fuel0 rc s',
    valid s' /\
    forall fuel B (k : Z -> M B), (fuel0 <= fuel)%nat ->
      bind PIOS_MS5611_ClaimDevice (fun _ =>
      bind (PIOS_MS5611_StartADC env fuel type) (fun _ =>
      bind (PIOS_MS5611_GetDelay env) (fun ms =>
      bind (delay ms) (fun _ =>
      bind (PIOS_MS5611_ReadADC env) (fun rc =>
      bind PIOS_MS5611_ReleaseDevice (fun _ => k rc)))))) s = k rc s'.
Proof.
  intros Hv Hg Hdelay. destruct (valid_dev_cfg s Hv) as (c & Hc).
  pose proof (ClaimDevice_run s Hv) as H1.
  pose proof (steps_to_upd_busy true s Hv) as S1.
  destruct (StartADC_ok env (upd_busy true s) c type) as (f & s2 & H2 & S2 & _);
    [apply S1 | exact Hc | exact Hg |].
  destruct (GetDelay_ok env s2 (proj1 S2)) as (ms & H3).
  destruct (Hdelay ms s2) as (e & H4).
  pose proof (steps_to_log e s2 (proj1 S2)) as S4.
  destruct (ReadADC_ok env (log e s2) (proj1 S4)) as (rc & s5 & evs & H5 & S5 & _).
  pose proof (ReleaseDevice_run s5 (proj1 S5)) as H6.
  exists f, rc, (upd_busy false s5). split; [exact (proj1 S5)|].
  intros fuel B k Hfuel.
  rewrite (bind_Done _ _ _ _ _ H1), (bind_Done _ _ _ _ _ (H2 fuel Hfuel)),
    (bind_Done _ _ _ _ _ H3), (bind_Done _ _ _ _ _ H4), (bind_Done _ _ _ _ _ H5),
    (bind_Done _ _ _ _ _ H6).
  reflexivity.
Qed.

Lemma SPI_Test_ok s :
  valid s -> eventually_granted env ->
  exists fuel0 rc s',
    forall fuel, (fuel0 <= fuel)%nat -> PIOS_MS5611_SPI_Test env fuel s = Done rc s'.
Proof.
  intros Hv Hg.
  destruct (cycle_ok TEMPERATURE_CONV PIOS_DELAY_WaitmS s Hv Hg WaitmS_logs)
    as (f1 & rc1 & s1 & Hv1 & H1).
  destruct (cycle_ok PRESSURE_CONV PIOS_DELAY_WaitmS s1 Hv1 Hg WaitmS_logs)
    as (f2 & rc2 & s2 & Hv2 & H2).
  destruct (valid_inv s2 Hv2) as (d & Hd & _).
  exists (Nat.max f1 f2). eexists _, s2. intros fuel Hfuel.
  unfold PIOS_MS5611_SPI_Test.
  rewrite (bind_Done _ _ _ _ _ (validate_run s)). rewrite Hv. cbn [Z.eqb negb].
  rewrite H1 by lia. rewrite H2 by lia.
  unfold the_dev, bind. rewrite Hd.
  instantiate (1 := if (temperature_unscaled d <? -4000) || (temperature_unscaled d >? 8500)
                       || (pressure_unscaled d <? 1000) || (pressure_unscaled d >? 120000)
                    then -1 else 0).
  destruct (_ || _); reflexivity.
Qed.

(** X12: the self-test on a ready driver runs to its end once the bus is
    eventually granted, returns 0 or -1, and leaves the driver ready, its
    configuration and calibration untouched and the device lock
    released. *)
Theorem SPI_Test_keeps_ready s :
  ready s -> eventually_granted env ->
  exists fuel0 rc s',
    (forall fuel, (fuel0 <= fuel)%nat -> PIOS_MS5611_SPI_Test env fuel s = Done rc s') /\
    (rc = 0 \/ rc = -1) /\
    ready s' /\ identity s' = identity s /\ busy_taken s' = false.
Proof.
  intros Hr Hg. destruct (SPI_Test_ok s (proj1 Hr) Hg) as (f & rc & s' & H).
  exists f, rc, s'. split; [exact H|].
  destruct (SPI_Test_frame f s rc s' Hr (H f (Nat.le_refl f)))
    as (rcT & sT & rcP & sP & s2 & s4 & _ & _ & _ & _ & _ & Hr' & I' & B' & d' & _ & H0 & H1).
  split; [|auto].
  destruct (Z.eq_dec rc 0) as [E|E]; [auto|]. right. apply H1. intros Hin. apply E, H0, Hin.
Qed.

(** X13: the self-test does not look at the status of its two reads.  With
    a sensor that answers no transfer the readings stay what they were, and
    the self-test returns 0 exactly when those old readings lie in the
    accepted range. *)
Theorem SPI_Test_judges_stale_readings s d :
  ready s -> dev s = Some d -> eventually_granted env ->
  (forall i, spi_block env i = None) ->
  exists fuel0 rc s',
    (forall fuel, (fuel0 <= fuel)%nat -> PIOS_MS5611_SPI_Test env fuel s = Done rc s') /\
    readings s' = readings s /\
    (rc = 0 <-> in_datasheet_range d).
Proof.
  intros Hr Hd Hg Hmute. destruct (SPI_Test_ok s (proj1 Hr) Hg) as (f & rc & s' & H).
  exists f, rc, s'. split; [exact H|].
  destruct (SPI_Test_frame f s rc s' Hr (H f (Nat.le_refl f)))
    as (rcT & sT & rcP & sP & s2 & s4 & HrT & HT & HrP & HP & Hsame & _ & _ & _
        & d' & Hd' & H0 & _).
  assert (Hfail : forall s0 rc0 s0', ready s0 ->
            PIOS_MS5611_ReadADC env s0 = Done rc0 s0' -> rc0 <> 0).
  { intros s0 rc0 s0' Hr0 Hrun0.
    destruct (ReadADC_ok env s0 (proj1 Hr0)) as (rc1 & s1 & evs & Hrun1 & _ & _ & _ & _ & _ & Hiff).
    rewrite Hrun1 in Hrun0. injection Hrun0 as <- <-.
    intros E. apply Hiff in E. destruct E as [_ E]. apply E, Hmute. }
  pose proof (Hsame (Hfail _ _ _ HrT HT) (Hfail _ _ _ HrP HP)) as Hread.
  split; [exact Hread|].
  unfold readings in Hread. rewrite Hd, Hd' in Hread. cbn in Hread.
  injection Hread as HT' HP'.
  rewrite H0. unfold in_datasheet_range. rewrite HT', HP'. reflexivity.
Qed.

(** A temperature cycle on a granted bus that answers. *)
Lemma temperature_cycle_good fuel (delay : Z -> M unit) s d rx :
  valid s -> dev s = Some d -> calibrated d ->
  (0 < fuel)%nat ->
  spi_claim env (spi_claims s) = true ->
  spi_claim env (S (spi_claims s)) = true ->
  spi_block env (spi_blocks s) = Some rx ->
  (forall ms s0, exists e, delay ms s0 = Done tt (log e s0)) ->
  let dt := Reference.delta_temp (adc_code env s) (cal d 4) in
  let t := Reference.temperature dt (cal d 5) in
  exists s' d',
    (forall B (k : Z -> M B),
      bind PIOS_MS5611_ClaimDevice (fun _ =>
      bind (PIOS_MS5611_StartADC env fuel TEMPERATURE_CONV) (fun _ =>
      bind (PIOS_MS5611_GetDelay env) (fun ms =>
      bind (delay ms) (fun _ =>
      bind (PIOS_MS5611_ReadADC env) (fun rc =>
      bind PIOS_MS5611_ReleaseDevice (fun _ => k rc)))))) s = k 0 s') /\
    valid s' /\ dev s' = Some d' /\ calibration d' = calibration d /\
    statics_bounded s' /\
    delta_temp s' = dt /\ temperature s' = t /\
    temperature_unscaled d' = Reference.temperature_unscaled dt t /\
    pressure_unscaled d' = pressure_unscaled d /\
    busy_taken s' = false /\
    spi_claims s' = S (S (spi_claims s)) /\ spi_blocks s' = S (spi_blocks s).
Proof.
  intros Hv Hd Hcal Hfuel Hc0 Hc1 Hb Hdelay dt t.
  destruct (valid_inv s Hv) as (d0 & Hd0 & Hm & Hi).
  rewrite Hd in Hd0. injection Hd0 as <-.
  pose proof (ClaimDevice_run s Hv) as H1.
  assert (H2 := StartADC_run env (upd_busy true s) d TEMPERATURE_CONV 0 fuel Hv Hd).
  specialize (H2 ltac:(split; [intros j Hj; lia | cbn; rewrite Nat.add_0_r; exact Hc0]) Hfuel).
  match type of H2 with _ = Done 0 ?st => set (s2 := st) in * end.
  assert (Hv2 : valid s2) by (unfold valid, s2; cbn; rewrite Hm, Hi; reflexivity).
  destruct (GetDelay_ok env s2 Hv2) as (ms & H3).
  destruct (Hdelay ms s2) as (e & H4).
  destruct (ReadADC_temperature_run (log e s2) (with_current_conversion_type d TEMPERATURE_CONV) rx)
    as (H5 & Bdt & Bt); try reflexivity; try assumption.
  cbv zeta in H5.
  change (adc_code env (log e s2)) with (adc_code env s) in H5, Bdt, Bt.
  change (cal (with_current_conversion_type d TEMPERATURE_CONV)) with (cal d) in H5, Bdt, Bt.
  fold dt in H5, Bdt, Bt. fold t in H5, Bt.
  match type of H5 with _ = Done 0 ?st => set (s5 := st) in * end.
  assert (Hv5 : valid s5) by (unfold valid, s5; cbn; rewrite Hm, Hi; reflexivity).
  pose proof (ReleaseDevice_run s5 Hv5) as H6.
  eexists (upd_busy false s5), _. split.
  { intros B k.
    rewrite (bind_Done _ _ _ _ _ H1), (bind_Done _ _ _ _ _ H2),
      (bind_Done _ _ _ _ _ H3), (bind_Done _ _ _ _ _ H4), (bind_Done _ _ _ _ _ H5),
      (bind_Done _ _ _ _ _ H6). reflexivity. }
  split; [exact Hv5|]. split; [reflexivity|]. split; [reflexivity|].
  split; [split; [exact Bdt | exact Bt]|].
  repeat split.
Qed.

(** A pressure cycle on a granted bus that answers. *)
Lemma pressure_cycle_good fuel (delay : Z -> M unit) s d rx :
  valid s -> dev s = Some d -> calibrated d -> statics_bounded s ->
  (0 < fuel)%nat ->
  spi_claim env (spi_claims s) = true ->
  spi_claim env (S (spi_claims s)) = true ->
  spi_block env (spi_blocks s) = Some rx ->
  (forall ms s0, exists e, delay ms s0 = Done tt (log e s0)) ->
  exists s' d',
    (forall B (k : Z -> M B),
      bind PIOS_MS5611_ClaimDevice (fun _ =>
      bind (PIOS_MS5611_StartADC env fuel PRESSURE_CONV) (fun _ =>
      bind (PIOS_MS5611_GetDelay env) (fun ms =>
      bind (delay ms) (fun _ =>
      bind (PIOS_MS5611_ReadADC env) (fun rc =>
      bind PIOS_MS5611_ReleaseDevice (fun _ => k rc)))))) s = k 0 s') /\
    valid s' /\ dev s' = Some d' /\ calibration d' = calibration d /\
    delta_temp s' = delta_temp s /\ temperature s' = temperature s /\
    temperature_unscaled d' = temperature_unscaled d /\
    pressure_unscaled d' =
      Reference.pressure_unscaled (adc_code env s) (delta_temp s) (temperature s)
        (temperature_unscaled d) (cal d 0) (cal d 1) (cal d 2) (cal d 3) /\
    busy_taken s' = false /\
    spi_claims s' = S (S (spi_claims s)) /\ spi_blocks s' = S (spi_blocks s).
Proof.
  intros Hv Hd Hcal Hst Hfuel Hc0 Hc1 Hb Hdelay.
  destruct (valid_inv s Hv) as (d0 & Hd0 & Hm & Hi).
  rewrite Hd in Hd0. injection Hd0 as <-.
  pose proof (ClaimDevice_run s Hv) as H1.
  assert (H2 := StartADC_run env (upd_busy true s) d PRESSURE_CONV 0 fuel Hv Hd).
  specialize (H2 ltac:(split; [intros j Hj; lia | cbn; rewrite Nat.add_0_r; exact Hc0]) Hfuel).
  match type of H2 with _ = Done 0 ?st => set (s2 := st) in * end.
  assert (Hv2 : valid s2) by (unfold valid, s2; cbn; rewrite Hm, Hi; reflexivity).
  destruct (GetDelay_ok env s2 Hv2) as (ms & H3).
  destruct (Hdelay ms s2) as (e & H4).
  pose proof (ReadADC_pressure_run (log e s2) (with_current_conversion_type d PRESSURE_CONV) rx)
    as H5.
  specialize (H5 Hv2 eq_refl eq_refl Hcal Hst Hc1 Hb).
  change (adc_code env (log e s2)) with (adc_code env s) in H5.
  change (cal (with_current_conversion_type d PRESSURE_CONV)) with (cal d) in H5.
  match type of H5 with _ = Done 0 ?st => set (s5 := st) in * end.
  assert (Hv5 : valid s5) by (unfold valid, s5; cbn; rewrite Hm, Hi; reflexivity).
  pose proof (ReleaseDevice_run s5 Hv5) as H6.
  eexists (upd_busy false s5), _. split.
  { intros B k.
    rewrite (bind_Done _ _ _ _ _ H1), (bind_Done _ _ _ _ _ H2),
      (bind_Done _ _ _ _ _ H3), (bind_Done _ _ _ _ _ H4), (bind_Done _ _ _ _ _ H5),
      (bind_Done _ _ _ _ _ H6). reflexivity. }
  split; [exact Hv5|]. split; [reflexivity|]. repeat split.
Qed.

(** X14: the self-test on a bus that grants its four claims and answers
    both reads measures end to end: the temperature and the pressure it
    leaves in the device are the reference formulas applied to the two ADC
    codes and the calibration words, whatever the statics held before; it
    returns 0 when both lie in the accepted range and -1 otherwise, uses
    four claims and two transfers, and releases the lock. *)
Theorem SPI_Test_measures s d rxT rxP fuel :
  valid s -> dev s = Some d -> calibrated d -> (0 < fuel)%nat ->
  (forall j, (j < 4)%nat -> spi_claim env (spi_claims s + j) = true) ->
  spi_block env (spi_blocks s) = Some rxT ->
  spi_block env (S (spi_blocks s)) = Some rxP ->
  let dt := Reference.delta_temp (adc_code env s) (cal d 4) in
  let t := Reference.temperature dt (cal d 5) in
  let T := Reference.temperature_unscaled dt t in
  let P := Reference.pressure_unscaled (adc_code env (next_block s)) dt t T
             (cal d 0) (cal d 1) (cal d 2) (cal d 3) in
  exists rc s' d',
    PIOS_MS5611_SPI_Test env fuel s = Done rc s' /\
    dev s' = Some d' /\
    temperature_unscaled d' = T /\ pressure_unscaled d' = P /\
    delta_temp s' = dt /\ temperature s' = t /\
    (rc = 0 <-> -4000 <= T <= 8500 /\ 1000 <= P <= 120000) /\
    (rc = -1 <-> ~ (-4000 <= T <= 8500 /\ 1000 <= P <= 120000)) /\
    busy_taken s' = false /\
    spi_claims s' = (spi_claims s + 4)%nat /\ spi_blocks s' = (spi_blocks s + 2)%nat.
Proof.
  intros Hv Hd Hcal Hfuel Hclaim HbT HbP dt t T P.
  destruct (temperature_cycle_good fuel PIOS_DELAY_WaitmS s d rxT)
    as (s1 & d1 & H1 & Hv1 & Hd1 & Hcal1 & Hst1 & Edt & Et & ET & EP & _ & Ec1 & Eb1);
    try assumption.
  { rewrite <- (Nat.add_0_r (spi_claims s)). apply Hclaim. lia. }
  { rewrite <- Nat.add_1_r. apply Hclaim. lia. }
  { apply WaitmS_logs. }
  cbv zeta in Edt, Et, ET. fold dt in Edt, Et, ET. fold t in Et, ET. fold T in ET.
  destruct (pressure_cycle_good fuel PIOS_DELAY_WaitmS s1 d1 rxP)
    as (s2 & d2 & H2 & Hv2 & Hd2 & _ & Edt2 & Et2 & ET2 & EP2 & B2 & Ec2 & Eb2);
    try assumption.
  { destruct Hcal as [Hl Hf]. split; rewrite Hcal1; assumption. }
  { rewrite Ec1. replace (S (S (spi_claims s))) with (spi_claims s + 2)%nat by lia.
    apply Hclaim. lia. }
  { rewrite Ec1. replace (S (S (S (spi_claims s)))) with (spi_claims s + 3)%nat by lia.
    apply Hclaim. lia. }
  { rewrite Eb1. exact HbP. }
  { apply WaitmS_logs. }
  assert (EP' : pressure_unscaled d2 = P).
  { rewrite EP2, Edt, Et, ET. unfold P, cal. rewrite Hcal1.
    unfold adc_code. rewrite Eb1. reflexivity. }
  pose proof (range_check_verdict d2) as Hverdict. cbv zeta in Hverdict.
  unfold in_datasheet_range in Hverdict. rewrite ET2, ET, EP' in Hverdict.
  eexists _, s2, d2. split.
  { unfold PIOS_MS5611_SPI_Test.
    rewrite (bind_Done _ _ _ _ _ (validate_run s)). rewrite Hv. cbn [Z.eqb negb].
    rewrite H1, H2. unfold the_dev, bind. rewrite Hd2. rewrite ET2, ET, EP'.
    instantiate (1 := if (T <? -4000) || (T >? 8500) || (P <? 1000) || (P >? 120000)
                      then -1 else 0).
    destruct (_ || _); reflexivity. }
  split; [exact Hd2|]. split; [rewrite ET2; exact ET|]. split; [exact EP'|].
  split; [rewrite Edt2; exact Edt|]. split; [rewrite Et2; exact Et|].
  split; [|split]; [| |split; [exact B2|split; [rewrite Ec2, Ec1; lia | rewrite Eb2, Eb1; lia]]].
  - destruct (_ || _); split; intros H; try discriminate; try reflexivity.
    + apply Hverdict in H. discriminate.
    + apply Hverdict. reflexivity.
  - destruct (_ || _); split; intros H; try discriminate; try reflexivity.
    + intros Hin. apply Hverdict in Hin. discriminate.
    + exfalso. apply H, Hverdict. reflexivity.
Qed.
End WithEnv.

(** *** On the bench *)

Lemma bench_ready_is_ready : ready bench_ready.
Proof.
  split; [reflexivity|]. split.
  - exists bench_dev. split; [reflexivity | exact bench_calibrated].
  - unfold statics_bounded. cbn. lia.
Defined.

Lemma bench_measured_is_ready : ready bench_measured.
Proof.
  split; [reflexivity|]. split.
  - eexists. split; [reflexivity | exact bench_calibrated].
  - unfold statics_bounded. cbn. lia.
Defined.

Lemma unplugged_eventually_granted : eventually_granted unplugged.
Proof. intros n. exists 0%nat. reflexivity. Defined.

Lemma invalid_handle_is_refused_witness :
  PIOS_MS5611_ReadADC bench initial_state = Done (-1) initial_state /\
  PIOS_MS5611_GetDelay bench initial_state = Done 100 initial_state /\
  PIOS_MS5611_ClaimDevice initial_state = Fatal.
Proof.
  destruct (invalid_handle_is_refused bench initial_state 1 PRESSURE_CONV 0 [] 0 0 1)
    as (_ & _ & _ & _ & _ & Hdelay & Hread & _ & Hclaim & _).
  - vm_compute. discriminate.
  - split; [exact Hread|]. split; [exact Hdelay | exact Hclaim].
Defined.

Lemma Read_status_witness :
  exists rx, spi_block bench 6 = Some rx /\
             received (code_bytes 8569150) 3 = received rx 3.
Proof.
  destruct (Read_status bench bench_ready MS5611_ADC_READ [0; 0; 0] 3 0
              (received (code_bytes 8569150) 3)
              (next_block (log (SpiTransferByte MS5611_ADC_READ) (next_claim bench_ready))))
    as (_ & _ & [(_ & _ & (rx & Hb & Hbuf) & _) | [(H & _) | (H & _)]]).
  - reflexivity.
  - reflexivity.
  - exists rx. split; [exact Hb | exact Hbuf].
  - discriminate H.
  - discriminate H.
Defined.

Lemma WriteCommand_status_witness :
  spi_claim starved 7 = false /\
  trace (next_claim bench_ready) = trace bench_ready.
Proof.
  destruct (WriteCommand_status starved bench_ready MS5611_RESET (-2) (next_claim bench_ready))
    as (_ & _ & _ & [(H & _) | (_ & Hc & Ht)]).
  - reflexivity.
  - reflexivity.
  - discriminate H.
  - split; [exact Hc | exact Ht].
Defined.

Lemma GetDelay_table_witness :
  exists ms, PIOS_MS5611_GetDelay bench bench_ready = Done ms bench_ready /\ ms = 10.
Proof.
  destruct (GetDelay_table bench bench_ready bench_dev) as (ms & Hrun & _ & _ & _ & _ & H & _).
  - reflexivity.
  - reflexivity.
  - cbn. repeat constructor; rewrite ?elem_of_cons, ?elem_of_nil; intuition discriminate.
  - exists ms. split; [exact Hrun | apply H; reflexivity].
Defined.

Lemma Init_failures_witness :
  exists s' d',
    PIOS_MS5611_SPI_Init bench 0 0 bench_cfg initial_state = Done (-2) s' /\
    dev s' = Some d' /\ trace s' = [].
Proof.
  destruct (Init_failures bench 0 0 bench_cfg) as (_ & _ & H & _).
  destruct H as (s' & d' & Hrun & Hd & _ & _ & Ht & _).
  - reflexivity.
  - reflexivity.
  - reflexivity.
  - left. reflexivity.
  - exists s', d'. split; [exact Hrun|]. split; [exact Hd | exact Ht].
Defined.

Lemma Init_reads_calibration_witness :
  exists s' d',
    PIOS_MS5611_SPI_Init bench 1 0 bench_cfg initial_state = Done 0 s' /\
    dev s' = Some d' /\
    calibration d' =
      map (fun i => calibration_word (word_bytes (nth i bench_calibration 0))) (seq 0 6).
Proof.
  destruct (Init_reads_calibration bench 1 0 bench_cfg
              (fun i => word_bytes (nth i bench_calibration 0)))
    as (s' & d' & Hrun & Hd & Hcal & _).
  - discriminate.
  - reflexivity.
  - reflexivity.
  - reflexivity.
  - reflexivity.
  - intros k _. reflexivity.
  - intros i Hi. do 6 (destruct i as [|i]; [reflexivity|]). lia.
  - exists s', d'. split; [exact Hrun|]. split; [exact Hd | exact Hcal].
Defined.

Lemma ReadADC_keeps_ready_witness :
  exists rc s',
    PIOS_MS5611_ReadADC unplugged bench_measured = Done rc s' /\
    ready s' /\ readings s' = readings bench_measured.
Proof.
  destruct (ReadADC_keeps_ready unplugged bench_measured (-1)
              (next_block (log (SpiTransferByte MS5611_ADC_READ) (next_claim bench_measured))))
    as (Hr & _ & _ & _ & Hsame & _).
  - exact bench_measured_is_ready.
  - reflexivity.
  - exists (-1),
      (next_block (log (SpiTransferByte MS5611_ADC_READ) (next_claim bench_measured))).
    split; [reflexivity|]. split; [exact Hr | apply Hsame; discriminate].
Defined.

Lemma Task_keeps_ready_witness :
  exists fuel0 count' s',
    (forall fuel, (fuel0 <= fuel)%nat ->
       PIOS_MS5611_Task bench 4 fuel bench_ready = Done count' s') /\
    ready s' /\ busy_taken s' = false.
Proof.
  destruct (Task_keeps_ready bench bench_ready 4)
    as (fuel0 & count' & s' & Hrun & Hr & _ & Hb).
  - exact bench_ready_is_ready.
  - exact bench_eventually_granted.
  - exists fuel0, count', s'. split; [exact Hrun|]. split; [exact Hr | apply Hb; lia].
Defined.

Lemma pressure_pass_keeps_temperature_witness :
  exists fuel0 s',
    (forall fuel, (fuel0 <= fuel)%nat ->
       Task_iteration bench fuel 3 bench_measured = Done 2 s') /\
    temperature_part s' = temperature_part bench_measured.
Proof.
  destruct (pressure_pass_keeps_temperature bench bench_measured 3)
    as (fuel0 & s' & Hrun & Ht & _).
  - exact bench_measured_is_ready.
  - exact bench_eventually_granted.
  - vm_compute. discriminate.
  - exists fuel0, s'. split; [exact Hrun | exact Ht].
Defined.

Lemma Task_conversion_counts_witness :
  exists fuel0 count' s',
    (forall fuel, (fuel0 <= fuel)%nat ->
       PIOS_MS5611_Task bench 7 fuel bench_ready = Done count' s') /\
    pressure_conversions (conversions_started 8 (emitted_since bench_ready s')) = 7%nat /\
    Z.of_nat (temperature_conversions (conversions_started 8 (emitted_since bench_ready s')))
    = 3.
Proof.
  destruct (Task_conversion_counts bench bench_ready bench_cfg 7)
    as (fuel0 & count' & s' & Hrun & Hp & Ht).
  - reflexivity.
  - reflexivity.
  - cbn. lia.
  - exact bench_eventually_granted.
  - exists fuel0, count', s'. split; [exact Hrun|]. split; [exact Hp | exact Ht].
Defined.

Lemma Task_queues_one_sample_per_good_pass_witness :
  exists fuel0 count' s',
    (forall fuel, (fuel0 <= fuel)%nat ->
       PIOS_MS5611_Task bench 5 fuel bench_ready = Done count' s') /\
    length (queue_sends (emitted_since bench_ready s')) = 5%nat.
Proof.
  destruct (Task_queues_one_sample_per_good_pass bench bench_ready 5)
    as (fuel0 & count' & s' & Hrun & _ & _ & Hall).
  - reflexivity.
  - exact bench_eventually_granted.
  - exists fuel0, count', s'. split; [exact Hrun|]. apply Hall.
    + intros i. reflexivity.
    + intros i. cbn. destruct (nth_error bench_calibration i); [discriminate|].
      destruct (i =? 6)%nat; discriminate.
Defined.

Lemma SPI_Test_keeps_ready_witness :
  exists fuel0 rc s',
    (forall fuel, (fuel0 <= fuel)%nat ->
       PIOS_MS5611_SPI_Test bench fuel bench_ready = Done rc s') /\
    ready s' /\ busy_taken s' = false.
Proof.
  destruct (SPI_Test_keeps_ready bench bench_ready)
    as (fuel0 & rc & s' & Hrun & _ & Hr & _ & Hb).
  - exact bench_ready_is_ready.
  - exact bench_eventually_granted.
  - exists fuel0, rc, s'. split; [exact Hrun|]. split; [exact Hr | exact Hb].
Defined.

Lemma SPI_Test_judges_stale_readings_witness :
  exists fuel0 s',
    (forall fuel, (fuel0 <= fuel)%nat ->
       PIOS_MS5611_SPI_Test unplugged fuel bench_measured = Done 0 s') /\
    readings s' = readings bench_measured.
Proof.
  destruct (SPI_Test_judges_stale_readings unplugged bench_measured
              (with_pressure_unscaled (with_temperature_unscaled bench_dev 2007) 100009))
    as (fuel0 & rc & s' & Hrun & Hsame & Hrc).
  - exact bench_measured_is_ready.
  - reflexivity.
  - exact unplugged_eventually_granted.
  - intros i. reflexivity.
  - assert (E : rc = 0) by (apply Hrc; unfold in_datasheet_range; cbn; lia).
    subst rc. exists fuel0, s'. split; [exact Hrun | exact Hsame].
Defined.

Lemma SPI_Test_measures_witness :
  exists s' d',
    PIOS_MS5611_SPI_Test bench 1 bench_ready = Done 0 s' /\
    dev s' = Some d' /\
    temperature_unscaled d' =
      Reference.temperature_unscaled 2366 (Reference.temperature 2366 28312) /\
    delta_temp s' = 2366.
Proof.
  destruct (SPI_Test_measures bench bench_ready bench_dev
              (code_bytes 8569150) (code_bytes 9085466) 1)
    as (rc & s' & d' & Hrun & Hd & HT & HP & Hdt & _ & Hrc & _).
  - reflexivity.
  - reflexivity.
  - exact bench_calibrated.
  - lia.
  - intros j _. reflexivity.
  - reflexivity.
  - reflexivity.
  - assert (E : rc = 0).
    { apply Hrc. vm_compute. repeat split; discriminate. }
    subst rc. exists s', d'. split; [exact Hrun|]. split; [exact Hd|].
    split; [exact HT | exact Hdt].
Defined.

End MS5611_More.

(** ** Further properties of the LED driver *)

Module WS2811_More.
Import WS2811 CInt_Facts WS2811_Facts.

#[local] Arguments Z.land : simpl never.
#[local] Arguments Z.shiftl : simpl never.
#[local] Arguments Z.testbit : simpl never.
#[local] Arguments Z.sub : simpl never.
#[local] Arguments to_uint8 : simpl never.

(** *** Every byte of a buffer *)

Lemma tested_succ p j : tested (to_uint8 (Z.shiftl p 1)) j = tested p (S j).
Proof. unfold tested. rewrite Nat.iter_succ_r. reflexivity. Qed.

(** The even cells of the slot group are written, by the rounds left. *)
Lemma blit_bits_lookup_even n : forall j i p g buf j',
  (i + 2 * (j + n) <= length buf)%nat ->
  (j <= j' < j + n)%nat ->
  blit_bits n j i p g buf !! (i + 2 * j')%nat =
  Some (if tested p (j' - j) =? 0 then g else 0).
Proof.
  induction n as [|n IH]; intros j i p g buf j' Hlen Hj'; [lia|].
  rewrite blit_bits_step.
  destruct (decide (j' = j)) as [->|Hne].
  - assert (E : take (S (i + 2 * j))
                  (blit_bits n (S j) i (to_uint8 (Z.shiftl p 1)) g
                     (<[(i + j * 2)%nat := if Z.land p 128 =? 0 then g else 0]> buf)) =
                take (S (i + 2 * j))
                  (<[(i + j * 2)%nat := if Z.land p 128 =? 0 then g else 0]> buf)).
    { clear IH. revert buf Hlen. generalize (to_uint8 (Z.shiftl p 1)).
      generalize (if Z.land p 128 =? 0 then g else 0). intros v q buf Hlen.
      generalize (<[(i + j * 2)%nat := v]> buf). intros b.
      assert (G : forall n k q b, (i + 2 * j < i + 2 * k)%nat ->
                take (S (i + 2 * j)) (blit_bits n k i q g b) = take (S (i + 2 * j)) b).
      { clear. induction n as [|n IH]; intros k q b Hk; [reflexivity|].
        rewrite blit_bits_step, IH by lia. apply take_insert_ge. lia. }
      apply G. lia. }
    rewrite <- (lookup_take_lt _ (S (i + 2 * j))) by lia. rewrite E.
    rewrite lookup_take_lt by lia.
    replace (i + j * 2)%nat with (i + 2 * j)%nat by lia.
    rewrite list_lookup_insert_eq by lia.
    rewrite Nat.sub_diag. reflexivity.
  - rewrite IH by (rewrite ?length_insert; lia).
    rewrite tested_succ. replace (S (j' - S j)) with (j' - j)%nat by lia. reflexivity.
Qed.

(** No other cell is. *)
Lemma blit_bits_lookup_other n : forall j i p g buf m,
  (forall j', (j <= j' < j + n)%nat -> m <> (i + 2 * j')%nat) ->
  blit_bits n j i p g buf !! m = buf !! m.
Proof.
  induction n as [|n IH]; intros j i p g buf m Hm; [reflexivity|].
  rewrite blit_bits_step, IH by (intros j' Hj'; apply Hm; lia).
  apply list_lookup_insert_ne. specialize (Hm j ltac:(lia)). lia.
Qed.

(** Quotients and remainders of naturals, as equations for [lia]. *)
Ltac div_mod_facts :=
  repeat match goal with
         | |- context [(?x mod ?k)%nat] =>
             lazymatch goal with
             | _ : x = (k * (x / k) + x mod k)%nat |- _ => fail
             | _ => pose proof (Nat.div_mod_eq x k);
                    pose proof (Nat.mod_upper_bound x k ltac:(lia))
             end
         | |- context [(?x / ?k)%nat] =>
             lazymatch goal with
             | _ : x = (k * (x / k) + x mod k)%nat |- _ => fail
             | _ => pose proof (Nat.div_mod_eq x k);
                    pose proof (Nat.mod_upper_bound x k ltac:(lia))
             end
         | H : context [(?x mod ?k)%nat] |- _ =>
             lazymatch goal with
             | _ : x = (k * (x / k) + x mod k)%nat |- _ => fail
             | _ => pose proof (Nat.div_mod_eq x k);
                    pose proof (Nat.mod_upper_bound x k ltac:(lia))
             end
         end.

Ltac nat_arith := div_mod_facts; lia.

Lemma byte_of_uint8 bytes k : Forall is_uint8 bytes -> is_uint8 (byte_of bytes k).
Proof.
  intros H. unfold byte_of. revert k.
  induction H as [|x l Hx _ IH]; intros [|k]; cbn; auto; unfold is_uint8; lia.
Qed.

(** One slot group. *)
Lemma blit_bits_group i p g buf m :
  is_uint8 p -> (i + 16 <= length buf)%nat ->
  blit_bits 8 0 i p g buf !! m =
  if (i <=? m)%nat && (m <? i + 16)%nat && ((m - i) mod 2 =? 0)%nat
  then Some (encoded_cell p ((m - i) / 2) g)
  else buf !! m.
Proof.
  intros Hp Hlen.
  destruct ((i <=? m)%nat && (m <? i + 16)%nat && ((m - i) mod 2 =? 0)%nat) eqn:E.
  - apply andb_prop in E as [E E3]. apply andb_prop in E as [E1 E2].
    apply Nat.leb_le in E1. apply Nat.ltb_lt in E2. apply Nat.eqb_eq in E3.
    replace m with (i + 2 * ((m - i) / 2))%nat at 1 by nat_arith.
    rewrite blit_bits_lookup_even by nat_arith.
    rewrite Nat.sub_0_r. f_equal. apply cell_value; [exact Hp | nat_arith].
  - apply blit_bits_lookup_other. intros j' Hj' ->.
    replace ((i <=? i + 2 * j')%nat) with true in E by (symmetry; apply Nat.leb_le; lia).
    replace ((i + 2 * j' <? i + 16)%nat) with true in E by (symmetry; apply Nat.ltb_lt; lia).
    replace ((i + 2 * j' - i) mod 2 =? 0)%nat with true in E
      by (symmetry; apply Nat.eqb_eq; nat_arith).
    discriminate.
Qed.

Lemma fill_slots_lookup n : forall i buf bytes pos pend g,
  (i + 16 * n <= length buf)%nat ->
  Forall is_uint8 bytes ->
  (fill_slots n i buf bytes pos pend g).2 = (pos + Nat.min n (pend - pos))%nat /\
  forall m,
    (fill_slots n i buf bytes pos pend g).1 !! m =
    encoded_lookup buf bytes i pos (Nat.min n (pend - pos)) g m.
Proof.
  induction n as [|n IH]; intros i buf bytes pos pend g Hlen Hbytes.
  - cbn [fill_slots fst snd Nat.min]. split; [lia|]. intros m. unfold encoded_lookup.
    replace ((m <? i + 16 * 0)%nat) with (negb (i <=? m)%nat).
    2:{ destruct (Nat.leb_spec i m), (Nat.ltb_spec m (i + 16 * 0)); cbn; (reflexivity || lia). }
    destruct (i <=? m)%nat; reflexivity.
  - cbn [fill_slots]. destruct (Nat.leb_spec pend pos) as [Hend|Hend].
    + cbn [fst snd]. replace (pend - pos)%nat with 0%nat by lia.
      rewrite Nat.min_0_r. split; [lia|]. intros m. unfold encoded_lookup.
      replace ((m <? i + 16 * 0)%nat) with (negb (i <=? m)%nat).
      2:{ destruct (Nat.leb_spec i m), (Nat.ltb_spec m (i + 16 * 0)); cbn; (reflexivity || lia). }
      destruct (i <=? m)%nat; reflexivity.
    + destruct (IH (i + 16)%nat (blit_bits 8 0 i (nth pos bytes 0) g buf) bytes (S pos) pend g)
        as [Hpos Hcells]; [rewrite blit_bits_length; lia | exact Hbytes |].
      replace (Nat.min (S n) (pend - pos)) with (S (Nat.min n (pend - S pos))) by lia.
      split; [rewrite Hpos; lia|].
      intros m. rewrite Hcells. unfold encoded_lookup.
      set (c := Nat.min n (pend - S pos)).
      rewrite blit_bits_group by (try apply (byte_of_uint8 bytes pos Hbytes); lia).
      destruct (Nat.leb_spec (i + 16) m) as [H1|H1].
      * replace ((i <=? m)%nat) with true by (symmetry; apply Nat.leb_le; lia).
        replace ((m <? i + 16)%nat) with false by (symmetry; apply Nat.ltb_ge; lia).
        replace ((m <? i + 16 * S c)%nat) with ((m <? i + 16 + 16 * c)%nat)
          by (f_equal; lia).
        replace ((m - i) mod 2 =? 0)%nat with ((m - (i + 16)) mod 2 =? 0)%nat.
        2:{ destruct (Nat.eqb_spec ((m - (i + 16)) mod 2) 0),
              (Nat.eqb_spec ((m - i) mod 2) 0); (reflexivity || nat_arith). }
        cbn [andb].
        destruct ((m <? i + 16 + 16 * c)%nat && ((m - (i + 16)) mod 2 =? 0)%nat);
          [|reflexivity].
        f_equal. f_equal; [f_equal|]; nat_arith.
      * cbn [andb].
        replace ((m <? i + 16 * S c)%nat) with ((m <? i + 16)%nat).
        2:{ destruct (Nat.ltb_spec m (i + 16)), (Nat.ltb_spec m (i + 16 * S c));
              (reflexivity || lia). }
        destruct ((i <=? m)%nat && (m <? i + 16)%nat && ((m - i) mod 2 =? 0)%nat) eqn:E;
          [|reflexivity].
        apply andb_prop in E as [E E3]. apply andb_prop in E as [E1 E2].
        apply Nat.leb_le in E1. apply Nat.ltb_lt in E2. apply Nat.eqb_eq in E3.
        unfold byte_of. f_equal. f_equal; [f_equal|]; nat_arith.
Qed.

Lemma pixel_bytes_uint8 px : pixels_are_bytes px -> Forall is_uint8 (pixel_bytes px).
Proof.
  intros H. unfold pixel_bytes. induction H as [|p l (Hr & Hg & Hb) _ IH]; cbn.
  - constructor.
  - constructor; [exact Hr|]. constructor; [exact Hg|]. constructor; [exact Hb|].
    exact IH.
Qed.

Lemma pixel_bytes_length px : length (pixel_bytes px) = (3 * length px)%nat.
Proof. unfold pixel_bytes. induction px as [|p l IH]; cbn; [reflexivity | rewrite IH; lia]. Qed.

Lemma fill_dma_buf_spec dma_buf bytes pos pend g :
  length dma_buf = WS2811_DMA_BUFSIZE ->
  Forall is_uint8 bytes ->
  exists buf,
    fill_dma_buf dma_buf bytes pos pend g =
      (buf, (pos + Nat.min 18 (pend - pos))%nat, (pend <=? pos + 18)%nat) /\
    length buf = WS2811_DMA_BUFSIZE /\
    forall m, buf !! m = encoded_lookup dma_buf bytes 0 pos (Nat.min 18 (pend - pos)) g m.
Proof.
  intros Hlen Hbytes. unfold fill_dma_buf.
  change (WS2811_DMA_BUFSIZE / 16)%nat with 18%nat.
  destruct (fill_slots_lookup 18 0 dma_buf bytes pos pend g) as [Hpos Hcells];
    [rewrite Hlen; unfold WS2811_DMA_BUFSIZE; lia | exact Hbytes |].
  pose proof (fill_slots_length 18 0 dma_buf bytes pos pend g) as Hl.
  destruct (fill_slots 18 0 dma_buf bytes pos pend g) as [buf pos'].
  cbn [fst snd] in *. subst pos'. exists buf. split; [|split; [lia | exact Hcells]].
  f_equal.
  destruct (Nat.leb_spec pend (pos + Nat.min 18 (pend - pos))),
    (Nat.leb_spec pend (pos + 18)); (reflexivity || lia).
Qed.

(** X20: [fill_dma_buf] consumes the next 18 bytes, or as many as are left,
    and encodes byte [k] of them into slot group [k] of the buffer, most
    significant bit first: the even cell of bit [j] is 0 for a one bit and
    [gpio_val] for a zero bit.  The odd cells and the slot groups beyond
    the last byte consumed keep what the buffer held before; with nothing
    left the buffer is returned unchanged.  The cursor advances by the
    bytes consumed and the result tells whether the end was reached. *)
Theorem fill_dma_buf_encodes dma_buf bytes pos pixel_data_end gpio_val :
  length dma_buf = WS2811_DMA_BUFSIZE ->
  Forall is_uint8 bytes ->
  (pixel_data_end <= length bytes)%nat ->
  let count := Nat.min 18 (pixel_data_end - pos) in
  exists buf,
    fill_dma_buf dma_buf bytes pos pixel_data_end gpio_val =
      (buf, (pos + count)%nat, (pixel_data_end <=? pos + 18)%nat) /\
    length buf = WS2811_DMA_BUFSIZE /\
    (forall m, buf !! m = encoded_lookup dma_buf bytes 0 pos count gpio_val m) /\
    (forall k j, (k < count)%nat -> (j < 8)%nat ->
       buf !! (16 * k + 2 * j)%nat =
         Some (encoded_cell (byte_of bytes (pos + k)) j gpio_val) /\
       buf !! (16 * k + 2 * j + 1)%nat = dma_buf !! (16 * k + 2 * j + 1)%nat) /\
    (forall m, (16 * count <= m)%nat -> buf !! m = dma_buf !! m) /\
    ((pixel_data_end <= pos)%nat -> buf = dma_buf).
Proof.
  intros Hlen Hbytes _ count.
  destruct (fill_dma_buf_spec dma_buf bytes pos pixel_data_end gpio_val Hlen Hbytes)
    as (buf & Hrun & Hl & Hcells).
  fold count in Hrun, Hcells.
  assert (Hstale : forall m, (16 * count <= m)%nat -> buf !! m = dma_buf !! m).
  { intros m Hm. rewrite Hcells. unfold encoded_lookup.
    replace ((m <? 0 + 16 * count)%nat) with false by (symmetry; apply Nat.ltb_ge; lia).
    rewrite andb_false_r. reflexivity. }
  exists buf. split; [exact Hrun|]. split; [exact Hl|]. split; [exact Hcells|].
  split; [|split; [exact Hstale|]].
  - intros k j Hk Hj. rewrite !Hcells. unfold encoded_lookup. split.
    + replace ((0 <=? 16 * k + 2 * j)%nat) with true by (symmetry; apply Nat.leb_le; lia).
      replace ((16 * k + 2 * j <? 0 + 16 * count)%nat) with true
        by (symmetry; apply Nat.ltb_lt; lia).
      replace ((16 * k + 2 * j - 0) mod 2 =? 0)%nat with true
        by (symmetry; apply Nat.eqb_eq; nat_arith).
      cbn [andb]. f_equal. f_equal; [f_equal|]; nat_arith.
    + replace ((16 * k + 2 * j + 1 - 0) mod 2 =? 0)%nat with false
        by (symmetry; apply Nat.eqb_neq; nat_arith).
      rewrite andb_false_r. reflexivity.
  - intros Hend. apply list_eq. intros m. apply Hstale.
    unfold count. replace (pixel_data_end - pos)%nat with 0%nat by lia.
    rewrite Nat.min_0_r. lia.
Qed.

(** *** Triggering an update *)

(** X21: [PIOS_WS2811_trigger_update] on an idle, well-formed device sets
    [in_progress], clears [eof] and [cur_buf], encodes the pixel bytes 0 to
    17 into the first DMA buffer and 18 to 35 into the second (fewer when
    the strip is shorter), leaves the cursor at byte 36 or at the end of
    the pixels, cues the DMA once and leaves the pixels and the rest of the
    device as they were. *)
Theorem trigger_update_encodes m :
  well_formed (device m) ->
  pixels_are_bytes (pixel_data (device m)) ->
  in_progress (device m) = false ->
  let d := device m in
  let d' := device (PIOS_WS2811_trigger_update m) in
  let bytes := pixel_bytes (pixel_data d) in
  let c0 := Nat.min 18 (pixel_data_end d) in
  let c1 := Nat.min 18 (pixel_data_end d - c0) in
  in_progress d' = true /\ eof d' = false /\ cur_buf d' = false /\
  pixel_data_pos d' = Nat.min 36 (pixel_data_end d) /\
  (forall k, dma_buf_0 d' !! k = encoded_lookup (dma_buf_0 d) bytes 0 0 c0 (gpio_bit d) k) /\
  (forall k, dma_buf_1 d' !! k = encoded_lookup (dma_buf_1 d) bytes 0 c0 c1 (gpio_bit d) k) /\
  pixel_data d' = pixel_data d /\ pixel_data_end d' = pixel_data_end d /\
  (magic d', cfg d', max_leds d', lame_dma_buf d', gpio_bit d') =
    (magic d, cfg d, max_leds d, lame_dma_buf d, gpio_bit d) /\
  hardware (PIOS_WS2811_trigger_update m) =
    hardware m ++ [DmaCue (max_leds d) WS2811_DMA_BUFSIZE] /\
  well_formed d'.
Proof.
  intros (Hmagic & Hmax & Hpx & Hend & Hl0 & Hl1) Hbytes Hidle. cbv zeta.
  pose proof (pixel_bytes_uint8 _ Hbytes) as Hb.
  unfold PIOS_WS2811_trigger_update. rewrite Hidle.
  set (d := device m) in *. set (bytes := pixel_bytes (pixel_data d)) in *.
  set (c0 := Nat.min 18 (pixel_data_end d)).
  set (c1 := Nat.min 18 (pixel_data_end d - c0)).
  destruct (fill_dma_buf_spec (dma_buf_0 d) bytes 0 (pixel_data_end d) (gpio_bit d) Hl0 Hb)
    as (buf0 & H0 & Hlen0 & Hcells0).
  destruct (fill_dma_buf_spec (dma_buf_1 d) bytes c0 (pixel_data_end d) (gpio_bit d) Hl1 Hb)
    as (buf1 & H1 & Hlen1 & Hcells1).
  rewrite Nat.sub_0_r in H0, Hcells0. cbn [Nat.add] in H0. fold c0 in H0, Hcells0.
  fold c1 in H1, Hcells1.
  rewrite H0, H1. unfold ws2811_cue_dma.
  cbn [device hardware in_progress eof cur_buf pixel_data_pos dma_buf_0 dma_buf_1
       pixel_data pixel_data_end magic cfg max_leds lame_dma_buf gpio_bit].
  repeat match goal with |- _ /\ _ => split end; try reflexivity.
  - unfold c1, c0. lia.
  - exact Hcells0.
  - exact Hcells1.
  - unfold well_formed. cbn. auto 10.
Qed.

(** *** Setting pixels *)

(** X15: on a well-formed device [PIOS_WS2811_set] with an index from 0
    to [max_leds - 1] stores the colour in that pixel and changes nothing
    else, neither another pixel nor any other field; with an index of
    [max_leds] or more it stops in [PIOS_Assert]. *)
Theorem set_stores_one_pixel d idx r g b :
  well_formed d -> 0 <= idx ->
  (idx < max_leds d ->
   exists d',
     PIOS_WS2811_set d idx r g b = Ok d' /\
     d' = with_pixel_data d (pixel_data d') /\
     pixel_data d' !! Z.to_nat idx = Some {| r := r; g := g; b := b |} /\
     (forall k, k <> Z.to_nat idx -> pixel_data d' !! k = pixel_data d !! k) /\
     well_formed d') /\
  (max_leds d <= idx -> PIOS_WS2811_set d idx r g b = AssertFailed).
Proof.
  intros (Hmagic & Hmax & Hpx & Hend & Hl0 & Hl1) Hidx. split.
  - intros Hlt. eexists. split; [apply set_in_range; [exact Hmagic | lia]|].
    cbn. split; [reflexivity|].
    split; [apply list_lookup_insert_eq; lia|].
    split; [intros k Hk; apply list_lookup_insert_ne; lia|].
    unfold well_formed. cbn. rewrite length_insert. auto 10.
  - intros Hge. apply set_index_too_large; assumption.
Qed.

Lemma set_all_from_fills r g b n : forall i d,
  magic d = WS2811_MAGIC -> 0 <= i -> i + Z.of_nat n <= max_leds d ->
  (Z.to_nat i + n <= length (pixel_data d))%nat ->
  set_all_from n i d r g b =
  Ok (with_pixel_data d
        (take (Z.to_nat i) (pixel_data d)
         ++ replicate n {| r := r; g := g; b := b |}
         ++ drop (Z.to_nat i + n) (pixel_data d))).
Proof.
  induction n as [|n IH]; intros i d Hmagic Hi Hmax Hlen.
  - cbn [set_all_from replicate app]. rewrite Nat.add_0_r, take_drop.
    destruct d; reflexivity.
  - cbn [set_all_from]. rewrite set_in_range by (try assumption; lia).
    rewrite IH by (cbn; rewrite ?length_insert; (assumption || lia)).
    cbn. f_equal. f_equal.
    replace (Z.to_nat (i + 1)) with (S (Z.to_nat i)) by lia.
    rewrite (take_S_r _ _ {| r := r; g := g; b := b |})
      by (apply list_lookup_insert_eq; lia).
    rewrite take_insert_ge by lia.
    rewrite drop_insert_lt by lia.
    rewrite <- app_assoc. cbn [app].
    replace (S (Z.to_nat i) + n)%nat with (Z.to_nat i + S n)%nat by lia.
    reflexivity.
Qed.

Lemma set_all_run d r g b :
  well_formed d ->
  PIOS_WS2811_set_all d r g b =
    Ok (with_pixel_data d
          (replicate (length (pixel_data d)) {| r := r; g := g; b := b |})).
Proof.
  intros (Hmagic & Hmax & Hpx & Hend & Hl0 & Hl1).
  unfold PIOS_WS2811_set_all. rewrite Hmagic, Z.eqb_refl. cbn [negb].
  rewrite set_all_from_fills by (try assumption; lia).
  change (Z.to_nat 0) with 0%nat. rewrite Nat.add_0_l, take_0. cbn [app].
  rewrite <- Hpx, drop_all, app_nil_r. reflexivity.
Qed.

(** X16: on a well-formed device [PIOS_WS2811_set_all] never fails: it
    gives every pixel the colour and changes no other field. *)
Theorem set_all_fills d r g b :
  well_formed d ->
  exists d',
    PIOS_WS2811_set_all d r g b = Ok d' /\
    d' = with_pixel_data d (pixel_data d') /\
    length (pixel_data d') = length (pixel_data d) /\
    (forall k, (k < length (pixel_data d))%nat ->
       pixel_data d' !! k = Some {| r := r; g := g; b := b |}) /\
    well_formed d'.
Proof.
  intros Hwf. eexists. split; [apply set_all_run; exact Hwf|].
  destruct Hwf as (Hmagic & Hmax & Hpx & Hend & Hl0 & Hl1).
  cbn [with_pixel_data pixel_data]. rewrite length_replicate.
  split; [reflexivity|]. split; [reflexivity|].
  split; [intros k Hk; apply lookup_replicate_2; exact Hk|].
  unfold well_formed. cbn -[WS2811_DMA_BUFSIZE]. rewrite length_replicate. auto 10.
Qed.

(** *** Initialisation *)

Lemma prefilled_length g : length (prefilled g) = WS2811_DMA_BUFSIZE.
Proof. reflexivity. Qed.

Lemma init_run mem cfg max_leds :
  0 < max_leds <= 1024 ->
  length (pixel_data mem) = Z.to_nat max_leds ->
  Z.land (gpio_pin cfg) 0xff00 = 0 \/ Z.land (gpio_pin cfg) 0xff = 0 ->
  let bit := if Z.land (gpio_pin cfg) 0xff00 =? 0
             then to_uint8 (gpio_pin cfg)
             else to_uint8 (Z.shiftr (gpio_pin cfg) 8) in
  PIOS_WS2811_init (Some mem) cfg max_leds =
  Ok (0, Some {| device :=
                   {| magic := WS2811_MAGIC; cfg := cfg; max_leds := max_leds;
                      lame_dma_buf := bit;
                      dma_buf_0 := prefilled bit; dma_buf_1 := prefilled bit;
                      gpio_bit := bit;
                      cur_buf := cur_buf mem; eof := eof mem;
                      in_progress := in_progress mem;
                      pixel_data_pos := pixel_data_pos mem;
                      pixel_data_end := (3 * Z.to_nat max_leds)%nat;
                      pixel_data :=
                        replicate (Z.to_nat max_leds) {| r := 0; g := 0; b := 0 |} |};
                 hardware := [GpioInit (gpio_pin cfg)] |}).
Proof.
  intros Hmax Hlen Hpin bit. unfold PIOS_WS2811_init.
  replace (max_leds >? 0) with true by (symmetry; apply Z.gtb_lt; lia).
  replace (max_leds <=? 1024) with true by (symmetry; apply Z.leb_le; lia).
  cbn [negb].
  replace (negb (Z.land (gpio_pin cfg) 65280 =? 0) && negb (Z.land (gpio_pin cfg) 255 =? 0))
    with false.
  2:{ symmetry. destruct Hpin as [-> | ->]; cbn; [reflexivity | apply andb_false_r]. }
  cbv zeta.
  assert (Hbit : (if negb (Z.land (gpio_pin cfg) 65280 =? 0)
                  then to_uint8 (Z.shiftr (gpio_pin cfg) 8)
                  else to_uint8 (gpio_pin cfg)) = bit).
  { unfold bit. destruct (Z.land (gpio_pin cfg) 65280 =? 0); reflexivity. }
  rewrite Hbit.
  replace (to_uint16 max_leds) with max_leds
    by (unfold to_uint16, wrap_unsigned; symmetry; apply Z.mod_small; lia).
  match goal with
  | |- context [PIOS_WS2811_set_all ?d 0 0 0] =>
      rewrite (set_all_run d 0 0 0)
  end.
  2:{ unfold well_formed.
      cbn [magic WS2811.max_leds pixel_data pixel_data_end dma_buf_0 dma_buf_1].
      rewrite Hlen, !prefilled_length. repeat split; lia. }
  unfold with_pixel_data.
  cbn [magic WS2811.cfg WS2811.max_leds lame_dma_buf pixel_data pixel_data_end dma_buf_0 dma_buf_1
       gpio_bit cur_buf eof in_progress pixel_data_pos].
  rewrite Hlen. reflexivity.
Qed.

(** X17: [PIOS_WS2811_init] with 1 to 1024 LEDs, memory for them and a pin
    mask within one byte of the port returns 0 and a well-formed device:
    all pixels black, both DMA buffers prefilled with 0 in the even and the
    pin bit in the odd cells, the pin bit taken from the low or the high
    byte of the mask, and the GPIO initialised.  [in_progress], [eof],
    [cur_buf] and [pixel_data_pos] are not assigned: they keep what the
    allocated memory held. *)
Theorem init_hands_out_a_cleared_strip mem cfg max_leds :
  0 < max_leds <= 1024 ->
  length (pixel_data mem) = Z.to_nat max_leds ->
  Z.land (gpio_pin cfg) 0xff00 = 0 \/ Z.land (gpio_pin cfg) 0xff = 0 ->
  exists m,
    PIOS_WS2811_init (Some mem) cfg max_leds = Ok (0, Some m) /\
    well_formed (device m) /\
    WS2811.max_leds (device m) = max_leds /\ WS2811.cfg (device m) = cfg /\
    pixel_data (device m) = replicate (Z.to_nat max_leds) {| r := 0; g := 0; b := 0 |} /\
    pixels_are_bytes (pixel_data (device m)) /\
    gpio_bit (device m) =
      (if Z.land (gpio_pin cfg) 0xff00 =? 0 then to_uint8 (gpio_pin cfg)
       else to_uint8 (Z.shiftr (gpio_pin cfg) 8)) /\
    lame_dma_buf (device m) = gpio_bit (device m) /\
    dma_buf_0 (device m) = prefilled (gpio_bit (device m)) /\
    dma_buf_1 (device m) = prefilled (gpio_bit (device m)) /\
    hardware m = [GpioInit (gpio_pin cfg)] /\
    (in_progress (device m), eof (device m), cur_buf (device m), pixel_data_pos (device m)) =
      (in_progress mem, eof mem, cur_buf mem, pixel_data_pos mem).
Proof.
  intros Hmax Hlen Hpin. eexists. split; [apply init_run; assumption|].
  cbn [device hardware WS2811.max_leds WS2811.cfg pixel_data gpio_bit lame_dma_buf
       dma_buf_0 dma_buf_1 in_progress eof cur_buf pixel_data_pos].
  split.
  { unfold well_formed.
    cbn [magic WS2811.max_leds pixel_data pixel_data_end dma_buf_0 dma_buf_1].
    rewrite length_replicate, !prefilled_length. repeat split; lia. }
  repeat match goal with |- _ /\ _ => split end; try reflexivity.
  unfold pixels_are_bytes. apply Forall_replicate. unfold is_uint8. cbn. lia.
Qed.

Lemma set_all_from_ok r g b n : forall i d,
  magic d = WS2811_MAGIC -> 0 <= i -> i + Z.of_nat n <= max_leds d ->
  exists d', set_all_from n i d r g b = Ok d'.
Proof.
  induction n as [|n IH]; intros i d Hmagic Hi Hmax.
  - eexists. reflexivity.
  - cbn [set_all_from]. rewrite set_in_range by (try assumption; lia).
    apply IH; cbn; (assumption || lia).
Qed.

(** X18: how [PIOS_WS2811_init] fails.  It stops in [PIOS_Assert] exactly
    when [max_leds] is outside 1 to 1024, or memory was obtained and the
    pin mask has bits in both bytes of the port; it returns -1 and no
    device exactly when [max_leds] is in range and there is no memory (the
    range is checked first); it never stores outside the pixel array. *)
Theorem init_refusals fresh cfg max_leds :
  (PIOS_WS2811_init fresh cfg max_leds = AssertFailed <->
   max_leds <= 0 \/ 1024 < max_leds \/
   (fresh <> None /\ Z.land (gpio_pin cfg) 0xff00 <> 0 /\ Z.land (gpio_pin cfg) 0xff <> 0)) /\
  (PIOS_WS2811_init fresh cfg max_leds = Ok (-1, None) <->
   0 < max_leds <= 1024 /\ fresh = None) /\
  PIOS_WS2811_init fresh cfg max_leds <> WildStore.
Proof.
  unfold PIOS_WS2811_init.
  destruct (Z.gtb_spec max_leds 0) as [H0|H0]; cbn [negb].
  2:{ split; [split; [intros _; lia | reflexivity]|].
      split; [split; [discriminate | lia] | discriminate]. }
  destruct (Z.leb_spec max_leds 1024) as [H1|H1]; cbn [negb].
  2:{ split; [split; [intros _; lia | reflexivity]|].
      split; [split; [discriminate | lia] | discriminate]. }
  destruct fresh as [mem|].
  2:{ split; [split; [discriminate | intros [?|[?|[? _]]]; (lia || congruence)]|].
      split; [split; [intros _; split; [lia | reflexivity] | reflexivity] | discriminate]. }
  destruct (Z.eqb_spec (Z.land (gpio_pin cfg) 65280) 0) as [Eh|Eh];
    destruct (Z.eqb_spec (Z.land (gpio_pin cfg) 255) 0) as [El|El]; cbn [negb andb].
  4:{ split; [split; [intros _; right; right; repeat split; (congruence || assumption)
                      | reflexivity]|].
      split; [split; [discriminate | intros [_ ?]; discriminate] | discriminate]. }
  all: cbv zeta;
    match goal with
    | |- context [PIOS_WS2811_set_all ?d 0 0 0] =>
        let H := fresh "H" in
        assert (H : exists d', PIOS_WS2811_set_all d 0 0 0 = Ok d');
        [ unfold PIOS_WS2811_set_all; cbn [magic]; rewrite Z.eqb_refl; cbn [negb];
          apply set_all_from_ok; cbn [magic WS2811.max_leds];
          [ reflexivity | lia
          | unfold to_uint16, wrap_unsigned; rewrite Z.mod_small by lia; lia ]
        | destruct H as (d' & ->) ]
    end.
  all: split; [split; [discriminate | intros [?|[?|(_ & ? & ?)]]; (lia || contradiction)]|].
  all: split; [split; [discriminate | intros [_ ?]; discriminate] | discriminate].
Qed.

(** X19: [PIOS_WS2811_init] does not initialise [in_progress].  When the
    memory it was given has that byte set, the device it hands out ignores
    [PIOS_WS2811_trigger_update]: the call returns at once and no DMA
    transfer is ever set up. *)
Theorem init_keeps_stale_in_progress mem cfg max_leds m :
  PIOS_WS2811_init (Some mem) cfg max_leds = Ok (0, Some m) ->
  in_progress (device m) = in_progress mem /\
  hardware m = [GpioInit (gpio_pin cfg)] /\
  (in_progress mem = true -> PIOS_WS2811_trigger_update m = m).
Proof.
  unfold PIOS_WS2811_init.
  destruct (negb (max_leds >? 0)); [discriminate|].
  destruct (negb (max_leds <=? 1024)); [discriminate|].
  destruct (_ && _); [discriminate|]. cbv zeta.
  match goal with
  | |- context [PIOS_WS2811_set_all ?d 0 0 0] =>
      destruct (PIOS_WS2811_set_all d 0 0 0) as [d'| |] eqn:Hall; [|discriminate..]
  end.
  intros [= <-]. apply set_all_in_progress in Hall. cbn [in_progress] in Hall.
  cbn [device hardware]. split; [exact Hall|]. split; [reflexivity|].
  intros Hstale. apply trigger_update_early_return. cbn [device].
  rewrite Hall. exact Hstale.
Qed.

(** *** Sequences of calls *)

Lemma set_frame d idx r g b d' :
  PIOS_WS2811_set d idx r g b = Ok d' ->
  d' = with_pixel_data d (pixel_data d') /\ length (pixel_data d') = length (pixel_data d).
Proof.
  unfold PIOS_WS2811_set.
  destruct (negb (magic d =? WS2811_MAGIC)); [discriminate|].
  destruct (negb (idx <? max_leds d)); [discriminate|].
  destruct (idx <? 0); [discriminate|].
  intros [= <-]. cbn. rewrite length_insert. split; reflexivity.
Qed.

Lemma set_all_from_frame r g b n : forall i d d',
  set_all_from n i d r g b = Ok d' ->
  d' = with_pixel_data d (pixel_data d') /\ length (pixel_data d') = length (pixel_data d).
Proof.
  induction n as [|n IH]; intros i d d'; cbn [set_all_from].
  - intros [= <-]. destruct d; split; reflexivity.
  - destruct (PIOS_WS2811_set d i r g b) as [d1| |] eqn:Hset; [|discriminate..].
    intros H. destruct (IH _ _ _ H) as [E L]. destruct (set_frame _ _ _ _ _ _ Hset) as [E1 L1].
    split; [|congruence]. rewrite E, E1. reflexivity.
Qed.

Lemma set_all_frame d r g b d' :
  PIOS_WS2811_set_all d r g b = Ok d' ->
  d' = with_pixel_data d (pixel_data d') /\ length (pixel_data d') = length (pixel_data d).
Proof.
  unfold PIOS_WS2811_set_all.
  destruct (negb (magic d =? WS2811_MAGIC)); [discriminate|].
  apply set_all_from_frame.
Qed.

(** X22: after the first [PIOS_WS2811_trigger_update], whatever calls with
    indices that are not negative follow, the device differs from the one
    that update left only in its pixels: both DMA buffers, the cursor and
    the flags are frozen, and the DMA is not cued again.  Colours set
    later never reach the buffers. *)
Theorem buffers_frozen_within_bounds m0 cs m :
  after_trigger m0 cs m -> Forall index_not_negative cs ->
  let t := PIOS_WS2811_trigger_update m0 in
  with_pixel_data (device m) (pixel_data (device t)) = device t /\
  hardware m = hardware t.
Proof.
  intros Hreach Hcs. cbv zeta.
  assert (Hin : in_progress (device m) = true /\
                with_pixel_data (device m) (pixel_data (device (PIOS_WS2811_trigger_update m0)))
                = device (PIOS_WS2811_trigger_update m0) /\
                hardware m = hardware (PIOS_WS2811_trigger_update m0)).
  { induction Hreach as [|cs m c m' _ IH Hstep].
    - split; [apply trigger_update_sets_in_progress|].
      split; [destruct (device (PIOS_WS2811_trigger_update m0)); reflexivity | reflexivity].
    - apply Forall_cons in Hcs as [Hc Hcs].
      destruct (IH Hcs) as (Hin & Hdev & Hhw).
      split; [eapply step_in_progress; eassumption|].
      destruct Hstep as [m idx r g b d Hset | m idx r g b d Hset _ | m r g b d Hset | m].
      + apply set_frame in Hset as [E _]. rewrite E. split; [exact Hdev | exact Hhw].
      + apply set_wild_store_negative in Hset. cbn in Hc. lia.
      + apply set_all_frame in Hset as [E _]. rewrite E. split; [exact Hdev | exact Hhw].
      + rewrite (trigger_update_early_return m Hin). split; [exact Hdev | exact Hhw]. }
  destruct Hin as (_ & H1 & H2). split; assumption.
Qed.

(** X23: every call with an index that is not negative keeps the device
    well formed when it returns: the magic, the LED count, the size of the
    pixel array, its end and the sizes of both DMA buffers. *)
Theorem calls_within_bounds_keep_well_formed m c m' :
  step m c m' -> index_not_negative c ->
  well_formed (device m) -> well_formed (device m').
Proof.
  intros Hstep Hc (Hmagic & Hmax & Hpx & Hend & Hl0 & Hl1).
  destruct Hstep as [m idx r g b d Hset | m idx r g b d Hset _ | m r g b d Hset | m].
  - apply set_frame in Hset as [E L]. rewrite E. unfold well_formed.
    cbn -[WS2811_DMA_BUFSIZE]. rewrite L. auto 10.
  - apply set_wild_store_negative in Hset. cbn in Hc. lia.
  - apply set_all_frame in Hset as [E L]. rewrite E. unfold well_formed.
    cbn -[WS2811_DMA_BUFSIZE]. rewrite L. auto 10.
  - unfold PIOS_WS2811_trigger_update.
    destruct (in_progress (device m)); [unfold well_formed; auto 10|].
    unfold fill_dma_buf.
    pose proof (fill_slots_length (WS2811_DMA_BUFSIZE / 16) 0 (dma_buf_0 (device m))
                  (pixel_bytes (pixel_data (device m))) 0 (pixel_data_end (device m))
                  (gpio_bit (device m))) as L0.
    destruct (fill_slots _ 0 (dma_buf_0 (device m)) _ _ _ _) as [buf0 pos0].
    pose proof (fill_slots_length (WS2811_DMA_BUFSIZE / 16) 0 (dma_buf_1 (device m))
                  (pixel_bytes (pixel_data (device m))) pos0 (pixel_data_end (device m))
                  (gpio_bit (device m))) as L1.
    destruct (fill_slots _ 0 (dma_buf_1 (device m)) _ _ _ _) as [buf1 pos1].
    cbn [fst snd] in *. unfold well_formed. cbn -[WS2811_DMA_BUFSIZE].
    rewrite L0, L1. auto 10.
Qed.

(** *** On the two-LED strip *)

Lemma strip_well_formed : well_formed (device strip).
Proof. unfold well_formed. cbn. repeat split; lia. Defined.

Lemma strip_pixels_are_bytes : pixels_are_bytes (pixel_data (device strip)).
Proof. repeat constructor; unfold is_uint8; cbn; lia. Defined.

Lemma set_stores_one_pixel_witness :
  exists d',
    PIOS_WS2811_set (device strip) 1 255 0 16 = Ok d' /\
    pixel_data d' !! 1%nat = Some {| r := 255; g := 0; b := 16 |} /\
    pixel_data d' !! 0%nat = pixel_data (device strip) !! 0%nat.
Proof.
  destruct (set_stores_one_pixel (device strip) 1 255 0 16) as [Hok _].
  - exact strip_well_formed.
  - lia.
  - destruct Hok as (d' & Hrun & _ & Hget & Hother & _); [cbn; lia|].
    exists d'. split; [exact Hrun|]. split; [exact Hget | apply Hother; discriminate].
Defined.

Lemma set_all_fills_witness :
  exists d',
    PIOS_WS2811_set_all (device strip) 1 2 3 = Ok d' /\
    pixel_data d' !! 1%nat = Some {| r := 1; g := 2; b := 3 |}.
Proof.
  destruct (set_all_fills (device strip) 1 2 3) as (d' & Hrun & _ & _ & Hall & _).
  - exact strip_well_formed.
  - exists d'. split; [exact Hrun | apply Hall; cbn; lia].
Defined.

Lemma init_hands_out_a_cleared_strip_witness :
  exists m,
    PIOS_WS2811_init (Some strip_memory) strip_cfg 2 = Ok (0, Some m) /\
    well_formed (device m) /\
    pixel_data (device m) = replicate 2 {| r := 0; g := 0; b := 0 |}.
Proof.
  destruct (init_hands_out_a_cleared_strip strip_memory strip_cfg 2)
    as (m & Hrun & Hwf & _ & _ & Hpx & _).
  - lia.
  - reflexivity.
  - left. reflexivity.
  - exists m. split; [exact Hrun|]. split; [exact Hwf | exact Hpx].
Defined.

Lemma init_keeps_stale_in_progress_witness :
  PIOS_WS2811_init (Some stale_memory) strip_cfg 2 = Ok (0, Some stale_strip) /\
  PIOS_WS2811_trigger_update stale_strip = stale_strip /\
  hardware stale_strip = [GpioInit 8].
Proof.
  assert (Hinit : PIOS_WS2811_init (Some stale_memory) strip_cfg 2 = Ok (0, Some stale_strip))
    by (vm_compute; reflexivity).
  destruct (init_keeps_stale_in_progress stale_memory strip_cfg 2 stale_strip Hinit)
    as (_ & H2 & H3).
  split; [exact Hinit|]. split; [apply H3; reflexivity | exact H2].
Defined.

Lemma fill_dma_buf_encodes_witness :
  exists buf,
    fill_dma_buf (prefilled 8) [0xB0; 0; 0] 1 3 8 = (buf, 3%nat, true) /\
    buf !! 16%nat = Some (encoded_cell 0 0 8) /\
    buf !! 32%nat = prefilled 8 !! 32%nat.
Proof.
  destruct (fill_dma_buf_encodes (prefilled 8) [0xB0; 0; 0] 1 3 8)
    as (buf & Hrun & _ & _ & Hcell & Hstale & _).
  - reflexivity.
  - repeat constructor; unfold is_uint8; lia.
  - cbn. lia.
  - exists buf. split; [exact Hrun|]. split.
    + apply (Hcell 1%nat 0%nat); cbn; lia.
    + apply Hstale. cbn. lia.
Defined.

Lemma trigger_update_encodes_witness :
  in_progress (device (PIOS_WS2811_trigger_update strip)) = true /\
  pixel_data_pos (device (PIOS_WS2811_trigger_update strip)) = 6%nat /\
  hardware (PIOS_WS2811_trigger_update strip) = [GpioInit 8; DmaCue 2 288].
Proof.
  destruct (trigger_update_encodes strip) as (Hin & _ & _ & Hpos & _ & _ & _ & _ & _ & Hhw & _).
  - exact strip_well_formed.
  - exact strip_pixels_are_bytes.
  - reflexivity.
  - split; [exact Hin|]. split; [exact Hpos | exact Hhw].
Defined.

Lemma buffers_frozen_within_bounds_witness :
  exists m,
    after_trigger strip [CallSetAll 9 9 9] m /\
    dma_buf_0 (device m) = dma_buf_0 (device (PIOS_WS2811_trigger_update strip)) /\
    hardware m = hardware (PIOS_WS2811_trigger_update strip).
Proof.
  assert (Hstep : step (PIOS_WS2811_trigger_update strip) (CallSetAll 9 9 9)
                    (with_device (PIOS_WS2811_trigger_update strip)
                       (with_pixel_data (device (PIOS_WS2811_trigger_update strip))
                          (replicate 2 {| r := 9; g := 9; b := 9 |})))).
  { apply step_set_all. vm_compute. reflexivity. }
  assert (Hreach := after_more strip [] _ _ _ (after_first strip) Hstep).
  eexists. split; [exact Hreach|].
  destruct (buffers_frozen_within_bounds strip [CallSetAll 9 9 9] _ Hreach) as [Hdev Hhw].
  - repeat constructor.
  - split; [|exact Hhw]. exact (f_equal dma_buf_0 Hdev).
Defined.

Lemma calls_within_bounds_keep_well_formed_witness :
  well_formed
    (with_pixel_data (device strip)
       (<[1%nat := {| r := 9; g := 9; b := 9 |}]> (pixel_data (device strip)))).
Proof.
  apply (calls_within_bounds_keep_well_formed strip (CallSet 1 9 9 9)
           (with_device strip
              (with_pixel_data (device strip)
                 (<[1%nat := {| r := 9; g := 9; b := 9 |}]> (pixel_data (device strip)))))).
  - apply step_set. vm_compute. reflexivity.
  - cbn. lia.
  - exact strip_well_formed.
Defined.

End WS2811_More.
